(** * StreamVibe backend: the notice controller

    A shallow embedding of [controllers/noticeController.js] and of the
    [NoticeSchema] it persists through, followed by the properties of the
    notice life cycle (create, list, get, update, delete, stats) and of the
    notification fan-out.

    The document database and the web framework are external collaborators.
    They are modelled here by an explicit [World] (the three collections), by
    a small state-and-exception monad for the [async] handlers, and by an
    environment [Env] that fixes the clock and says which database calls
    reject. *)

From Stdlib Require Import ZArith NArith List String Ascii Bool Lia.
From Stdlib Require Import DecimalString.
From Stdlib Require Import Permutation Sorted.
Import ListNotations.

Local Open Scope Z_scope.

(** ** JavaScript values as the handlers see them *)

Module Js.

(** A value decoded from a JSON request body, where the handlers read a
    loosely typed field: absent, null, a scalar or an array.  Numbers are
    the integers; arrays are arrays of strings, the only arrays the schema's
    selectors hold. *)
Inductive value : Type :=
| Undefined
| Null
| Bool (b : bool)
| Num (z : Z)
| Str (s : string)
| Arr (xs : list string).

(** [ToBoolean]: what [if (v)], [!v] and [v && w] test. *)
Definition truthy (v : value) : bool :=
  match v with
  | Undefined | Null => false
  | Bool b => b
  | Num z => negb (z =? 0)
  | Str s => negb (String.eqb s EmptyString)
  | Arr _ => true
  end.

Definition isArray (v : value) : bool :=
  match v with Arr _ => true | _ => false end.

(** [String(z)] for an integer. *)
Definition number_string (z : Z) : string :=
  NilZero.string_of_int (Z.to_int z).

(** [String(b)] *)
Definition bool_string (b : bool) : string :=
  if b then "true"%string else "false"%string.

(** A query-string parameter is absent or a string; the empty string is
    falsy. *)
Definition truthy_str (p : option string) : bool :=
  match p with
  | Some s => negb (String.eqb s EmptyString)
  | None => false
  end.

Definition is_space (c : ascii) : bool :=
  let n := nat_of_ascii c in
  ((n =? 9) || (n =? 10) || (n =? 11) || (n =? 12) || (n =? 13)
   || (n =? 32) || (n =? 160))%nat.

Fixpoint trim_start (s : string) : string :=
  match s with
  | EmptyString => EmptyString
  | String c r => if is_space c then trim_start r else s
  end.

Fixpoint trim_end (s : string) : string :=
  match s with
  | EmptyString => EmptyString
  | String c r =>
      match trim_end r with
      | EmptyString => if is_space c then EmptyString else String c EmptyString
      | r' => String c r'
      end
  end.

(** [String.prototype.trim] *)
Definition trim (s : string) : string := trim_end (trim_start s).

Definition between (lo hi n : nat) : bool := ((lo <=? n) && (n <=? hi))%nat.

Definition dec_digit (c : ascii) : option Z :=
  let n := nat_of_ascii c in
  if between 48 57 n then Some (Z.of_nat (n - 48)) else None.

Definition hex_digit (c : ascii) : option Z :=
  let n := nat_of_ascii c in
  if between 48 57 n then Some (Z.of_nat (n - 48))
  else if between 97 102 n then Some (Z.of_nat (n - 87))
  else if between 65 70 n then Some (Z.of_nat (n - 55))
  else None.

(** The longest prefix of digits, read in the given radix; [None] when
    there is no digit at all. *)
Fixpoint digits (dv : ascii -> option Z) (radix : Z) (acc : option Z)
         (s : string) : option Z :=
  match s with
  | EmptyString => acc
  | String c r =>
      match dv c with
      | Some d =>
          digits dv radix
                 (Some (radix * match acc with Some a => a | None => 0 end + d)) r
      | None => acc
      end
  end.

(** [parseInt(s)] without a radix argument; [None] is [NaN].  Integers are
    exact here (the counts and page numbers involved stay far below
    2^53). *)
Definition parseInt (s : string) : option Z :=
  let s1 := trim_start s in
  let '(sign, s2) :=
    match s1 with
    | String "-"%char r => (-1, r)
    | String "+"%char r => (1, r)
    | _ => (1, s1)
    end in
  match s2 with
  | String "0"%char (String "x"%char r) | String "0"%char (String "X"%char r) =>
      option_map (Z.mul sign) (digits hex_digit 16 None r)
  | _ => option_map (Z.mul sign) (digits dec_digit 10 None s2)
  end.

(** [parseInt(p)] for a destructured query parameter with a numeric
    default: the default applies when the parameter is absent. *)
Definition parseInt_param (default : Z) (p : option string) : option Z :=
  match p with
  | None => Some default
  | Some s => parseInt s
  end.

End Js.

(** ** Regular-expression search, [{ $regex: p, $options: 'i' }]

    The pattern language of the database is far larger than what the
    properties below need.  Patterns made of ordinary characters and of the wildcard [.] are
    interpreted here; every other pattern is handed to the engine of the
    environment (see [Env]). *)

Module Regex.

Definition is_meta (c : ascii) : bool :=
  existsb (Ascii.eqb c)
          ["\"%char; "^"%char; "$"%char; "."%char; "*"%char; "+"%char;
           "?"%char; "("%char; ")"%char; "["%char; "]"%char; "{"%char;
           "}"%char; "|"%char].

(** ASCII case folding, the [i] option. *)
Definition lower (c : ascii) : ascii :=
  let n := nat_of_ascii c in
  if Js.between 65 90 n then ascii_of_nat (n + 32) else c.

Fixpoint lower_str (s : string) : string :=
  match s with
  | EmptyString => EmptyString
  | String c r => String (lower c) (lower_str r)
  end.

Inductive atom : Type :=
| Lit (c : ascii)
| AnyChar.

Fixpoint parse (p : string) : option (list atom) :=
  match p with
  | EmptyString => Some []
  | String c r =>
      match parse r with
      | None => None
      | Some atoms =>
          if Ascii.eqb c "."%char then Some (AnyChar :: atoms)
          else if is_meta c then None
          else Some (Lit c :: atoms)
      end
  end.

Definition atom_ok (a : atom) (c : ascii) : bool :=
  match a with
  | Lit l => Ascii.eqb (lower l) (lower c)
  | AnyChar => negb (Ascii.eqb c "010"%char)
  end.

(** The pattern matches a prefix of the subject. *)
Fixpoint match_here (p : list atom) (s : string) : bool :=
  match p, s with
  | [], _ => true
  | _ :: _, EmptyString => false
  | a :: p', String c r => atom_ok a c && match_here p' r
  end.

(** The pattern matches somewhere in the subject (an unanchored regex). *)
Fixpoint search (p : list atom) (s : string) : bool :=
  match_here p s
  || match s with
     | EmptyString => false
     | String _ r => search p r
     end.

(** A pattern without any metacharacter. *)
Definition literal (p : string) : bool :=
  forallb (fun c => negb (is_meta c)) (list_ascii_of_string p).

End Regex.

(** The wording of the specification: the term occurs in the text, letter
    case ignored. *)
Definition ci_substring (needle hay : string) : Prop :=
  exists pre post : string,
    Regex.lower_str hay
    = (pre ++ Regex.lower_str needle ++ post)%string.

(** ** Documents *)

Definition ObjectId : Type := N.

Module TargetAudience.
Record t : Type := mk {
  branches : option (list string);
  years : option (list string)
}.
End TargetAudience.

(** A stored notice.  [title], [content], [category], [branch], [year],
    [teacher] and [createdAt] are the paths of [NoticeSchema]; the other
    fields are the ones the controller writes and reads ([targetAudience],
    [scheduledFor], [priority], [attachmentUrl], [author], [isPublished],
    [views], [updatedAt]).  [isPublished] is [None] when the stored flag is
    [null]. *)
Module Notice.
Record t : Type := mk {
  _id : ObjectId;
  title : string;
  content : string;
  category : string;
  branch : option string;
  year : option Z;
  teacher : option ObjectId;
  targetAudience : option TargetAudience.t;
  scheduledFor : Js.value;
  priority : option string;
  attachmentUrl : option string;
  author : ObjectId;
  isPublished : option bool;
  views : Z;
  createdAt : Z;
  updatedAt : option Z
}.

(** [notice.isPublished] in a boolean position *)
Definition published (n : t) : bool :=
  match isPublished n with Some b => b | None => false end.
End Notice.

(** Modelled from the spec: the [User] model is not part of the sources; a
    user has an identity, a display name, a role (student, teacher or admin),
    a branch and a year, and is only ever used as a filter target. *)
Module User.
Record t : Type := mk {
  _id : ObjectId;
  name : string;
  role : string;
  branch : string;
  year : string
}.
End User.

(** A notification as [createNotifications] builds it. *)
Module Notification.
Record t : Type := mk {
  recipient : ObjectId;
  type : string;
  title : string;
  message : string;
  noticeId : ObjectId;
  category : string;
  priority : option string
}.
End Notification.

(** ** Requests and responses *)

Module AudienceIn.
Record t : Type := mk {
  branches : Js.value;
  years : Js.value
}.
End AudienceIn.

(** [req.body] of POST and PUT: text fields are absent or strings, the
    loosely typed ones are JavaScript values. *)
Module Body.
Record t : Type := mk {
  title : option string;
  content : option string;
  category : option string;
  targetAudience : option AudienceIn.t;
  scheduledFor : Js.value;
  priority : option string;
  attachmentUrl : option string;
  isPublished : Js.value
}.
End Body.

(** [req.query] of GET /notices.  [year] and [teacher] stand for non-empty
    query-string values, given as the number and the identifier the store
    casts them to. *)
Module Params.
Record t : Type := mk {
  category : option string;
  branch : option string;
  year : option Z;
  teacher : option ObjectId;
  search : option string;
  page : option string;
  limit : option string
}.
End Params.

(** [req.user], set by the authentication middleware. *)
Module Actor.
Record t : Type := mk {
  _id : ObjectId;
  role : string
}.
End Actor.

(** A notice after [populate('teacher', 'name')]. *)
Module Populated.
Record t : Type := mk {
  doc : Notice.t;
  teacher_name : option string
}.
End Populated.

Inductive Payload : Type :=
| Failure (error : string)
| NoticeData (data : option Notice.t)
| PopulatedData (data : Populated.t)
| Page (count total : Z) (totalPages page : option Z) (data : list Populated.t)
| Empty
| Stats (categoryStats : list (string * Z * Z))
        (priorityStats : list (option string * Z))
        (monthlyStats : list (Z * Z * Z)).

Record Response : Type := respond {
  status : Z;
  payload : Payload
}.

(** The [success] field of the JSON body. *)
Definition success (r : Response) : bool :=
  match payload r with Failure _ => false | _ => true end.

(** ** The world, the environment and the handler monad *)

Record World : Type := mkWorld {
  notices : list Notice.t;
  users : list User.t;
  notifications : list Notification.t;
  next_id : ObjectId;
  (** ghost: the arguments of the calls of [createNotifications], oldest
      first *)
  fanouts : list (option Notice.t)
}.

(** Which database calls reject for a reason that is not the request's own
    (connection lost, write refused, an identifier that cannot be cast), with
    the message of the error.  A failing bulk insert may have written a
    prefix of its batch. *)
Record Faults : Type := mkFaults {
  notice_create : option string;
  notice_find : option string;
  notice_count : option string;
  notice_findById : option string;
  notice_update : option string;
  notice_remove : option string;
  notice_aggregate : nat -> option string;
  user_find : option string;
  notification_insert : option (nat * string)
}.

Definition no_faults : Faults :=
  mkFaults None None None None None None (fun _ => None) None None.

Record Env : Type := mkEnv {
  now : Z;
  faults : Faults;
  (** the store's regex engine on the patterns [Regex.parse] does not
      cover; [None]: the pattern is rejected *)
  pcre : string -> option (string -> bool)
}.

Inductive Error : Type :=
| ValidationError (prefix : string) (errors : list (string * string))
| CastError (msg : string)
| TypeError (msg : string)
| StoreError (msg : string).

Fixpoint join_errors (errors : list (string * string)) : string :=
  match errors with
  | [] => EmptyString
  | [(path, msg)] => (path ++ ": " ++ msg)%string
  | (path, msg) :: rest => (path ++ ": " ++ msg ++ ", " ++ join_errors rest)%string
  end.

(** [error.message] *)
Definition message (e : Error) : string :=
  match e with
  | ValidationError prefix errors => (prefix ++ ": " ++ join_errors errors)%string
  | CastError msg | TypeError msg | StoreError msg => msg
  end.

Inductive Outcome (A : Type) : Type :=
| Val (a : A)
| Throw (e : Error).
Arguments Val {A} a.
Arguments Throw {A} e.

Definition M (A : Type) : Type := World -> Outcome A * World.

Definition ret {A} (a : A) : M A := fun w => (Val a, w).

Definition throw {A} (e : Error) : M A := fun w => (Throw e, w).

Definition bind {A B} (m : M A) (k : A -> M B) : M B :=
  fun w =>
    match m w with
    | (Val a, w') => k a w'
    | (Throw e, w') => (Throw e, w')
    end.

(** [try { m } catch (error) { h error }] *)
Definition try_catch {A} (m : M A) (h : Error -> M A) : M A :=
  fun w =>
    match m w with
    | (Val a, w') => (Val a, w')
    | (Throw e, w') => h e w'
    end.

Definition get_world : M World := fun w => (Val w, w).

(** A rejecting database call *)
Definition reject_if {A} (fault : option string) (m : M A) : M A :=
  match fault with
  | Some msg => throw (StoreError msg)
  | None => m
  end.

Notation "x <- m ;; k" := (bind m (fun x => k))
  (at level 61, m at next level, right associativity).
Notation "m ;;; k" := (bind m (fun _ => k))
  (at level 61, right associativity).

(** An Express handler: the body runs inside [try]; the [catch] clause
    answers with the handler's own status and the error's message. *)
Definition handler (catch_status : Z) (m : M Response) : World -> Response * World :=
  fun w =>
    match m w with
    | (Val r, w') => (r, w')
    | (Throw e, w') => (respond catch_status (Failure (message e)), w')
    end.

(** ** The schema's validators *)

Module NoticeSchema.

Definition categories : list string :=
  ["General"; "Academic"; "Event"; "Important"; "Other"]%string.

(** The setter of [title] ([trim: true]); it runs before the validators. *)
Definition set_title (v : option string) : option string :=
  option_map Js.trim v.

(** Each path reports its first failing validator.  A path that is absent
    ([None]) fails [required]. *)
Definition check_title (v : option string) : list (string * string) :=
  match v with
  | None => [("title", "Please add a title")]%string
  | Some s =>
      if String.eqb s EmptyString then [("title", "Please add a title")]%string
      else if 100 <? Z.of_nat (String.length s)
           then [("title", "Title cannot be more than 100 characters")]%string
           else []
  end.

Definition check_content (v : option string) : list (string * string) :=
  match v with
  | None => [("content", "Please add content")]%string
  | Some s =>
      if String.eqb s EmptyString then [("content", "Please add content")]%string
      else if 1000 <? Z.of_nat (String.length s)
           then [("content", "Content cannot be more than 1000 characters")]%string
           else []
  end.

Definition check_category (v : option string) : list (string * string) :=
  match v with
  | None => [("category", "Please add a category")]%string
  | Some s =>
      if String.eqb s EmptyString then [("category", "Please add a category")]%string
      else if existsb (String.eqb s) categories then []
           else [("category",
                  "`" ++ s ++ "` is not a valid enum value for path `category`.")]%string
  end.

(** Modelled from the spec: the variant of the schema that the controller
    writes through (the paths [targetAudience], [scheduledFor], [priority],
    [attachmentUrl], [author], [isPublished] in place of the flat [branch],
    [year], [teacher]) is not among the sources.  By the data model it
    constrains [title], [content] and [category] as [NoticeSchema] does, and
    states no constraint on the other paths. *)
Definition validate (title content category : option string)
  : list (string * string) :=
  check_title (set_title title) ++ check_content content ++ check_category category.

(** Update validators ([runValidators: true]) look only at the paths the
    update sets. *)
Definition supplied (check : option string -> list (string * string))
           (v : option string) : list (string * string) :=
  match v with
  | None => []
  | Some _ => check v
  end.

Definition validate_update (title content category : option string)
  : list (string * string) :=
  supplied check_title (set_title title)
  ++ supplied check_content content
  ++ supplied check_category category.

(** The cast of a selector, a path that holds an array of strings: an
    array is kept as it is; a scalar becomes the array of one element, its
    string form; [null] and an absent selector leave the path unset. *)
Definition cast_selector (v : Js.value) : option (list string) :=
  match v with
  | Js.Arr xs => Some xs
  | Js.Str s => Some [s]
  | Js.Num z => Some [Js.number_string z]
  | Js.Bool b => Some [Js.bool_string b]
  | Js.Null | Js.Undefined => None
  end.

Definition cast_audience (a : AudienceIn.t) : TargetAudience.t :=
  TargetAudience.mk (cast_selector (AudienceIn.branches a))
                    (cast_selector (AudienceIn.years a)).

(** The cast of a Boolean path: [Some (Some b)] for the values that stand
    for a Boolean, [Some None] for [null], [None] for a cast error. *)
Definition castBoolean (v : Js.value) : option (option bool) :=
  match v with
  | Js.Bool b => Some (Some b)
  | Js.Num 1 => Some (Some true)
  | Js.Num 0 => Some (Some false)
  | Js.Str s =>
      if existsb (String.eqb s) ["true"; "1"; "yes"]%string then Some (Some true)
      else if existsb (String.eqb s) ["false"; "0"; "no"]%string then Some (Some false)
      else None
  | Js.Null | Js.Undefined => Some None
  | _ => None
  end.

End NoticeSchema.

(** ** The collections *)

Definition or_empty (v : option string) : string :=
  match v with Some s => s | None => EmptyString end.

Definition find_notice (id : ObjectId) (ns : list Notice.t) : option Notice.t :=
  find (fun n => N.eqb (Notice._id n) id) ns.

Definition set_notices (ns : list Notice.t) (w : World) : World :=
  mkWorld ns (users w) (notifications w) (next_id w) (fanouts w).

(** The document [Notice.create] stores: the cast fields, a fresh
    identifier and the schema's defaults. *)
Definition new_notice (env : Env) (id : ObjectId)
           (title content category : option string)
           (targetAudience : option AudienceIn.t) (scheduledFor : Js.value)
           (priority attachmentUrl : option string)
           (author : ObjectId) (isPublished : bool) : Notice.t :=
  Notice.mk id
            (or_empty (NoticeSchema.set_title title))
            (or_empty content) (or_empty category)
            None None None
            (option_map NoticeSchema.cast_audience targetAudience)
            scheduledFor priority attachmentUrl author
            (Some isPublished) 0 (now env) None.

(** [Notice.create(doc)]: setters, validators, then the insert. *)
Definition Notice_create (env : Env)
           (title content category : option string)
           (targetAudience : option AudienceIn.t) (scheduledFor : Js.value)
           (priority attachmentUrl : option string)
           (author : ObjectId) (isPublished : bool) : M Notice.t :=
  match NoticeSchema.validate title content category with
  | [] =>
      reject_if (notice_create (faults env))
        (fun w =>
           let n := new_notice env (next_id w) title content category
                               targetAudience scheduledFor priority
                               attachmentUrl author isPublished in
           (Val n,
            mkWorld (notices w ++ [n]) (users w) (notifications w)
                    (N.succ (next_id w)) (fanouts w)))
  | errors => throw (ValidationError "Notice validation failed" errors)
  end.

(** [Notice.findById(id)] *)
Definition Notice_findById (env : Env) (id : ObjectId) : M (option Notice.t) :=
  reject_if (notice_findById (faults env))
    (w <- get_world ;; ret (find_notice id (notices w))).

Definition keep {A} (new : option A) (old : A) : A :=
  match new with Some a => a | None => old end.

(** The replacement of the supplied fields; a field that is [undefined] in
    the update is left as it is. *)
Definition apply_update (b : Body.t) (flag : option bool) (stamp : Z)
           (n : Notice.t) : Notice.t :=
  Notice.mk (Notice._id n)
            (keep (NoticeSchema.set_title (Body.title b)) (Notice.title n))
            (keep (Body.content b) (Notice.content n))
            (keep (Body.category b) (Notice.category n))
            (Notice.branch n) (Notice.year n) (Notice.teacher n)
            (match Body.targetAudience b with
             | Some a => Some (NoticeSchema.cast_audience a)
             | None => Notice.targetAudience n
             end)
            (match Body.scheduledFor b with
             | Js.Undefined => Notice.scheduledFor n
             | v => v
             end)
            (match Body.priority b with
             | Some p => Some p
             | None => Notice.priority n
             end)
            (match Body.attachmentUrl b with
             | Some u => Some u
             | None => Notice.attachmentUrl n
             end)
            (Notice.author n)
            (match Body.isPublished b with
             | Js.Undefined => Notice.isPublished n
             | _ => flag
             end)
            (Notice.views n) (Notice.createdAt n) (Some stamp).

Definition replace_notice (n' : Notice.t) (ns : list Notice.t) : list Notice.t :=
  map (fun n => if N.eqb (Notice._id n) (Notice._id n') then n' else n) ns.

(** [Notice.findByIdAndUpdate(id, update, { new: true, runValidators: true })]:
    the update is cast and validated, then written; the answer is the
    document after the update, or [null] when the identifier is unknown. *)
Definition Notice_findByIdAndUpdate (env : Env) (id : ObjectId) (b : Body.t)
  : M (option Notice.t) :=
  match NoticeSchema.castBoolean (Body.isPublished b) with
  | None => throw (CastError "Cast to Boolean failed at path isPublished")
  | Some flag =>
      match NoticeSchema.validate_update (Body.title b) (Body.content b)
                                         (Body.category b) with
      | [] =>
          reject_if (notice_update (faults env))
            (fun w =>
               match find_notice id (notices w) with
               | None => (Val None, w)
               | Some n =>
                   let n' := apply_update b flag (now env) n in
                   (Val (Some n'), set_notices (replace_notice n' (notices w)) w)
               end)
      | errors => throw (ValidationError "Validation failed" errors)
      end
  end.

(** [notice.remove()] *)
Definition Notice_remove (env : Env) (n : Notice.t) : M unit :=
  reject_if (notice_remove (faults env))
    (fun w =>
       (Val tt,
        set_notices
          (filter (fun m => negb (N.eqb (Notice._id m) (Notice._id n))) (notices w))
          w)).

(** The recipient query of the fan-out: [{ role, branch: { $in }, year: { $in } }] *)
Module UserQuery.
Record t : Type := mk {
  role : string;
  branch_in : option (list string);
  year_in : option (list string)
}.
End UserQuery.

Definition includes (xs : list string) (x : string) : bool :=
  existsb (String.eqb x) xs.

Definition in_selector (sel : option (list string)) (x : string) : bool :=
  match sel with
  | Some xs => includes xs x
  | None => true
  end.

Definition user_matches (q : UserQuery.t) (u : User.t) : bool :=
  String.eqb (User.role u) (UserQuery.role q)
  && in_selector (UserQuery.branch_in q) (User.branch u)
  && in_selector (UserQuery.year_in q) (User.year u).

(** [User.find(query)] *)
Definition User_find (env : Env) (q : UserQuery.t) : M (list User.t) :=
  reject_if (user_find (faults env))
    (w <- get_world ;; ret (filter (user_matches q) (users w))).

(** [Notification.insertMany(docs)]: one bulk write, in order. *)
Definition Notification_insertMany (env : Env) (docs : list Notification.t)
  : M unit :=
  fun w =>
    match notification_insert (faults env) with
    | Some (written, msg) =>
        (Throw (StoreError msg),
         mkWorld (notices w) (users w)
                 (notifications w ++ firstn written docs)
                 (next_id w) (fanouts w))
    | None =>
        (Val tt,
         mkWorld (notices w) (users w) (notifications w ++ docs)
                 (next_id w) (fanouts w))
    end.

(** ** The notification fan-out, [createNotifications] *)

Definition log_fanout (notice : option Notice.t) : M unit :=
  fun w =>
    (Val tt,
     mkWorld (notices w) (users w) (notifications w) (next_id w)
             (fanouts w ++ [notice])).

(** Lines 230-242: the query starts as [{ role: 'student' }] and is narrowed
    by each selector that is present and does not include ['All']. *)
Definition recipient_query (n : Notice.t) : UserQuery.t :=
  match Notice.targetAudience n with
  | Some ta =>
      UserQuery.mk
        "student"
        (match TargetAudience.branches ta with
         | Some branches =>
             if negb (includes branches "All") then Some branches else None
         | None => None
         end)
        (match TargetAudience.years ta with
         | Some years =>
             if negb (includes years "All") then Some years else None
         | None => None
         end)
  | None => UserQuery.mk "student" None None
  end.

(** Lines 247-257: the notification built for one student. *)
Definition notification_for (n : Notice.t) (student : User.t) : Notification.t :=
  Notification.mk (User._id student) "notice_posted" "New Notice"
                  (Notice.title n)
                  (Notice._id n) (Notice.category n) (Notice.priority n).

(** The whole body runs inside [try]; the [catch] clause logs and returns.
    A [null] argument makes the first property access throw. *)
Definition createNotifications (env : Env) (notice : option Notice.t) : M unit :=
  log_fanout notice ;;;
  try_catch
    (match notice with
     | None => throw (TypeError "Cannot read properties of null")
     | Some n =>
         students <- User_find env (recipient_query n) ;;
         Notification_insertMany env (map (notification_for n) students)
     end)
    (fun _ => ret tt).

(** ** [createNotice], POST /api/notices *)

(** Lines 23-36: a selector that is truthy and not an array is refused. *)
Definition bad_selector (v : Js.value) : bool :=
  Js.truthy v && negb (Js.isArray v).

(** The early return of lines 23-36, if any: its error message. *)
Definition audience_guard (targetAudience : option AudienceIn.t) : option string :=
  match targetAudience with
  | Some ta =>
      if bad_selector (AudienceIn.branches ta) then Some "Branches must be an array"%string
      else if bad_selector (AudienceIn.years ta) then Some "Years must be an array"%string
      else None
  | None => None
  end.

Definition createNotice (env : Env) (user : Actor.t) (b : Body.t)
  : World -> Response * World :=
  handler 400
    (match audience_guard (Body.targetAudience b) with
     | Some msg => ret (respond 400 (Failure msg))
     | None =>
         notice <- Notice_create env (Body.title b) (Body.content b)
                     (Body.category b) (Body.targetAudience b)
                     (Body.scheduledFor b) (Body.priority b)
                     (Body.attachmentUrl b) (Actor._id user)
                     (negb (Js.truthy (Body.scheduledFor b))) ;;
         (if negb (Js.truthy (Body.scheduledFor b))
          then createNotifications env (Some notice)
          else ret tt) ;;;
         ret (respond 201 (NoticeData (Some notice)))
     end).

(** ** [NoticeSchema] as it stands *)

(** The file of the model declares six validated paths: next to [title],
    [content] and [category] it requires a [branch] of its enumeration, a
    [year] between 1 and 4 and a [teacher]. *)
Module FlatSchema.

Definition branches : list string := ["CSE"; "ECE"; "EEE"; "ME"; "CE"]%string.

Definition check_branch (v : option string) : list (string * string) :=
  match v with
  | None => [("branch", "Please add a branch")]%string
  | Some s =>
      if String.eqb s EmptyString then [("branch", "Please add a branch")]%string
      else if existsb (String.eqb s) branches then []
           else [("branch",
                  "`" ++ s ++ "` is not a valid enum value for path `branch`.")]%string
  end.

Definition check_year (v : option Z) : list (string * string) :=
  match v with
  | None => [("year", "Please add a year")]%string
  | Some y =>
      if y <? 1
      then [("year", "Path `year` (" ++ Js.number_string y
                     ++ ") is less than minimum allowed value (1).")]%string
      else if 4 <? y
           then [("year", "Path `year` (" ++ Js.number_string y
                          ++ ") is more than maximum allowed value (4).")]%string
           else []
  end.

Definition check_teacher (v : option ObjectId) : list (string * string) :=
  match v with
  | None => [("teacher", "Path `teacher` is required.")]%string
  | Some _ => []
  end.

Definition validate (title content category branch : option string)
           (year : option Z) (teacher : option ObjectId)
  : list (string * string) :=
  NoticeSchema.check_title (NoticeSchema.set_title title)
  ++ NoticeSchema.check_content content
  ++ NoticeSchema.check_category category
  ++ check_branch branch ++ check_year year ++ check_teacher teacher.

(** The document [createNotice] builds (lines 39-49) carries neither
    [branch] nor [year] nor [teacher]. *)
Definition of_controller (title content category : option string)
  : list (string * string) :=
  validate title content category None None None.

End FlatSchema.

(** [Notice.create] and [createNotice] with the validators of the schema in
    force as a parameter; [createNotice] above is the instance at
    [NoticeSchema.validate]. *)
Definition Notice_create_under
           (validate : option string -> option string -> option string
                       -> list (string * string))
           (env : Env)
           (title content category : option string)
           (targetAudience : option AudienceIn.t) (scheduledFor : Js.value)
           (priority attachmentUrl : option string)
           (author : ObjectId) (isPublished : bool) : M Notice.t :=
  match validate title content category with
  | [] =>
      reject_if (notice_create (faults env))
        (fun w =>
           let n := new_notice env (next_id w) title content category
                               targetAudience scheduledFor priority
                               attachmentUrl author isPublished in
           (Val n,
            mkWorld (notices w ++ [n]) (users w) (notifications w)
                    (N.succ (next_id w)) (fanouts w)))
  | errors => throw (ValidationError "Notice validation failed" errors)
  end.

Definition createNotice_under
           (validate : option string -> option string -> option string
                       -> list (string * string))
           (env : Env) (user : Actor.t) (b : Body.t)
  : World -> Response * World :=
  handler 400
    (match audience_guard (Body.targetAudience b) with
     | Some msg => ret (respond 400 (Failure msg))
     | None =>
         notice <- Notice_create_under validate env
                     (Body.title b) (Body.content b)
                     (Body.category b) (Body.targetAudience b)
                     (Body.scheduledFor b) (Body.priority b)
                     (Body.attachmentUrl b) (Actor._id user)
                     (negb (Js.truthy (Body.scheduledFor b))) ;;
         (if negb (Js.truthy (Body.scheduledFor b))
          then createNotifications env (Some notice)
          else ret tt) ;;;
         ret (respond 201 (NoticeData (Some notice)))
     end).

(** ** [getNotices], GET /api/notices *)

Inductive TextField : Type := InTitle | InContent.

(** The [query] object built at lines 75-103. *)
Module Filter.
Record t : Type := mk {
  category : option string;
  branch : option string;
  year : option Z;
  teacher : option ObjectId;
  or_regex : option (list (TextField * string))
}.
End Filter.

Definition build_filter (q : Params.t) : Filter.t :=
  Filter.mk
    (if Js.truthy_str (Params.category q) then Params.category q else None)
    (if Js.truthy_str (Params.branch q) then Params.branch q else None)
    (Params.year q)
    (Params.teacher q)
    (match Params.search q with
     | Some search =>
         if Js.truthy_str (Some search)
         then Some [(InTitle, search); (InContent, search)]
         else None
     | None => None
     end).

(** The compiled form of a pattern: the fragment of [Regex], or else
    whatever the store's engine makes of it. *)
Definition compile (env : Env) (pattern : string) : option (string -> bool) :=
  match Regex.parse pattern with
  | Some atoms => Some (Regex.search atoms)
  | None => pcre env pattern
  end.

Definition text_of (f : TextField) (n : Notice.t) : string :=
  match f with
  | InTitle => Notice.title n
  | InContent => Notice.content n
  end.

Fixpoint compile_all (env : Env) (conds : list (TextField * string))
  : option (list (TextField * (string -> bool))) :=
  match conds with
  | [] => Some []
  | (f, p) :: rest =>
      match compile env p, compile_all env rest with
      | Some m, Some ms => Some ((f, m) :: ms)
      | _, _ => None
      end
  end.

Definition eq_field {A} (eqb : A -> A -> bool) (wanted : option A)
           (stored : option A) : bool :=
  match wanted with
  | None => true
  | Some v => match stored with Some s => eqb s v | None => false end
  end.

(** A document matches a query when it matches every condition of the
    query; it matches [$or] when it matches one of its branches. *)
Definition matches (f : Filter.t)
           (or_compiled : option (list (TextField * (string -> bool))))
           (n : Notice.t) : bool :=
  eq_field String.eqb (Filter.category f) (Some (Notice.category n))
  && eq_field String.eqb (Filter.branch f) (Notice.branch n)
  && eq_field Z.eqb (Filter.year f) (Notice.year n)
  && eq_field N.eqb (Filter.teacher f) (Notice.teacher n)
  && match or_compiled with
     | None => true
     | Some conds => existsb (fun c => snd c (text_of (fst c) n)) conds
     end.

(** The documents of the collection that match; [None] when a pattern of
    the query is rejected. *)
Definition matching (env : Env) (f : Filter.t) (ns : list Notice.t)
  : option (list Notice.t) :=
  match Filter.or_regex f with
  | None => Some (filter (matches f None) ns)
  | Some conds =>
      match compile_all env conds with
      | Some cs => Some (filter (matches f (Some cs)) ns)
      | None => None
      end
  end.

(** Sorting as the store does it, by insertion; [le x y] says that [x] may
    stand before [y].  Documents that compare equal keep the order of the
    collection. *)
Fixpoint insert_by {A} (le : A -> A -> bool) (x : A) (sorted : list A) : list A :=
  match sorted with
  | [] => [x]
  | y :: rest => if le x y then x :: sorted else y :: insert_by le x rest
  end.

Definition sort_by {A} (le : A -> A -> bool) (xs : list A) : list A :=
  fold_right (insert_by le) [] xs.

(** [sort({ createdAt: -1 })]: newest first. *)
Definition newer_first (m n : Notice.t) : bool :=
  Notice.createdAt n <=? Notice.createdAt m.

Definition sort_desc (ns : list Notice.t) : list Notice.t :=
  sort_by newer_first ns.

Definition populate (us : list User.t) (n : Notice.t) : Populated.t :=
  Populated.mk n
    (match Notice.teacher n with
     | Some id =>
         option_map User.name (find (fun u => N.eqb (User._id u) id) us)
     | None => None
     end).

(** The window of a cursor: a limit of zero is no limit, a negative limit
    is its absolute value. *)
Definition window {A} (skip limit : Z) (xs : list A) : list A :=
  let rest := skipn (Z.to_nat skip) xs in
  if limit =? 0 then rest else firstn (Z.to_nat (Z.abs limit)) rest.

(** [Notice.find(query).populate('teacher', 'name').skip(s).limit(l)
    .sort({ createdAt: -1 })].  The store sorts first, then skips, then
    limits, whatever the order of the calls.  A skip or limit that is not a
    number, and a negative skip, are refused. *)
Definition Notice_find (env : Env) (f : Filter.t) (skip limit : option Z)
  : M (list Populated.t) :=
  reject_if (notice_find (faults env))
    (w <- get_world ;;
     match matching env f (notices w), skip, limit with
     | None, _, _ => throw (StoreError "Regular expression is invalid")
     | Some found, Some s, Some l =>
         if s <? 0 then throw (StoreError "Skip value must be non-negative")
         else ret (map (populate (users w)) (window s l (sort_desc found)))
     | Some _, _, _ => throw (CastError "Cast to Number failed")
     end).

(** [Notice.countDocuments(query)] *)
Definition Notice_countDocuments (env : Env) (f : Filter.t) : M Z :=
  reject_if (notice_count (faults env))
    (w <- get_world ;;
     match matching env f (notices w) with
     | None => throw (StoreError "Regular expression is invalid")
     | Some found => ret (Z.of_nat (List.length found))
     end).

(** [Math.ceil(total / limit)] as the JSON body shows it: [null] when the
    quotient is not a finite number. *)
Definition total_pages (total : Z) (limit : option Z) : option Z :=
  match limit with
  | Some l => if l =? 0 then None else Some (- ((- total) / l))
  | None => None
  end.

Definition times (a b : option Z) : option Z :=
  match a, b with
  | Some x, Some y => Some (x * y)
  | _, _ => None
  end.

Definition getNotices (env : Env) (q : Params.t) : World -> Response * World :=
  handler 500
    (let query := build_filter q in
     let page := Js.parseInt_param 1 (Params.page q) in
     let limit := Js.parseInt_param 10 (Params.limit q) in
     let skip := times (option_map (fun p => p - 1) page) limit in
     found <- Notice_find env query skip limit ;;
     total <- Notice_countDocuments env query ;;
     ret (respond 200
            (Page (Z.of_nat (List.length found)) total (total_pages total limit)
                  page found))).

(** ** [getNotice], GET /api/notices/:id *)

Definition getNotice (env : Env) (id : ObjectId) : World -> Response * World :=
  handler 500
    (notice <- Notice_findById env id ;;
     match notice with
     | None => ret (respond 404 (Failure "Notice not found"))
     | Some n =>
         w <- get_world ;;
         ret (respond 200 (PopulatedData (populate (users w) n)))
     end).

(** ** [updateNotice], PUT /api/notices/:id *)

(** The ownership test of lines 185 and 280: the request is refused when
    the actor is not the author and is not an admin. *)
Definition not_owner (n : Notice.t) (user : Actor.t) : bool :=
  negb (N.eqb (Notice.author n) (Actor._id user))
  && negb (String.eqb (Actor.role user) "admin").

Definition updateNotice (env : Env) (user : Actor.t) (id : ObjectId) (b : Body.t)
  : World -> Response * World :=
  handler 400
    (notice <- Notice_findById env id ;;
     match notice with
     | None => ret (respond 404 (Failure "Notice not found"))
     | Some n =>
         if not_owner n user
         then ret (respond 403 (Failure "Not authorized to update this notice"))
         else
           updatedNotice <- Notice_findByIdAndUpdate env id b ;;
           (if Js.truthy (Body.isPublished b) && negb (Notice.published n)
            then createNotifications env updatedNotice
            else ret tt) ;;;
           ret (respond 200 (NoticeData updatedNotice))
     end).

(** ** [deleteNotice], DELETE /api/notices/:id *)

Definition deleteNotice (env : Env) (user : Actor.t) (id : ObjectId)
  : World -> Response * World :=
  handler 500
    (notice <- Notice_findById env id ;;
     match notice with
     | None => ret (respond 404 (Failure "Notice not found"))
     | Some n =>
         if not_owner n user
         then ret (respond 403 (Failure "Not authorized to delete this notice"))
         else
           Notice_remove env n ;;;
           ret (respond 200 Empty)
     end).

(** ** [getNoticeStats], GET /api/notices/stats *)

(** [$group] with [$sum]: one row per key, in the order of first
    appearance, with the number of documents and the sum of a field. *)
Fixpoint bump {K} (eqb : K -> K -> bool) (k : K) (v : Z)
         (groups : list (K * Z * Z)) : list (K * Z * Z) :=
  match groups with
  | [] => [(k, 1, v)]
  | (k', c, s) :: rest =>
      if eqb k' k then (k', c + 1, s + v) :: rest
      else (k', c, s) :: bump eqb k v rest
  end.

Definition group_by {K} (eqb : K -> K -> bool) (key : Notice.t -> K)
           (field : Notice.t -> Z) (ns : list Notice.t) : list (K * Z * Z) :=
  fold_left (fun groups n => bump eqb (key n) (field n) groups) ns [].

(** [$year] and [$month] of a time stamp in milliseconds (UTC, proleptic
    Gregorian calendar). *)
Definition year_month (ms : Z) : Z * Z :=
  let z := ms / 86400000 + 719468 in
  let era := z / 146097 in
  let doe := z - era * 146097 in
  let yoe := (doe - doe / 1460 + doe / 36524 - doe / 146096) / 365 in
  let doy := doe - (365 * yoe + yoe / 4 - yoe / 100) in
  let mp := (5 * doy + 2) / 153 in
  let m := if mp <? 10 then mp + 3 else mp - 9 in
  (yoe + era * 400 + (if m <=? 2 then 1 else 0), m).

Definition eqb_option_string (a b : option string) : bool :=
  match a, b with
  | Some x, Some y => String.eqb x y
  | None, None => true
  | _, _ => false
  end.

Definition eqb_pair (a b : Z * Z) : bool :=
  (fst a =? fst b) && (snd a =? snd b).

Definition authored_by (user : Actor.t) (ns : list Notice.t) : list Notice.t :=
  filter (fun n => N.eqb (Notice.author n) (Actor._id user)) ns.

(** [Notice.aggregate(pipeline)], for the three pipelines of the handler. *)
Definition Notice_aggregate {A} (env : Env) (which : nat)
           (pipeline : list Notice.t -> A) : M A :=
  reject_if (notice_aggregate (faults env) which)
    (w <- get_world ;; ret (pipeline (notices w))).

Definition category_pipeline (user : Actor.t) (ns : list Notice.t)
  : list (string * Z * Z) :=
  sort_by (fun a b => snd (fst b) <=? snd (fst a))
          (group_by String.eqb Notice.category Notice.views (authored_by user ns)).

Definition priority_pipeline (user : Actor.t) (ns : list Notice.t)
  : list (option string * Z) :=
  map fst (group_by eqb_option_string Notice.priority (fun _ => 0)
                    (authored_by user ns)).

Definition monthly_pipeline (user : Actor.t) (ns : list Notice.t)
  : list (Z * Z * Z) :=
  map (fun g => (fst (fst (fst g)), snd (fst (fst g)), snd (fst g)))
      (sort_by (fun a b =>
                  let ka := fst (fst a) in
                  let kb := fst (fst b) in
                  (fst ka <? fst kb) || ((fst ka =? fst kb) && (snd ka <=? snd kb)))
               (group_by eqb_pair (fun n => year_month (Notice.createdAt n))
                         (fun _ => 0) (authored_by user ns))).

Definition getNoticeStats (env : Env) (user : Actor.t) : World -> Response * World :=
  handler 500
    (stats <- Notice_aggregate env 0 (category_pipeline user) ;;
     priorityStats <- Notice_aggregate env 1 (priority_pipeline user) ;;
     monthlyStats <- Notice_aggregate env 2 (monthly_pipeline user) ;;
     ret (respond 200 (Stats stats priorityStats monthlyStats))).

(** ** Vocabulary of the specification *)

(** The number of calls of the fan-out between two worlds. *)
Definition fanout_calls (before after : World) : Z :=
  Z.of_nat (List.length (fanouts after)) - Z.of_nat (List.length (fanouts before)).

(** The target sets of a notice, if it has any. *)
Definition target_branches (n : Notice.t) : option (list string) :=
  match Notice.targetAudience n with
  | Some ta => TargetAudience.branches ta
  | None => None
  end.

Definition target_years (n : Notice.t) : option (list string) :=
  match Notice.targetAudience n with
  | Some ta => TargetAudience.years ta
  | None => None
  end.

(** A target set restricts the recipients to its members, unless it
    contains the wildcard. *)
Definition admits (targets : option (list string)) (x : string) : Prop :=
  match targets with
  | Some xs => In "All"%string xs \/ In x xs
  | None => True
  end.

(** The recipients of a notice, in the words of the specification: the
    students that its target audience admits. *)
Definition recipient_of (n : Notice.t) (u : User.t) : Prop :=
  User.role u = "student"%string
  /\ admits (target_branches n) (User.branch u)
  /\ admits (target_years n) (User.year u).

(** The notifications of a list that are addressed to a user. *)
Definition addressed_to (u : User.t) (ms : list Notification.t) : list Notification.t :=
  filter (fun m => N.eqb (Notification.recipient m) (User._id u)) ms.

(** What the fan-out leaves in the collection: nothing when the lookup
    rejects, the written prefix when the bulk insert rejects. *)
Definition written_by_fanout (env : Env) (n : Notice.t) (w : World)
  : list Notification.t :=
  match user_find (faults env) with
  | Some _ => []
  | None =>
      let docs := map (notification_for n)
                      (filter (user_matches (recipient_query n)) (users w)) in
      match notification_insert (faults env) with
      | Some (written, _) => firstn written docs
      | None => docs
      end
  end.

(** A creation payload that passes the guard of the handler and the
    validators of the schema. *)
Definition valid_creation (b : Body.t) : Prop :=
  audience_guard (Body.targetAudience b) = None
  /\ NoticeSchema.validate (Body.title b) (Body.content b) (Body.category b) = [].

(** An update that the store accepts: it casts, it validates, and the write
    is not refused. *)
Definition accepted_update (env : Env) (b : Body.t) : Prop :=
  NoticeSchema.castBoolean (Body.isPublished b) <> None
  /\ NoticeSchema.validate_update (Body.title b) (Body.content b) (Body.category b) = []
  /\ notice_update (faults env) = None.

(** The flag an accepted update writes. *)
Definition cast_flag (b : Body.t) : option bool :=
  match NoticeSchema.castBoolean (Body.isPublished b) with
  | Some flag => flag
  | None => None
  end.

(** A required text field that is missing: absent or empty. *)
Definition missing (v : option string) : Prop :=
  v = None \/ v = Some EmptyString.

(** The filters of a list request other than the search, each applied only
    if supplied. *)
Definition satisfies_filters (q : Params.t) (n : Notice.t) : Prop :=
  (forall c, Params.category q = Some c -> c <> EmptyString -> Notice.category n = c)
  /\ (forall b, Params.branch q = Some b -> b <> EmptyString -> Notice.branch n = Some b)
  /\ (forall y, Params.year q = Some y -> Notice.year n = Some y)
  /\ (forall t, Params.teacher q = Some t -> Notice.teacher n = Some t).

(** The notice a creation request stores in a given world. *)
Definition created (env : Env) (user : Actor.t) (b : Body.t) (w : World) : Notice.t :=
  new_notice env (next_id w) (Body.title b) (Body.content b) (Body.category b)
             (Body.targetAudience b) (Body.scheduledFor b) (Body.priority b)
             (Body.attachmentUrl b) (Actor._id user)
             (negb (Js.truthy (Body.scheduledFor b))).

(** The fields every notification of a notice carries. *)
Definition announces (n : Notice.t) (m : Notification.t) : Prop :=
  Notification.type m = "notice_posted"%string
  /\ Notification.title m = "New Notice"%string
  /\ Notification.message m = Notice.title n
  /\ Notification.noticeId m = Notice._id n
  /\ Notification.category m = Notice.category n
  /\ Notification.priority m = Notice.priority n.

(** The world after a valid creation request. *)
Definition after_create (env : Env) (user : Actor.t) (b : Body.t) (w : World) : World :=
  let n := created env user b w in
  if Js.truthy (Body.scheduledFor b)
  then mkWorld (notices w ++ [n]) (users w) (notifications w)
               (N.succ (next_id w)) (fanouts w)
  else mkWorld (notices w ++ [n]) (users w)
               (notifications w ++ written_by_fanout env n w)
               (N.succ (next_id w)) (fanouts w ++ [Some n]).

(** The notice an accepted update leaves in place of [n], and the world
    after it. *)
Definition updated (env : Env) (b : Body.t) (n : Notice.t) : Notice.t :=
  apply_update b (cast_flag b) (now env) n.

Definition after_update (env : Env) (b : Body.t) (n : Notice.t) (w : World) : World :=
  let n' := updated env b n in
  if Js.truthy (Body.isPublished b) && negb (Notice.published n)
  then mkWorld (replace_notice n' (notices w)) (users w)
               (notifications w ++ written_by_fanout env n' w)
               (next_id w) (fanouts w ++ [Some n'])
  else set_notices (replace_notice n' (notices w)) w.

(** The violations of a creation payload that the handler and the schema
    refuse: a selector that is truthy and not an array, a title longer than
    100 characters once trimmed, a required field that is missing, a
    category outside the enumeration. *)
Definition refused_selector (v : Js.value) : Prop :=
  Js.truthy v = true /\ Js.isArray v = false.

Definition violates (b : Body.t) : Prop :=
  (exists ta, Body.targetAudience b = Some ta
              /\ (refused_selector (AudienceIn.branches ta)
                  \/ refused_selector (AudienceIn.years ta)))
  \/ (exists s, Body.title b = Some s /\ (100 < String.length (Js.trim s))%nat)
  \/ missing (NoticeSchema.set_title (Body.title b))
  \/ missing (Body.content b)
  \/ missing (Body.category b)
  \/ (exists c, Body.category b = Some c /\ ~ In c NoticeSchema.categories).

(** [m] is at least as new as [n]. *)
Definition not_older (m n : Notice.t) : Prop :=
  Notice.createdAt n <= Notice.createdAt m.

(** The page of a list: [limit] records after the first
    [(page - 1) * limit]. *)
Definition page_slice {A} (page limit : Z) (xs : list A) : list A :=
  firstn (Z.to_nat limit) (skipn (Z.to_nat ((page - 1) * limit)) xs).

(** The atoms of a pattern without metacharacters: its characters. *)
Fixpoint literals (p : string) : list Regex.atom :=
  match p with
  | EmptyString => []
  | String c r => Regex.Lit c :: literals r
  end.

(** ** The handlers as one service *)

(** A request to one of the exported handlers, with what the middleware and
    the route hand over to it. *)
Inductive Request : Type :=
| PostNotice (user : Actor.t) (body : Body.t)
| ListNotices (query : Params.t)
| GetNotice (id : ObjectId)
| PutNotice (user : Actor.t) (id : ObjectId) (body : Body.t)
| DeleteNotice (user : Actor.t) (id : ObjectId)
| GetStats (user : Actor.t).

Definition serve (env : Env) (r : Request) : World -> Response * World :=
  match r with
  | PostNotice user body => createNotice env user body
  | ListNotices query => getNotices env query
  | GetNotice id => getNotice env id
  | PutNotice user id body => updateNotice env user id body
  | DeleteNotice user id => deleteNotice env user id
  | GetStats user => getNoticeStats env user
  end.

(** A history: requests served one after the other, each in the
    environment of its time. *)
Fixpoint run (history : list (Env * Request)) (w : World) : World :=
  match history with
  | [] => w
  | (env, r) :: rest => run rest (snd (serve env r w))
  end.

(** The store's own invariant: identifiers are distinct, and the next
    identifier is larger than every one in use. *)
Definition well_formed (w : World) : Prop :=
  NoDup (map Notice._id (notices w))
  /\ Forall (fun n => (Notice._id n < next_id w)%N) (notices w).

(** A notice that satisfies the constraints of [NoticeSchema] on [title],
    [content] and [category]; its title is in trimmed form. *)
Definition conforms (n : Notice.t) : Prop :=
  Notice.title n <> EmptyString
  /\ (String.length (Notice.title n) <= 100)%nat
  /\ Js.trim (Notice.title n) = Notice.title n
  /\ Notice.content n <> EmptyString
  /\ (String.length (Notice.content n) <= 1000)%nat
  /\ In (Notice.category n) NoticeSchema.categories.

(** The actor may change or remove the notice. *)
Definition may_mutate (user : Actor.t) (n : Notice.t) : Prop :=
  Notice.author n = Actor._id user \/ Actor.role user = "admin"%string.

(** The collection without the notices of a given identifier. *)
Definition without (id : ObjectId) (ns : list Notice.t) : list Notice.t :=
  filter (fun m => negb (N.eqb (Notice._id m) id)) ns.

(** A query in which an empty filter value counts as absent. *)
Definition drop_empty (p : option string) : option string :=
  if Js.truthy_str p then p else None.

Definition normalised (q : Params.t) : Params.t :=
  Params.mk (drop_empty (Params.category q)) (drop_empty (Params.branch q))
            (Params.year q) (Params.teacher q) (drop_empty (Params.search q))
            (Params.page q) (Params.limit q).

(** The same query with another search term. *)
Definition with_search (q : Params.t) (term : string) : Params.t :=
  Params.mk (Params.category q) (Params.branch q) (Params.year q)
            (Params.teacher q) (Some term) (Params.page q) (Params.limit q).

(** The records a list response carries. *)
Definition listed (r : Response) : list Populated.t :=
  match payload r with
  | Page _ _ _ _ data => data
  | _ => []
  end.

(** A string that does not begin with a blank. *)
Definition head_not_space (s : string) : Prop :=
  match s with
  | EmptyString => True
  | String c _ => Js.is_space c = false
  end.

(** ** Vocabulary of the statistics *)

(** The row of a key in the result of a [$group] stage, if there is one. *)
Fixpoint row_of {K} (eqb : K -> K -> bool) (k : K) (rows : list (K * Z * Z))
  : option (Z * Z) :=
  match rows with
  | [] => None
  | (k', c, s) :: rest => if eqb k' k then Some (c, s) else row_of eqb k rest
  end.

(** The key of a row. *)
Definition key_of {K} (row : K * Z * Z) : K := fst (fst row).

(** The notices of a list that have a given key. *)
Definition keyed {K} (eqb : K -> K -> bool) (key : Notice.t -> K) (k : K)
           (ns : list Notice.t) : list Notice.t :=
  filter (fun n => eqb (key n) k) ns.

Definition total_of (field : Notice.t -> Z) (ns : list Notice.t) : Z :=
  fold_right Z.add 0 (map field ns).

(** How many notices of the collection the user has written in a category,
    with a priority, in a month. *)
Definition in_category (user : Actor.t) (c : string) (ns : list Notice.t)
  : list Notice.t :=
  keyed String.eqb Notice.category c (authored_by user ns).




(** The fields of an update that the update validators refuse: a title
    that is empty or longer than 100 characters once trimmed, a content that
    is empty or longer than 1000 characters, a category outside the
    enumeration. *)
Definition update_violates (b : Body.t) : Prop :=
  (exists t, Body.title b = Some t
             /\ (Js.trim t = EmptyString
                 \/ (100 < String.length (Js.trim t))%nat))
  \/ (exists c, Body.content b = Some c
                /\ (c = EmptyString \/ (1000 < String.length c)%nat))
  \/ (exists k, Body.category b = Some k /\ ~ In k NoticeSchema.categories).

(** The status a handler answers a request with when it succeeds, and the
    statuses it can answer with when it fails. *)
Definition ok_status (r : Request) : Z :=
  match r with
  | PostNotice _ _ => 201
  | _ => 200
  end.

Definition failure_statuses (r : Request) : list Z :=
  match r with
  | PostNotice _ _ => [400]
  | ListNotices _ => [500]
  | GetNotice _ => [404; 500]
  | PutNotice _ _ _ => [404; 403; 400]
  | DeleteNotice _ _ => [404; 403; 500]
  | GetStats _ => [500]
  end.

(** A schema that constrains [title], [content] and [category] at least as
    [NoticeSchema] does. *)
Definition at_least_as_strict
           (validate : option string -> option string -> option string
                       -> list (string * string)) : Prop :=
  forall title content category,
    NoticeSchema.validate title content category <> [] ->
    validate title content category <> [].



(** ** A small school, for the examples *)

Module Sample.

Local Open Scope string_scope.

Fixpoint replicate (k : nat) (c : ascii) : string :=
  match k with
  | O => EmptyString
  | S k' => String c (replicate k' c)
  end.

Definition people : list User.t :=
  [User.mk 1%N "Asha" "student" "CSE" "1";
   User.mk 2%N "Bilal" "student" "ECE" "2";
   User.mk 3%N "Chen" "student" "ME" "1";
   User.mk 4%N "Dana" "teacher" "CSE" "";
   User.mk 5%N "Eli" "teacher" "ECE" "";
   User.mk 6%N "Farah" "admin" "" ""]%string.

Definition dana : Actor.t := Actor.mk 4%N "teacher".
Definition eli : Actor.t := Actor.mk 5%N "teacher".

(** An unpublished notice of Dana's for two branches, and a published one
    for everybody. *)
Definition draft : Notice.t :=
  Notice.mk 10%N "Exam schedule" "Mid-term exams start on Monday" "Academic"
            (Some "CSE"%string) (Some 1) (Some 4%N)
            (Some (TargetAudience.mk (Some ["CSE"; "ECE"]%string) None))
            (Js.Str "2030-01-10T09:00") (Some "high"%string) None 4%N
            (Some false) 0 86400000 None.

Definition welcome : Notice.t :=
  Notice.mk 11%N "Welcome" "abc" "General"
            (Some "ECE"%string) (Some 2) (Some 5%N)
            None Js.Undefined None None 4%N
            (Some true) 3 172800000 None.

(** A notice whose branch selector is an empty array. *)
Definition for_nobody : Notice.t :=
  Notice.mk 12%N "Lab closed" "The lab is closed today" "Other"
            None None None
            (Some (TargetAudience.mk (Some []) None))
            Js.Undefined None None 5%N (Some true) 0 172800000 None.

Definition school : World :=
  mkWorld [draft; welcome] people [] 12%N [].

Definition calm : Env := mkEnv 259200000 no_faults (fun _ => None).

(** The recipient lookup is down. *)
Definition lookup_down : Env :=
  mkEnv 259200000
        (mkFaults None None None None None None (fun _ => None)
                  (Some "connection lost"%string) None)
        (fun _ => None).

(** The bulk insert breaks after the first notification. *)
Definition insert_breaks : Env :=
  mkEnv 259200000
        (mkFaults None None None None None None (fun _ => None)
                  None (Some (1%nat, "write failed"%string)))
        (fun _ => None).

(** The identifier of the route cannot be cast: the lookup rejects. *)
Definition uncastable_id : Env :=
  mkEnv 259200000
        (mkFaults None None None (Some "Cast to ObjectId failed"%string)
                  None None (fun _ => None) None None)
        (fun _ => None).

(** The notice collection refuses every call. *)
Definition notices_down : Env :=
  mkEnv 259200000
        (mkFaults (Some "connection lost") (Some "connection lost")
                  (Some "connection lost") (Some "connection lost")
                  (Some "connection lost") (Some "connection lost")
                  (fun _ => Some "connection lost") None None)%string
        (fun _ => None).

Definition nothing : Body.t :=
  Body.mk None None None None Js.Undefined None None Js.Undefined.

(** PUT bodies *)
Definition publish : Body.t :=
  Body.mk None None None None Js.Undefined None None (Js.Bool true).

Definition publish_with_long_title : Body.t :=
  Body.mk (Some (replicate 101 "a")) None None None Js.Undefined None None
          (Js.Bool true).

(** POST bodies *)
Definition post : Body.t :=
  Body.mk (Some "Sports day") (Some "Friday, on the main field") (Some "Event")
          (Some (AudienceIn.mk (Js.Arr ["All"]) (Js.Arr ["1"])))
          Js.Undefined (Some "low") None Js.Undefined.

Definition scheduled_post : Body.t :=
  Body.mk (Some "Sports day") (Some "Friday, on the main field") (Some "Event")
          (Some (AudienceIn.mk (Js.Arr ["All"]) (Js.Arr ["1"])))
          (Js.Str "2030-03-01T08:00") (Some "low") None Js.Undefined.

Definition padded_title : string := (replicate 100 "a" ++ " ")%string.

Definition padded_post : Body.t :=
  Body.mk (Some padded_title) (Some "Friday, on the main field") (Some "Event")
          None Js.Undefined None None Js.Undefined.

Definition long_content_post : Body.t :=
  Body.mk (Some "Sports day") (Some (replicate 1001 "x")) (Some "Event")
          None Js.Undefined None None Js.Undefined.

Definition bad_selectors_post : Body.t :=
  Body.mk None None None
          (Some (AudienceIn.mk (Js.Str "CSE") (Js.Num 2)))
          Js.Undefined None None Js.Undefined.

Definition bad_years_post : Body.t :=
  Body.mk None None None
          (Some (AudienceIn.mk (Js.Arr ["CSE"]) (Js.Str "1")))
          Js.Undefined None None Js.Undefined.

(** A PUT body whose [isPublished] is the string for false. *)
Definition unpublish_as_text : Body.t :=
  Body.mk None None None None Js.Undefined None None (Js.Str "false").

(** A PUT body that retargets a notice with a bare string and publishes
    it. *)
Definition retarget_and_publish : Body.t :=
  Body.mk None None None
          (Some (AudienceIn.mk (Js.Str "ME") Js.Undefined))
          Js.Undefined None None (Js.Bool true).

Definition recategorise : Body.t :=
  Body.mk None None (Some "Sports") None Js.Undefined None None Js.Undefined.

Definition long_title_post : Body.t :=
  Body.mk (Some (replicate 101 "a")) (Some "Friday, on the main field")
          (Some "Event") None Js.Undefined None None Js.Undefined.

(** Twenty-five notices, the oldest first. *)
Definition bulletin (k : nat) : Notice.t :=
  Notice.mk (N.of_nat (100 + k)) "Bulletin" "Weekly bulletin" "General"
            None None None None Js.Undefined None None 4%N (Some true) 0
            (Z.of_nat k * 1000) None.

Definition archive : World :=
  mkWorld (map bulletin (seq 1 25)) people [] 200%N [].

Definition search_for (term : string) : Params.t :=
  Params.mk None None None None (Some term) None None.

Definition third_page : Params.t :=
  Params.mk None None None None None (Some "3") (Some "10").

(** The request for page 1, 2 or 3 of the archive, ten records a page. *)
Definition page_request (i : nat) : Params.t :=
  Params.mk None None None None None
            (Some (match i with
                   | 1%nat => "1"
                   | 2%nat => "2"
                   | _ => "3"
                   end))
            (Some "10").

End Sample.

(** * Properties *)

(** ** The model at work *)

Example parseInt_reads_a_prefix :
  Js.parseInt "  12abc" = Some 12
  /\ Js.parseInt "-7" = Some (-7)
  /\ Js.parseInt "0x1A" = Some 26
  /\ Js.parseInt "abc" = None
  /\ Js.parseInt_param 10 None = Some 10.
Proof. repeat split. Qed.

Example trim_both_ends :
  Js.trim "  mid term  " = "mid term"%string /\ Js.trim "   " = EmptyString.
Proof. split; reflexivity. Qed.

Example year_month_of_stamps :
  year_month 0 = (1970, 1)
  /\ year_month 951782400000 = (2000, 2)
  /\ year_month 1730505600000 = (2024, 11)
  /\ year_month (-1) = (1969, 12).
Proof. repeat split. Qed.

Example total_pages_rounds_up :
  total_pages 25 (Some 10) = Some 3
  /\ total_pages 30 (Some 10) = Some 3
  /\ total_pages 0 (Some 10) = Some 0
  /\ total_pages 25 (Some 0) = None.
Proof. repeat split. Qed.

Example post_notifies_first_years :
  map Notification.recipient
      (notifications (snd (createNotice Sample.calm Sample.dana Sample.post
                                        Sample.school)))
  = [1%N; 3%N].
Proof. reflexivity. Qed.

Example stats_of_dana :
  fst (getNoticeStats Sample.calm Sample.dana Sample.school)
  = respond 200 (Stats [("Academic"%string, 1, 0); ("General"%string, 1, 3)]
                       [(Some "high"%string, 1); (None, 1)]
                       [(1970, 1, 2)]).
Proof. reflexivity. Qed.

(** ** The fan-out *)

Lemma createNotifications_some (env : Env) (n : Notice.t) (w : World) :
  createNotifications env (Some n) w
  = (Val tt,
     mkWorld (notices w) (users w)
             (notifications w ++ written_by_fanout env n w)
             (next_id w) (fanouts w ++ [Some n])).
Proof.
  unfold createNotifications, written_by_fanout, bind, try_catch, log_fanout,
    User_find, reject_if, Notification_insertMany, get_world, ret, throw.
  destruct (user_find (faults env)); simpl.
  - now rewrite app_nil_r.
  - destruct (notification_insert (faults env)) as [[k msg]|]; reflexivity.
Qed.

Lemma createNotifications_null (env : Env) (w : World) :
  createNotifications env None w
  = (Val tt,
     mkWorld (notices w) (users w) (notifications w) (next_id w)
             (fanouts w ++ [None])).
Proof. reflexivity. Qed.

(** The fan-out never throws and never touches the notices. *)
Lemma createNotifications_contained (env : Env) (notice : option Notice.t) (w : World) :
  exists w',
    createNotifications env notice w = (Val tt, w')
    /\ notices w' = notices w /\ users w' = users w
    /\ next_id w' = next_id w
    /\ fanouts w' = fanouts w ++ [notice].
Proof.
  destruct notice as [n|].
  - rewrite createNotifications_some. eexists; repeat split.
  - rewrite createNotifications_null. eexists; repeat split.
Qed.

Lemma includes_In (xs : list string) (x : string) :
  includes xs x = true <-> In x xs.
Proof.
  unfold includes. rewrite existsb_exists. split.
  - intros [y [Hy E]]. apply String.eqb_eq in E. now subst.
  - intros H. exists x. split; [assumption | apply String.eqb_refl].
Qed.

Lemma in_selector_admits (targets : option (list string)) (x : string) :
  in_selector
    (match targets with
     | Some xs => if negb (includes xs "All") then Some xs else None
     | None => None
     end) x = true
  <-> admits targets x.
Proof.
  destruct targets as [xs|]; simpl; [|tauto].
  destruct (includes xs "All") eqn:E; simpl.
  - apply includes_In in E. tauto.
  - rewrite includes_In. split; [tauto|].
    intros [H|H]; [|assumption].
    apply includes_In in H. congruence.
Qed.

(** The recipient query selects the recipients of the specification. *)
Lemma user_matches_recipient (n : Notice.t) (u : User.t) :
  user_matches (recipient_query n) u = true <-> recipient_of n u.
Proof.
  unfold user_matches, recipient_of, recipient_query, target_branches, target_years.
  destruct (Notice.targetAudience n) as [ta|]; simpl.
  - rewrite !andb_true_iff, !in_selector_admits, String.eqb_eq. tauto.
  - rewrite !andb_true_iff, String.eqb_eq. tauto.
Qed.

Lemma addressed_to_map_notin (n : Notice.t) (u : User.t) (us : list User.t) :
  ~ In (User._id u) (map User._id us) ->
  addressed_to u (map (notification_for n) us) = [].
Proof.
  induction us as [|v us IH]; simpl; intros H; [reflexivity|].
  destruct (N.eqb_spec (User._id v) (User._id u)) as [E|E].
  - exfalso. apply H. now left.
  - apply IH. intros Hin. apply H. now right.
Qed.

Lemma In_map_filter_id (p : User.t -> bool) (us : list User.t) (i : ObjectId) :
  In i (map User._id (filter p us)) -> In i (map User._id us).
Proof.
  rewrite !in_map_iff. intros [v [E Hv]]. apply filter_In in Hv.
  exists v. tauto.
Qed.

(** With distinct identities, each selected user gets one notification and
    every other user none. *)
Lemma addressed_to_selected (n : Notice.t) (p : User.t -> bool)
      (us : list User.t) (u : User.t) :
  NoDup (map User._id us) ->
  In u us ->
  addressed_to u (map (notification_for n) (filter p us))
  = if p u then [notification_for n u] else [].
Proof.
  induction us as [|v us IH]; simpl; intros Hnd Hin; [contradiction|].
  inversion Hnd as [|i ids Hnotin Hnd']; subst.
  destruct Hin as [->|Hin].
  - destruct (p u) eqn:Hp; simpl.
    + rewrite N.eqb_refl. f_equal.
      apply addressed_to_map_notin.
      intros H. apply Hnotin. eapply In_map_filter_id, H.
    + apply addressed_to_map_notin.
      intros H. apply Hnotin. eapply In_map_filter_id, H.
  - assert (Hne : User._id v <> User._id u).
    { intros E. apply Hnotin. rewrite E. now apply in_map. }
    destruct (p v); simpl.
    + destruct (N.eqb_spec (User._id v) (User._id u)); [contradiction|].
      now apply IH.
    + now apply IH.
Qed.

(** C3.  With the lookup and the bulk insert working, the fan-out of a
    notice appends to the collection exactly one notification for each user
    who is a student admitted by the notice's target audience (a target set
    restricts unless it contains the wildcard "All"), none for any other
    user, and each of them has type "notice_posted", title "New Notice", the
    notice's title as message and the notice's id, category and priority as
    payload. *)
Theorem fanout_one_notification_per_recipient
        (env : Env) (n : Notice.t) (w : World) :
  user_find (faults env) = None ->
  notification_insert (faults env) = None ->
  NoDup (map User._id (users w)) ->
  exists added w',
    createNotifications env (Some n) w = (Val tt, w')
    /\ notifications w' = notifications w ++ added
    /\ (forall u, In u (users w) -> recipient_of n u ->
                  addressed_to u added = [notification_for n u])
    /\ (forall u, In u (users w) -> ~ recipient_of n u ->
                  addressed_to u added = [])
    /\ (forall m, In m added ->
                  exists u, In u (users w) /\ recipient_of n u
                            /\ Notification.recipient m = User._id u)
    /\ Forall (announces n) added.
Proof.
  intros Hfind Hins Hnd.
  exists (map (notification_for n)
              (filter (user_matches (recipient_query n)) (users w))).
  eexists. rewrite createNotifications_some.
  unfold written_by_fanout. rewrite Hfind, Hins.
  split; [reflexivity|]. split; [reflexivity|].
  split; [|split; [|split]].
  - intros u Hu Hr. rewrite addressed_to_selected by assumption.
    apply user_matches_recipient in Hr. now rewrite Hr.
  - intros u Hu Hr. rewrite addressed_to_selected by assumption.
    destruct (user_matches (recipient_query n) u) eqn:E; [|reflexivity].
    apply user_matches_recipient in E. contradiction.
  - intros m Hm. apply in_map_iff in Hm. destruct Hm as [u [<- Hu]].
    apply filter_In in Hu. destruct Hu as [Hu Hp].
    exists u. split; [assumption|]. split; [|reflexivity].
    now apply user_matches_recipient.
  - apply Forall_forall. intros m Hm.
    apply in_map_iff in Hm. destruct Hm as [u [<- _]].
    repeat split.
Qed.

(** ** Running the handlers *)

Lemma createNotice_valid (env : Env) (user : Actor.t) (b : Body.t) (w : World) :
  valid_creation b ->
  notice_create (faults env) = None ->
  createNotice env user b w
  = (respond 201 (NoticeData (Some (created env user b w))),
     after_create env user b w).
Proof.
  intros [Hguard Hvalid] Hfault.
  unfold createNotice, handler, after_create. rewrite Hguard.
  unfold bind at 1. unfold Notice_create. rewrite Hvalid.
  unfold reject_if. rewrite Hfault. fold (created env user b w).
  destruct (Js.truthy (Body.scheduledFor b)); simpl.
  - reflexivity.
  - unfold bind. rewrite createNotifications_some. reflexivity.
Qed.

Lemma find_notice_some (id : ObjectId) (ns : list Notice.t) (n : Notice.t) :
  find_notice id ns = Some n -> In n ns /\ Notice._id n = id.
Proof.
  unfold find_notice. intros H. apply find_some in H.
  destruct H as [Hin E]. apply N.eqb_eq in E. tauto.
Qed.

Lemma updateNotice_accepted (env : Env) (user : Actor.t) (id : ObjectId)
      (b : Body.t) (w : World) (n : Notice.t) :
  notice_findById (faults env) = None ->
  find_notice id (notices w) = Some n ->
  not_owner n user = false ->
  accepted_update env b ->
  updateNotice env user id b w
  = (respond 200 (NoticeData (Some (updated env b n))), after_update env b n w).
Proof.
  intros Hlookup Hfound Hown (Hcast & Hvalid & Hwrite).
  unfold updateNotice, handler, after_update, updated, cast_flag.
  unfold bind at 1. unfold Notice_findById, reject_if. rewrite Hlookup.
  unfold bind at 1. unfold get_world, ret. rewrite Hfound, Hown.
  unfold bind at 1. unfold Notice_findByIdAndUpdate.
  destruct (NoticeSchema.castBoolean (Body.isPublished b)) as [flag|];
    [|congruence].
  rewrite Hvalid. unfold reject_if. rewrite Hwrite, Hfound.
  destruct (Js.truthy (Body.isPublished b) && negb (Notice.published n)); simpl.
  - unfold bind. rewrite createNotifications_some. reflexivity.
  - reflexivity.
Qed.

(** An update that does not cast, does not validate or is refused by the
    store is answered by the catch clause, and nothing has changed. *)
Lemma updateNotice_refused (env : Env) (user : Actor.t) (id : ObjectId)
      (b : Body.t) (w : World) (n : Notice.t) :
  notice_findById (faults env) = None ->
  find_notice id (notices w) = Some n ->
  not_owner n user = false ->
  ~ accepted_update env b ->
  exists msg, updateNotice env user id b w = (respond 400 (Failure msg), w).
Proof.
  intros Hlookup Hfound Hown Hrefused.
  unfold updateNotice, handler.
  unfold bind at 1. unfold Notice_findById, reject_if. rewrite Hlookup.
  unfold bind at 1. unfold get_world, ret. rewrite Hfound, Hown.
  unfold bind at 1. unfold Notice_findByIdAndUpdate.
  destruct (NoticeSchema.castBoolean (Body.isPublished b)) as [flag|] eqn:Hcast;
    [|eexists; reflexivity].
  destruct (NoticeSchema.validate_update _ _ _) eqn:Hvalid;
    [|eexists; reflexivity].
  unfold reject_if.
  destruct (notice_update (faults env)) eqn:Hwrite; [eexists; reflexivity|].
  exfalso. apply Hrefused. unfold accepted_update.
  rewrite Hcast, Hvalid.
  split; [discriminate | split; [reflexivity | assumption]].
Qed.

Lemma In_replace_notice (id : ObjectId) (n n' : Notice.t) (ns : list Notice.t) :
  find_notice id ns = Some n ->
  Notice._id n' = Notice._id n ->
  In n' (replace_notice n' ns).
Proof.
  intros Hfound Hid. apply find_notice_some in Hfound.
  destruct Hfound as [Hin _].
  unfold replace_notice. apply in_map_iff. exists n.
  rewrite Hid, N.eqb_refl. tauto.
Qed.

Lemma notices_after_update (env : Env) (b : Body.t) (n : Notice.t) (w : World) :
  notices (after_update env b n w) = replace_notice (updated env b n) (notices w).
Proof.
  unfold after_update.
  destruct (Js.truthy (Body.isPublished b) && negb (Notice.published n));
    reflexivity.
Qed.

Lemma notices_after_create (env : Env) (user : Actor.t) (b : Body.t) (w : World) :
  notices (after_create env user b w) = notices w ++ [created env user b w].
Proof.
  unfold after_create. destruct (Js.truthy (Body.scheduledFor b)); reflexivity.
Qed.

Lemma fanout_calls_one (w w' : World) (x : option Notice.t) :
  fanouts w' = fanouts w ++ [x] -> fanout_calls w w' = 1.
Proof.
  unfold fanout_calls. intros ->. rewrite length_app. simpl. lia.
Qed.

Lemma fanout_calls_none (w w' : World) :
  fanouts w' = fanouts w -> fanout_calls w w' = 0.
Proof.
  unfold fanout_calls. intros ->. lia.
Qed.

Lemma fanout_one_notification_per_recipient_witness :
  exists added w',
    createNotifications Sample.calm (Some Sample.draft) Sample.school = (Val tt, w')
    /\ notifications w' = notifications Sample.school ++ added
    /\ (forall u, In u (users Sample.school) -> recipient_of Sample.draft u ->
                  addressed_to u added = [notification_for Sample.draft u])
    /\ (forall u, In u (users Sample.school) -> ~ recipient_of Sample.draft u ->
                  addressed_to u added = [])
    /\ (forall m, In m added ->
                  exists u, In u (users Sample.school)
                            /\ recipient_of Sample.draft u
                            /\ Notification.recipient m = User._id u)
    /\ Forall (announces Sample.draft) added.
Proof.
  apply (fanout_one_notification_per_recipient Sample.calm Sample.draft Sample.school).
  - reflexivity.
  - reflexivity.
  - simpl. repeat constructor; simpl; intuition discriminate.
Defined.

(** ** Create *)

(** C2.  A valid creation payload is stored with [isPublished] equal to the
    negation of [scheduledFor] (its truth value, as the handler computes
    it), and the fan-out is called during the creation exactly when
    [scheduledFor] is absent; with a [scheduledFor] (a future date is a
    non-empty string or a non-zero number) the notice is stored unpublished
    and no notification is created. *)
Theorem create_publishes_unless_scheduled
        (env : Env) (user : Actor.t) (b : Body.t) (w : World) :
  valid_creation b ->
  notice_create (faults env) = None ->
  exists n w',
    createNotice env user b w = (respond 201 (NoticeData (Some n)), w')
    /\ notices w' = notices w ++ [n]
    /\ Notice.isPublished n = Some (negb (Js.truthy (Body.scheduledFor b)))
    /\ (fanout_calls w w' = 1 <-> Js.truthy (Body.scheduledFor b) = false)
    /\ (Js.truthy (Body.scheduledFor b) = false ->
        fanouts w' = fanouts w ++ [Some n])
    /\ (Js.truthy (Body.scheduledFor b) = true ->
        Notice.isPublished n = Some false
        /\ fanout_calls w w' = 0
        /\ notifications w' = notifications w).
Proof.
  intros Hvalid Hfault.
  exists (created env user b w), (after_create env user b w).
  split; [now apply createNotice_valid|].
  split; [apply notices_after_create|].
  split; [reflexivity|].
  unfold after_create.
  destruct (Js.truthy (Body.scheduledFor b)) eqn:Hs.
  - split; [|split]; [| discriminate |].
    + rewrite (fanout_calls_none w) by reflexivity. split; [lia | discriminate].
    + intros _. unfold created, new_notice. simpl. rewrite Hs.
      repeat split. now apply fanout_calls_none.
  - split; [|split]; [| reflexivity | discriminate].
    split; [reflexivity|]. intros _. eapply fanout_calls_one. reflexivity.
Qed.

Lemma create_publishes_unless_scheduled_witness :
  exists n w',
    createNotice Sample.calm Sample.dana Sample.scheduled_post Sample.school
    = (respond 201 (NoticeData (Some n)), w')
    /\ notices w' = notices Sample.school ++ [n]
    /\ Notice.isPublished n
       = Some (negb (Js.truthy (Body.scheduledFor Sample.scheduled_post)))
    /\ (fanout_calls Sample.school w' = 1
        <-> Js.truthy (Body.scheduledFor Sample.scheduled_post) = false)
    /\ (Js.truthy (Body.scheduledFor Sample.scheduled_post) = false ->
        fanouts w' = fanouts Sample.school ++ [Some n])
    /\ (Js.truthy (Body.scheduledFor Sample.scheduled_post) = true ->
        Notice.isPublished n = Some false
        /\ fanout_calls Sample.school w' = 0
        /\ notifications w' = notifications Sample.school).
Proof.
  apply (create_publishes_unless_scheduled
           Sample.calm Sample.dana Sample.scheduled_post Sample.school).
  - split; reflexivity.
  - reflexivity.
Defined.

(** ** Update *)

(** C1, as stated, fails: an authorised update of an unpublished notice
    whose payload asks for publication but carries a title of 101
    characters is refused by the update validators, and the fan-out is not
    called. *)
Lemma update_refused_publishes_nothing :
  find_notice 10%N (notices Sample.school) = Some Sample.draft
  /\ not_owner Sample.draft Sample.dana = false
  /\ Body.isPublished Sample.publish_with_long_title = Js.Bool true
  /\ Notice.published Sample.draft = false
  /\ updateNotice Sample.calm Sample.dana 10%N Sample.publish_with_long_title
                  Sample.school
     = (respond 400
          (Failure "Validation failed: title: Title cannot be more than 100 characters"),
        Sample.school)
  /\ fanout_calls Sample.school
       (snd (updateNotice Sample.calm Sample.dana 10%N
                          Sample.publish_with_long_title Sample.school)) = 0.
Proof. vm_compute. repeat split. Qed.

(** C1, amended.  For an update of an existing notice by its author or an
    admin that the store accepts: when the payload's [isPublished] is [true]
    and the stored notice was not published, the notice becomes published
    and the fan-out is called exactly once, for the updated notice; when the
    payload's [isPublished] is false or absent the fan-out is not called;
    and an update of a notice that is already published calls no fan-out,
    whatever its payload. *)
Theorem update_fans_out_on_publish_edge
        (env : Env) (user : Actor.t) (id : ObjectId) (b : Body.t)
        (w : World) (n : Notice.t) :
  notice_findById (faults env) = None ->
  find_notice id (notices w) = Some n ->
  not_owner n user = false ->
  accepted_update env b ->
  let w' := snd (updateNotice env user id b w) in
  (Body.isPublished b = Js.Bool true -> Notice.published n = false ->
   Notice.published (updated env b n) = true
   /\ fanouts w' = fanouts w ++ [Some (updated env b n)]
   /\ fanout_calls w w' = 1)
  /\ (Js.truthy (Body.isPublished b) = false -> fanout_calls w w' = 0)
  /\ (Notice.published n = true -> fanout_calls w w' = 0).
Proof.
  intros Hlookup Hfound Hown Haccepted.
  rewrite (updateNotice_accepted env user id b w n) by assumption.
  simpl. unfold after_update. split; [|split].
  - intros Hp Hs. rewrite Hp, Hs. simpl. split; [|split].
    + unfold updated, apply_update, cast_flag, Notice.published. simpl.
      now rewrite Hp.
    + reflexivity.
    + eapply fanout_calls_one. reflexivity.
  - intros Hp. rewrite Hp. simpl. now apply fanout_calls_none.
  - intros Hs. rewrite Hs, andb_false_r. now apply fanout_calls_none.
Qed.

Lemma update_fans_out_on_publish_edge_witness :
  let w' := snd (updateNotice Sample.calm Sample.dana 10%N Sample.publish
                              Sample.school) in
  Notice.published (updated Sample.calm Sample.publish Sample.draft) = true
  /\ fanouts w'
     = fanouts Sample.school
       ++ [Some (updated Sample.calm Sample.publish Sample.draft)]
  /\ fanout_calls Sample.school w' = 1.
Proof.
  apply (update_fans_out_on_publish_edge
           Sample.calm Sample.dana 10%N Sample.publish Sample.school Sample.draft).
  - reflexivity.
  - reflexivity.
  - reflexivity.
  - split; [discriminate | split; reflexivity].
  - reflexivity.
  - reflexivity.
Defined.

(** X28.  The fan-out of an update is decided by the value of
    [isPublished] as it was sent (line 210), not by the flag the store
    writes.  An accepted update of a notice that is not published, with an
    [isPublished] that is truthy, calls the fan-out once, for the updated
    notice, and the flag of that notice is what the store has cast the value
    to: the string for false is truthy and is cast to false, so that the
    fan-out is called for a notice that stays unpublished. *)
Theorem fanout_follows_the_value_as_sent
        (env : Env) (user : Actor.t) (id : ObjectId) (b : Body.t)
        (w : World) (n : Notice.t) :
  notice_findById (faults env) = None ->
  find_notice id (notices w) = Some n ->
  not_owner n user = false ->
  accepted_update env b ->
  Js.truthy (Body.isPublished b) = true ->
  Notice.published n = false ->
  let w' := snd (updateNotice env user id b w) in
  fanouts w' = fanouts w ++ [Some (updated env b n)]
  /\ fanout_calls w w' = 1
  /\ Notice.isPublished (updated env b n) = cast_flag b.
Proof.
  intros Hlookup Hfound Hown Haccepted Hp Hs.
  rewrite (updateNotice_accepted env user id b w n) by assumption.
  simpl. unfold after_update. rewrite Hp, Hs. simpl. split; [|split].
  - reflexivity.
  - eapply fanout_calls_one. reflexivity.
  - unfold updated, apply_update. simpl.
    destruct (Body.isPublished b); [discriminate Hp | reflexivity ..].
Qed.

Lemma fanout_follows_the_value_as_sent_witness :
  fanout_calls Sample.school
               (snd (updateNotice Sample.calm Sample.dana 10%N
                                  Sample.unpublish_as_text Sample.school)) = 1
  /\ Notice.published (updated Sample.calm Sample.unpublish_as_text Sample.draft)
     = false.
Proof.
  destruct (fanout_follows_the_value_as_sent
              Sample.calm Sample.dana 10%N Sample.unpublish_as_text
              Sample.school Sample.draft) as (_ & Hcalls & Hflag).
  - reflexivity.
  - reflexivity.
  - reflexivity.
  - split; [discriminate | split; reflexivity].
  - reflexivity.
  - reflexivity.
  - split; [exact Hcalls|].
    unfold Notice.published. rewrite Hflag. reflexivity.
Defined.

(** X29.  A selector of an update that is a bare string narrows the
    audience as the array of that one string does: the update that retargets
    the draft to the branch ME and publishes it is answered 200 and notifies
    the one student of that branch. *)
Example string_selector_narrows_the_audience :
  let answer := updateNotice Sample.calm Sample.dana 10%N
                             Sample.retarget_and_publish Sample.school in
  status (fst answer) = 200
  /\ map (fun u => (User._id u, User.branch u))
         (filter (fun u => String.eqb (User.role u) "student") Sample.people)
     = [(1%N, "CSE"%string); (2%N, "ECE"%string); (3%N, "ME"%string)]
  /\ map Notification.recipient (notifications (snd answer)) = [3%N].
Proof. vm_compute. repeat split. Qed.

(** ** Failures of the fan-out *)

(** C4.  Whatever rejects inside the fan-out (the recipient lookup, the
    bulk insert, a null notice), the fan-out returns normally and leaves the
    notices alone; a valid creation still answers 201 with the stored
    notice, and an accepted update still answers 200 with the updated
    notice, which is in the collection. *)
Theorem fanout_failure_is_contained :
  (forall env notice w,
      fst (createNotifications env notice w) = Val tt
      /\ notices (snd (createNotifications env notice w)) = notices w)
  /\ (forall env user b w,
         valid_creation b ->
         notice_create (faults env) = None ->
         exists n,
           fst (createNotice env user b w) = respond 201 (NoticeData (Some n))
           /\ success (fst (createNotice env user b w)) = true
           /\ In n (notices (snd (createNotice env user b w))))
  /\ (forall env user id b w n,
         notice_findById (faults env) = None ->
         find_notice id (notices w) = Some n ->
         not_owner n user = false ->
         accepted_update env b ->
         fst (updateNotice env user id b w)
         = respond 200 (NoticeData (Some (updated env b n)))
         /\ success (fst (updateNotice env user id b w)) = true
         /\ In (updated env b n) (notices (snd (updateNotice env user id b w)))).
Proof.
  split; [|split].
  - intros env notice w.
    destruct (createNotifications_contained env notice w)
      as (w' & -> & Hn & _). now split.
  - intros env user b w Hvalid Hfault.
    exists (created env user b w).
    rewrite createNotice_valid by assumption. simpl.
    split; [reflexivity|]. split; [reflexivity|].
    rewrite notices_after_create. apply in_or_app. right. now left.
  - intros env user id b w n Hlookup Hfound Hown Haccepted.
    rewrite (updateNotice_accepted env user id b w n) by assumption. simpl.
    split; [reflexivity|]. split; [reflexivity|].
    rewrite notices_after_update.
    eapply In_replace_notice; [eassumption | reflexivity].
Qed.

Lemma fanout_failure_is_contained_witness :
  (exists n,
      fst (createNotice Sample.lookup_down Sample.dana Sample.post Sample.school)
      = respond 201 (NoticeData (Some n))
      /\ success (fst (createNotice Sample.lookup_down Sample.dana Sample.post
                                    Sample.school)) = true
      /\ In n (notices (snd (createNotice Sample.lookup_down Sample.dana
                                          Sample.post Sample.school))))
  /\ (fst (updateNotice Sample.lookup_down Sample.dana 10%N Sample.publish
                        Sample.school)
      = respond 200 (NoticeData (Some (updated Sample.lookup_down Sample.publish
                                               Sample.draft)))
      /\ success (fst (updateNotice Sample.lookup_down Sample.dana 10%N
                                    Sample.publish Sample.school)) = true
      /\ In (updated Sample.lookup_down Sample.publish Sample.draft)
            (notices (snd (updateNotice Sample.lookup_down Sample.dana 10%N
                                        Sample.publish Sample.school)))).
Proof.
  destruct fanout_failure_is_contained as (_ & Hcreate & Hupdate).
  split.
  - apply (Hcreate Sample.lookup_down Sample.dana Sample.post Sample.school).
    + split; reflexivity.
    + reflexivity.
  - apply (Hupdate Sample.lookup_down Sample.dana 10%N Sample.publish
                   Sample.school Sample.draft).
    + reflexivity.
    + reflexivity.
    + reflexivity.
    + split; [discriminate | split; reflexivity].
Defined.

(** ** Existence and ownership checks *)

Lemma find_notice_none (id : ObjectId) (ns : list Notice.t) :
  (forall n, In n ns -> Notice._id n <> id) -> find_notice id ns = None.
Proof.
  intros H. unfold find_notice.
  destruct (find _ ns) as [n|] eqn:E; [|reflexivity].
  apply find_some in E. destruct E as [Hin E]. apply N.eqb_eq in E.
  now apply H in Hin.
Qed.

Lemma not_owner_true (n : Notice.t) (user : Actor.t) :
  Notice.author n <> Actor._id user ->
  Actor.role user <> "admin"%string ->
  not_owner n user = true.
Proof.
  intros Ha Hr. unfold not_owner.
  apply N.eqb_neq in Ha. apply String.eqb_neq in Hr.
  now rewrite Ha, Hr.
Qed.

Lemma updateNotice_lookup (env : Env) (user : Actor.t) (id : ObjectId)
      (b : Body.t) (w : World) :
  notice_findById (faults env) = None ->
  updateNotice env user id b w
  = handler 400
      (match find_notice id (notices w) with
       | None => ret (respond 404 (Failure "Notice not found"))
       | Some n =>
           if not_owner n user
           then ret (respond 403 (Failure "Not authorized to update this notice"))
           else
             updatedNotice <- Notice_findByIdAndUpdate env id b ;;
             (if Js.truthy (Body.isPublished b) && negb (Notice.published n)
              then createNotifications env updatedNotice
              else ret tt) ;;;
             ret (respond 200 (NoticeData updatedNotice))
       end) w.
Proof.
  intros Hlookup. unfold updateNotice, handler.
  unfold bind at 1. unfold Notice_findById, reject_if. rewrite Hlookup.
  reflexivity.
Qed.

Lemma deleteNotice_lookup (env : Env) (user : Actor.t) (id : ObjectId) (w : World) :
  notice_findById (faults env) = None ->
  deleteNotice env user id w
  = handler 500
      (match find_notice id (notices w) with
       | None => ret (respond 404 (Failure "Notice not found"))
       | Some n =>
           if not_owner n user
           then ret (respond 403 (Failure "Not authorized to delete this notice"))
           else Notice_remove env n ;;; ret (respond 200 Empty)
       end) w.
Proof.
  intros Hlookup. unfold deleteNotice, handler.
  unfold bind at 1. unfold Notice_findById, reject_if. rewrite Hlookup.
  reflexivity.
Qed.

(** A lookup that rejects is answered by the catch clause of the handler. *)
Lemma updateNotice_lookup_fails (env : Env) (user : Actor.t) (id : ObjectId)
      (b : Body.t) (w : World) (msg : string) :
  notice_findById (faults env) = Some msg ->
  updateNotice env user id b w = (respond 400 (Failure msg), w).
Proof.
  intros Hlookup. unfold updateNotice, handler, bind, Notice_findById, reject_if.
  now rewrite Hlookup.
Qed.

Lemma deleteNotice_lookup_fails (env : Env) (user : Actor.t) (id : ObjectId)
      (w : World) (msg : string) :
  notice_findById (faults env) = Some msg ->
  deleteNotice env user id w = (respond 500 (Failure msg), w).
Proof.
  intros Hlookup. unfold deleteNotice, handler, bind, Notice_findById, reject_if.
  now rewrite Hlookup.
Qed.

(** C5, as stated, fails: when the identifier of the route cannot be cast
    the lookup rejects, and a request for an identifier that no stored
    notice has is answered by the catch clause, with status 400 by the
    update and with status 500 by the delete, not with 404. *)
Lemma uncastable_id_is_not_404 :
  (forall n, In n (notices Sample.school) -> Notice._id n <> 99%N)
  /\ notice_findById (faults Sample.uncastable_id)
     = Some "Cast to ObjectId failed"%string
  /\ updateNotice Sample.uncastable_id Sample.dana 99%N Sample.publish
                  Sample.school
     = (respond 400 (Failure "Cast to ObjectId failed"), Sample.school)
  /\ deleteNotice Sample.uncastable_id Sample.dana 99%N Sample.school
     = (respond 500 (Failure "Cast to ObjectId failed"), Sample.school).
Proof.
  split; [|vm_compute; repeat split].
  intros n Hin. simpl in Hin.
  destruct Hin as [<- | [<- | []]]; discriminate.
Qed.

(** C5, amended.  When the lookup completes (the identifier can be cast and
    the store answers): an update or a delete of an identifier that no
    stored notice has answers 404, one of a notice whose author is not the
    actor, the actor not being an admin, answers 403; in both cases the
    world is left exactly as it was. *)
Theorem mutation_checks_come_first
        (env : Env) (user : Actor.t) (id : ObjectId) (b : Body.t) (w : World) :
  notice_findById (faults env) = None ->
  ((forall n, In n (notices w) -> Notice._id n <> id) ->
   updateNotice env user id b w = (respond 404 (Failure "Notice not found"), w)
   /\ deleteNotice env user id w = (respond 404 (Failure "Notice not found"), w))
  /\ (forall n,
         find_notice id (notices w) = Some n ->
         Notice.author n <> Actor._id user ->
         Actor.role user <> "admin"%string ->
         updateNotice env user id b w
         = (respond 403 (Failure "Not authorized to update this notice"), w)
         /\ deleteNotice env user id w
            = (respond 403 (Failure "Not authorized to delete this notice"), w)).
Proof.
  intros Hlookup.
  rewrite updateNotice_lookup, deleteNotice_lookup by assumption.
  split.
  - intros Hnone. rewrite (find_notice_none id (notices w) Hnone).
    split; reflexivity.
  - intros n Hfound Ha Hr. rewrite Hfound.
    rewrite (not_owner_true n user Ha Hr). split; reflexivity.
Qed.

Lemma mutation_checks_come_first_witness :
  (updateNotice Sample.calm Sample.eli 99%N Sample.publish Sample.school
   = (respond 404 (Failure "Notice not found"), Sample.school)
   /\ deleteNotice Sample.calm Sample.eli 99%N Sample.school
      = (respond 404 (Failure "Notice not found"), Sample.school))
  /\ (updateNotice Sample.calm Sample.eli 10%N Sample.publish Sample.school
      = (respond 403 (Failure "Not authorized to update this notice"), Sample.school)
      /\ deleteNotice Sample.calm Sample.eli 10%N Sample.school
         = (respond 403 (Failure "Not authorized to delete this notice"),
            Sample.school)).
Proof.
  split.
  - apply (proj1 (mutation_checks_come_first Sample.calm Sample.eli 99%N
                    Sample.publish Sample.school eq_refl)).
    intros n Hin. simpl in Hin.
    destruct Hin as [<- | [<- | []]]; discriminate.
  - apply (proj2 (mutation_checks_come_first Sample.calm Sample.eli 10%N
                    Sample.publish Sample.school eq_refl) Sample.draft);
      [reflexivity | discriminate | discriminate].
Defined.

(** C10, as stated, fails: a user who is neither author nor admin and
    probes an identifier that no stored notice has, with an identifier that
    cannot be cast, receives 400 from the update and 500 from the delete,
    not 404 (and not 403 either). *)
Lemma stranger_probing_uncastable_id :
  Actor.role Sample.eli <> "admin"%string
  /\ find_notice 99%N (notices Sample.school) = None
  /\ status (fst (updateNotice Sample.uncastable_id Sample.eli 99%N
                               Sample.nothing Sample.school)) = 400
  /\ status (fst (deleteNotice Sample.uncastable_id Sample.eli 99%N
                               Sample.school)) = 500.
Proof.
  split; [discriminate|]. vm_compute. repeat split.
Qed.

(** C10, amended.  An update or a delete of an identifier that no stored
    notice has never answers 403, whoever the actor is and whatever the
    store does; whenever the lookup completes (the identifier can be cast
    and the store answers) the answer is 404: the handlers look the notice
    up before they look at the actor. *)
Theorem unknown_notice_is_404_never_403
        (env : Env) (user : Actor.t) (id : ObjectId) (b : Body.t) (w : World) :
  (forall n, In n (notices w) -> Notice._id n <> id) ->
  status (fst (updateNotice env user id b w)) <> 403
  /\ status (fst (deleteNotice env user id w)) <> 403
  /\ (notice_findById (faults env) = None ->
      status (fst (updateNotice env user id b w)) = 404
      /\ status (fst (deleteNotice env user id w)) = 404).
Proof.
  intros Hnone. apply find_notice_none in Hnone.
  destruct (notice_findById (faults env)) as [msg|] eqn:Hlookup.
  - rewrite (updateNotice_lookup_fails env user id b w msg Hlookup).
    rewrite (deleteNotice_lookup_fails env user id w msg Hlookup).
    simpl. repeat split; discriminate.
  - rewrite updateNotice_lookup, deleteNotice_lookup by assumption.
    rewrite Hnone. simpl. repeat split; discriminate.
Qed.

Lemma unknown_notice_is_404_never_403_witness :
  status (fst (updateNotice Sample.calm Sample.eli 99%N Sample.publish
                            Sample.school)) <> 403
  /\ status (fst (deleteNotice Sample.calm Sample.eli 99%N Sample.school)) <> 403
  /\ (notice_findById (faults Sample.calm) = None ->
      status (fst (updateNotice Sample.calm Sample.eli 99%N Sample.publish
                                Sample.school)) = 404
      /\ status (fst (deleteNotice Sample.calm Sample.eli 99%N Sample.school)) = 404).
Proof.
  apply (unknown_notice_is_404_never_403 Sample.calm Sample.eli 99%N
                                         Sample.publish Sample.school).
  intros n Hin. simpl in Hin.
  destruct Hin as [<- | [<- | []]]; discriminate.
Defined.

(** ** Validation at creation *)

Lemma createNotice_guarded (env : Env) (user : Actor.t) (b : Body.t) (w : World)
      (msg : string) :
  audience_guard (Body.targetAudience b) = Some msg ->
  createNotice env user b w = (respond 400 (Failure msg), w).
Proof.
  intros Hguard. unfold createNotice, handler. now rewrite Hguard.
Qed.

Lemma createNotice_invalid (env : Env) (user : Actor.t) (b : Body.t) (w : World) :
  NoticeSchema.validate (Body.title b) (Body.content b) (Body.category b) <> [] ->
  exists msg, createNotice env user b w = (respond 400 (Failure msg), w).
Proof.
  intros Hinvalid.
  destruct (audience_guard (Body.targetAudience b)) as [msg|] eqn:Hguard.
  - exists msg. now apply createNotice_guarded.
  - unfold createNotice, handler. rewrite Hguard.
    unfold bind at 1. unfold Notice_create.
    destruct (NoticeSchema.validate _ _ _) as [|e errors]; [contradiction|].
    eexists. reflexivity.
Qed.

Lemma refused_selector_guard (ta : AudienceIn.t) :
  refused_selector (AudienceIn.branches ta)
  \/ refused_selector (AudienceIn.years ta) ->
  exists msg, audience_guard (Some ta) = Some msg.
Proof.
  unfold refused_selector, audience_guard, bad_selector.
  intros [[Ht Ha] | [Ht Ha]].
  - rewrite Ht, Ha. simpl. eexists. reflexivity.
  - destruct (Js.truthy (AudienceIn.branches ta)
              && negb (Js.isArray (AudienceIn.branches ta))).
    + eexists. reflexivity.
    + rewrite Ht, Ha. simpl. eexists. reflexivity.
Qed.

Lemma check_title_missing (v : option string) :
  missing v -> NoticeSchema.check_title v <> [].
Proof. intros [-> | ->]; discriminate. Qed.

Lemma check_content_missing (v : option string) :
  missing v -> NoticeSchema.check_content v <> [].
Proof. intros [-> | ->]; discriminate. Qed.

Lemma check_category_missing (v : option string) :
  missing v -> NoticeSchema.check_category v <> [].
Proof. intros [-> | ->]; discriminate. Qed.

Lemma check_title_long (s : string) :
  (100 < String.length s)%nat -> NoticeSchema.check_title (Some s) <> [].
Proof.
  intros Hlong. unfold NoticeSchema.check_title.
  destruct (String.eqb s EmptyString); [discriminate|].
  destruct (Z.ltb_spec 100 (Z.of_nat (String.length s))); [discriminate | lia].
Qed.

Lemma check_category_unlisted (c : string) :
  ~ In c NoticeSchema.categories -> NoticeSchema.check_category (Some c) <> [].
Proof.
  intros Hout. unfold NoticeSchema.check_category.
  destruct (String.eqb c EmptyString); [discriminate|].
  destruct (existsb (String.eqb c) NoticeSchema.categories) eqn:E; [|discriminate].
  exfalso. apply Hout. now apply includes_In.
Qed.

Lemma app_not_nil {A} (xs ys zs : list A) :
  xs <> [] \/ ys <> [] \/ zs <> [] -> xs ++ ys ++ zs <> [].
Proof.
  intros H E. apply app_eq_nil in E. destruct E as [-> E].
  apply app_eq_nil in E. destruct E as [-> ->]. tauto.
Qed.

(** X27.  Under the constraints on [title], [content] and [category] alone:
    a creation payload with a target-audience selector that is truthy and
    not an array, with a title longer than 100 characters after trimming,
    with a title (after trimming), content or category that is missing or
    empty, or with a category outside the enumeration, is answered with
    status 400 and an error message, and the world is left exactly as it
    was: no notice, no notification. *)
Theorem create_refuses_violations
        (env : Env) (user : Actor.t) (b : Body.t) (w : World) :
  violates b ->
  exists msg, createNotice env user b w = (respond 400 (Failure msg), w).
Proof.
  intros [(ta & Hta & Hsel) | Hschema].
  - destruct (refused_selector_guard ta Hsel) as [msg Hguard].
    exists msg. apply createNotice_guarded. now rewrite Hta.
  - apply createNotice_invalid. unfold NoticeSchema.validate.
    apply app_not_nil.
    destruct Hschema as [(s & Hs & Hlong) | [Ht | [Hc | [Hk | (c & Hc & Hout)]]]].
    + left. rewrite Hs. simpl. now apply check_title_long.
    + left. now apply check_title_missing.
    + right; left. now apply check_content_missing.
    + right; right. now apply check_category_missing.
    + right; right. rewrite Hc. now apply check_category_unlisted.
Qed.

Lemma create_refuses_violations_witness :
  exists msg,
    createNotice Sample.calm Sample.dana Sample.long_title_post Sample.school
    = (respond 400 (Failure msg), Sample.school).
Proof.
  apply (create_refuses_violations Sample.calm Sample.dana Sample.long_title_post
                                   Sample.school).
  right; left. exists (Sample.replicate 101 "a"). split; [reflexivity|].
  vm_compute. repeat constructor.
Defined.

Lemma createNotice_under_variant (env : Env) (user : Actor.t) (b : Body.t) :
  createNotice_under NoticeSchema.validate env user b = createNotice env user b.
Proof. reflexivity. Qed.

(** A document without [branch], [year] and [teacher] never passes the
    validators of the schema as it stands. *)
Lemma flat_schema_refuses (title content category : option string) :
  FlatSchema.of_controller title content category <> [].
Proof.
  unfold FlatSchema.of_controller, FlatSchema.validate. intros E.
  apply app_eq_nil in E. destruct E as [_ E].
  apply app_eq_nil in E. destruct E as [_ E].
  apply app_eq_nil in E. destruct E as [_ E].
  discriminate.
Qed.

Lemma flat_schema_is_strict : at_least_as_strict FlatSchema.of_controller.
Proof. intros title content category _. apply flat_schema_refuses. Qed.






(** ** Persistence failures *)

Lemma getNoticeStats_fails (env : Env) (user : Actor.t) (w : World) :
  (exists k, (k < 3)%nat /\ notice_aggregate (faults env) k <> None) ->
  exists msg, getNoticeStats env user w = (respond 500 (Failure msg), w).
Proof.
  intros (k & Hk & Hfault).
  unfold getNoticeStats, handler, bind, Notice_aggregate, reject_if,
    get_world, ret, throw.
  destruct (notice_aggregate (faults env) 0) eqn:H0; [eexists; reflexivity|].
  destruct (notice_aggregate (faults env) 1) eqn:H1; [eexists; reflexivity|].
  destruct (notice_aggregate (faults env) 2) eqn:H2; [eexists; reflexivity|].
  exfalso. apply Hfault.
  destruct k as [|[|[|k]]]; [assumption | assumption | assumption | lia].
Qed.

Lemma getNotices_fails (env : Env) (q : Params.t) (w : World) :
  notice_find (faults env) <> None \/ notice_count (faults env) <> None ->
  exists msg, getNotices env q w = (respond 500 (Failure msg), w).
Proof.
  intros Hfault.
  unfold getNotices, handler. unfold bind at 1.
  unfold Notice_find, reject_if.
  destruct (notice_find (faults env)) eqn:Hfind; [eexists; reflexivity|].
  unfold bind at 1. unfold get_world.
  destruct (matching env (build_filter q) (notices w)) as [found|];
    [|eexists; reflexivity].
  destruct (times _ _) as [s|]; [|eexists; reflexivity].
  destruct (Js.parseInt_param 10 (Params.limit q)) as [l|];
    [|eexists; reflexivity].
  destruct (s <? 0); [eexists; reflexivity|].
  unfold ret, bind, Notice_countDocuments, reject_if.
  destruct (notice_count (faults env)) eqn:Hcount; [eexists; reflexivity|].
  exfalso. destruct Hfault as [H|H]; now apply H.
Qed.

(** C9, as stated, fails: a creation request with a valid payload, met by a
    store that refuses the insert, is answered with status 400, and so is an
    update request when the lookup is refused. *)
Lemma create_and_update_answer_400_on_store_failure :
  valid_creation Sample.post
  /\ notice_create (faults Sample.notices_down) = Some "connection lost"%string
  /\ createNotice Sample.notices_down Sample.dana Sample.post Sample.school
     = (respond 400 (Failure "connection lost"), Sample.school)
  /\ notice_findById (faults Sample.notices_down) = Some "connection lost"%string
  /\ updateNotice Sample.notices_down Sample.dana 10%N Sample.publish Sample.school
     = (respond 400 (Failure "connection lost"), Sample.school).
Proof. vm_compute. repeat split. Qed.

(** C9, amended.  A call to the store that rejects for a reason that is not
    the request's own is reported with status 500 by List, Get, Delete and
    Stats, and with status 400, the status of their catch-all clause, by
    Create and Update; the response carries the error's message and the
    world is left as it was. *)
Theorem store_failure_status :
  (forall env q w,
      notice_find (faults env) <> None \/ notice_count (faults env) <> None ->
      exists msg, getNotices env q w = (respond 500 (Failure msg), w))
  /\ (forall env id w msg,
         notice_findById (faults env) = Some msg ->
         getNotice env id w = (respond 500 (Failure msg), w))
  /\ (forall env user id w msg,
         notice_findById (faults env) = Some msg ->
         deleteNotice env user id w = (respond 500 (Failure msg), w))
  /\ (forall env user id w n msg,
         notice_findById (faults env) = None ->
         find_notice id (notices w) = Some n ->
         not_owner n user = false ->
         notice_remove (faults env) = Some msg ->
         deleteNotice env user id w = (respond 500 (Failure msg), w))
  /\ (forall env user w,
         (exists k, (k < 3)%nat /\ notice_aggregate (faults env) k <> None) ->
         exists msg, getNoticeStats env user w = (respond 500 (Failure msg), w))
  /\ (forall env user b w msg,
         valid_creation b ->
         notice_create (faults env) = Some msg ->
         createNotice env user b w = (respond 400 (Failure msg), w))
  /\ (forall env user id b w msg,
         notice_findById (faults env) = Some msg ->
         updateNotice env user id b w = (respond 400 (Failure msg), w))
  /\ (forall env user id b w n msg,
         notice_findById (faults env) = None ->
         find_notice id (notices w) = Some n ->
         not_owner n user = false ->
         NoticeSchema.castBoolean (Body.isPublished b) <> None ->
         NoticeSchema.validate_update (Body.title b) (Body.content b)
                                      (Body.category b) = [] ->
         notice_update (faults env) = Some msg ->
         updateNotice env user id b w = (respond 400 (Failure msg), w)).
Proof.
  repeat match goal with |- _ /\ _ => split end.
  - apply getNotices_fails.
  - intros env id w msg Hlookup.
    unfold getNotice, handler, bind, Notice_findById, reject_if.
    now rewrite Hlookup.
  - apply deleteNotice_lookup_fails.
  - intros env user id w n msg Hlookup Hfound Hown Hremove.
    rewrite deleteNotice_lookup by assumption.
    rewrite Hfound, Hown. unfold handler, bind, Notice_remove, reject_if.
    now rewrite Hremove.
  - apply getNoticeStats_fails.
  - intros env user b w msg [Hguard Hvalid] Hfault.
    unfold createNotice, handler. rewrite Hguard.
    unfold bind at 1. unfold Notice_create. rewrite Hvalid.
    unfold reject_if. now rewrite Hfault.
  - apply updateNotice_lookup_fails.
  - intros env user id b w n msg Hlookup Hfound Hown Hcast Hvalid Hwrite.
    rewrite updateNotice_lookup by assumption.
    rewrite Hfound, Hown. unfold handler. unfold bind at 1.
    unfold Notice_findByIdAndUpdate.
    destruct (NoticeSchema.castBoolean (Body.isPublished b)); [|congruence].
    rewrite Hvalid. unfold reject_if. now rewrite Hwrite.
Qed.

Lemma store_failure_status_witness :
  (exists msg,
      getNotices Sample.notices_down
                 (Params.mk None None None None None None None) Sample.school
      = (respond 500 (Failure msg), Sample.school))
  /\ getNotice Sample.notices_down 10%N Sample.school
     = (respond 500 (Failure "connection lost"), Sample.school)
  /\ deleteNotice Sample.notices_down Sample.dana 10%N Sample.school
     = (respond 500 (Failure "connection lost"), Sample.school)
  /\ (exists msg,
         getNoticeStats Sample.notices_down Sample.dana Sample.school
         = (respond 500 (Failure msg), Sample.school))
  /\ createNotice Sample.notices_down Sample.dana Sample.post Sample.school
     = (respond 400 (Failure "connection lost"), Sample.school)
  /\ updateNotice Sample.notices_down Sample.dana 10%N Sample.publish Sample.school
     = (respond 400 (Failure "connection lost"), Sample.school).
Proof.
  destruct store_failure_status
    as (Hlist & Hget & Hdelete & _ & Hstats & Hcreate & Hupdate & _).
  split; [|split; [|split; [|split; [|split]]]].
  - apply Hlist. left. discriminate.
  - apply Hget. reflexivity.
  - apply Hdelete. reflexivity.
  - apply Hstats. exists 0%nat. split; [repeat constructor | discriminate].
  - apply Hcreate; [split; reflexivity | reflexivity].
  - apply Hupdate. reflexivity.
Defined.

(** ** Listing: order and pages *)

Lemma insert_by_perm {A} (le : A -> A -> bool) (x : A) (xs : list A) :
  Permutation (insert_by le x xs) (x :: xs).
Proof.
  induction xs as [|y ys IH]; simpl; [reflexivity|].
  destruct (le x y); [reflexivity|].
  rewrite IH. apply perm_swap.
Qed.

Lemma sort_by_perm {A} (le : A -> A -> bool) (xs : list A) :
  Permutation (sort_by le xs) xs.
Proof.
  induction xs as [|x xs IH]; simpl; [reflexivity|].
  unfold sort_by in *. rewrite insert_by_perm. now constructor.
Qed.

Lemma insert_newer_first_sorted (n : Notice.t) (ns : list Notice.t) :
  StronglySorted not_older ns ->
  StronglySorted not_older (insert_by newer_first n ns).
Proof.
  induction ns as [|m ms IH]; simpl; intros Hs.
  - repeat constructor.
  - inversion Hs as [|? ? Hms Hall]; subst.
    unfold newer_first at 1.
    destruct (Z.leb_spec (Notice.createdAt m) (Notice.createdAt n)) as [Hle|Hlt].
    + constructor; [assumption|].
      constructor; [exact Hle|].
      eapply Forall_impl; [|exact Hall].
      unfold not_older. intros k Hk. lia.
    + constructor; [now apply IH|].
      eapply Permutation_Forall.
      * symmetry. apply insert_by_perm.
      * constructor; [unfold not_older; lia | assumption].
Qed.

Lemma sort_desc_sorted (ns : list Notice.t) :
  StronglySorted not_older (sort_desc ns).
Proof.
  induction ns as [|n ns IH]; simpl; [constructor|].
  now apply insert_newer_first_sorted.
Qed.

(** [Math.ceil]: the least number of pages that hold all the records. *)
Lemma total_pages_ceiling (total l : Z) :
  1 <= l ->
  exists pages,
    total_pages total (Some l) = Some pages
    /\ (pages - 1) * l < total <= pages * l.
Proof.
  intros Hl. unfold total_pages.
  destruct (Z.eqb_spec l 0) as [E|_]; [lia|].
  eexists. split; [reflexivity|].
  pose proof (Z.mul_div_le (- total) l ltac:(lia)).
  pose proof (Z.mul_succ_div_gt (- total) l ltac:(lia)).
  nia.
Qed.

Lemma length_page {A} (skip limit : nat) (xs : list A) :
  List.length (firstn limit (skipn skip xs))
  = Nat.min limit (List.length xs - skip).
Proof.
  now rewrite length_firstn, length_skipn.
Qed.

Lemma getNotices_page (env : Env) (q : Params.t) (w : World)
      (found : list Notice.t) (p l : Z) :
  notice_find (faults env) = None ->
  notice_count (faults env) = None ->
  matching env (build_filter q) (notices w) = Some found ->
  Js.parseInt_param 1 (Params.page q) = Some p ->
  Js.parseInt_param 10 (Params.limit q) = Some l ->
  1 <= p -> 1 <= l ->
  getNotices env q w
  = (let data := map (populate (users w)) (page_slice p l (sort_desc found)) in
     respond 200
       (Page (Z.of_nat (List.length data)) (Z.of_nat (List.length found))
             (total_pages (Z.of_nat (List.length found)) (Some l)) (Some p) data),
     w).
Proof.
  intros Hfind Hcount Hfound Hp Hl Hp1 Hl1.
  unfold getNotices, handler. rewrite Hp, Hl. simpl times.
  unfold bind at 1. unfold Notice_find, reject_if. rewrite Hfind.
  unfold bind at 1. unfold get_world. rewrite Hfound.
  destruct (Z.ltb_spec ((p - 1) * l) 0) as [Hneg|_]; [nia|].
  unfold ret, bind, Notice_countDocuments, reject_if. rewrite Hcount.
  unfold bind, get_world, ret. rewrite Hfound.
  unfold window. destruct (Z.eqb_spec l 0) as [E|_]; [lia|].
  rewrite Z.abs_eq by lia. reflexivity.
Qed.

(** C7.  For a list request with page [p >= 1] and page size [l >= 1]
    (1 and 10 when absent) over a collection in which [found] are the
    matching notices: the response is 200; [total] is the number of matching
    notices; [totalPages] is the ceiling of [total / l]; [data] is page [p]
    of the matching notices sorted newest first; [count] is the length of
    that page.  With 25 matching notices and pages of 10 there are 3 pages
    and page 3 holds 5 records. *)
Theorem list_pagination
        (env : Env) (q : Params.t) (w : World) (found : list Notice.t) (p l : Z) :
  notice_find (faults env) = None ->
  notice_count (faults env) = None ->
  matching env (build_filter q) (notices w) = Some found ->
  Js.parseInt_param 1 (Params.page q) = Some p ->
  Js.parseInt_param 10 (Params.limit q) = Some l ->
  1 <= p -> 1 <= l ->
  let total := Z.of_nat (List.length found) in
  let slice := page_slice p l (sort_desc found) in
  exists pages,
    getNotices env q w
    = (respond 200
         (Page (Z.of_nat (List.length slice)) total (Some pages) (Some p)
               (map (populate (users w)) slice)),
       w)
    /\ (pages - 1) * l < total <= pages * l
    /\ Permutation (sort_desc found) found
    /\ StronglySorted not_older (sort_desc found)
    /\ Z.of_nat (List.length slice) = Z.max 0 (Z.min l (total - (p - 1) * l))
    /\ (Params.page q = None -> p = 1)
    /\ (Params.limit q = None -> l = 10)
    /\ (total = 25 -> l = 10 ->
        pages = 3 /\ (p = 3 -> List.length slice = 5%nat)).
Proof.
  intros Hfind Hcount Hfound Hp Hl Hp1 Hl1 total slice.
  destruct (total_pages_ceiling total l Hl1) as (pages & Hpages & Hceil).
  exists pages.
  assert (Hlen : Z.of_nat (List.length slice)
                 = Z.max 0 (Z.min l (total - (p - 1) * l))).
  { unfold slice, page_slice, sort_desc. rewrite length_page.
    rewrite (Permutation_length (sort_by_perm newer_first found)).
    assert (Hskip : 0 <= (p - 1) * l) by nia.
    unfold total. lia. }
  split.
  - rewrite (getNotices_page env q w found p l) by assumption.
    cbv zeta. fold total. rewrite Hpages. fold slice.
    now rewrite length_map.
  - split; [exact Hceil|].
    split; [apply sort_by_perm|].
    split; [apply sort_desc_sorted|].
    split; [exact Hlen|].
    split; [intros E; rewrite E in Hp; simpl in Hp; congruence|].
    split; [intros E; rewrite E in Hl; simpl in Hl; congruence|].
    intros Ht El. split; [nia|]. intros Ep. lia.
Qed.

Lemma list_pagination_witness :
  exists pages,
    getNotices Sample.calm Sample.third_page Sample.archive
    = (respond 200
         (Page 5 25 (Some pages) (Some 3)
               (map (populate Sample.people)
                    (page_slice 3 10 (sort_desc (notices Sample.archive))))),
       Sample.archive)
    /\ pages = 3.
Proof.
  destruct (list_pagination Sample.calm Sample.third_page Sample.archive
                            (notices Sample.archive) 3 10)
    as (pages & Hrun & _ & _ & _ & _ & _ & _ & Hexample).
  - reflexivity.
  - reflexivity.
  - reflexivity.
  - reflexivity.
  - reflexivity.
  - lia.
  - lia.
  - exists pages. split; [exact Hrun|].
    apply Hexample; reflexivity.
Defined.

(** ** Listing: filters and search *)

Lemma parse_literal (p : string) :
  Regex.literal p = true -> Regex.parse p = Some (literals p).
Proof.
  unfold Regex.literal.
  induction p as [|c r IH]; simpl; [reflexivity|].
  intros H. apply andb_true_iff in H. destruct H as [Hc Hr].
  rewrite (IH Hr).
  destruct (Ascii.eqb_spec c "."%char) as [->|_]; [discriminate|].
  apply negb_true_iff in Hc. now rewrite Hc.
Qed.

Lemma match_here_literals (p s : string) :
  Regex.match_here (literals p) s = true
  <-> exists post, Regex.lower_str s = (Regex.lower_str p ++ post)%string.
Proof.
  revert s. induction p as [|a p IH]; intros s; simpl.
  - split; [intros _; now exists (Regex.lower_str s) | reflexivity].
  - destruct s as [|c r]; simpl.
    + split; [discriminate | intros [post H]; discriminate].
    + rewrite andb_true_iff, IH. split.
      * intros [E [post H]]. apply Ascii.eqb_eq in E.
        exists post. now rewrite E, H.
      * intros [post H]. injection H as E H.
        split; [rewrite E; apply Ascii.eqb_refl | now exists post].
Qed.

(** On a pattern without metacharacters the regex search is the
    case-insensitive substring test. *)
Lemma search_literals (p s : string) :
  Regex.search (literals p) s = true <-> ci_substring p s.
Proof.
  unfold ci_substring.
  induction s as [|c r IH]; simpl; rewrite orb_true_iff.
  - split.
    + intros [H | H]; [|discriminate].
      apply (match_here_literals p EmptyString) in H.
      destruct H as [post H]. now exists EmptyString, post.
    + intros (pre & post & H). left.
      apply (match_here_literals p EmptyString).
      destruct pre; [now exists post | discriminate].
  - split.
    + intros [H | H].
      * apply (match_here_literals p (String c r)) in H.
        destruct H as [post H]. now exists EmptyString, post.
      * apply IH in H. destruct H as (pre & post & H).
        exists (String (Regex.lower c) pre), post. simpl. now rewrite H.
    + intros (pre & post & H). destruct pre as [|x pre].
      * left. apply (match_here_literals p (String c r)). now exists post.
      * right. apply IH. injection H as _ H. now exists pre, post.
Qed.

Lemma eq_field_string (wanted : option string) (stored : option string) :
  eq_field String.eqb wanted stored = true
  <-> (forall v, wanted = Some v -> stored = Some v).
Proof.
  destruct wanted as [v|]; simpl.
  - destruct stored as [s|].
    + rewrite String.eqb_eq. split.
      * intros -> v' E. congruence.
      * intros H. specialize (H v eq_refl). congruence.
    + split; [discriminate|]. intros H. specialize (H v eq_refl). discriminate.
  - split; [discriminate | reflexivity].
Qed.

Lemma eq_field_Z (wanted stored : option Z) :
  eq_field Z.eqb wanted stored = true
  <-> (forall v, wanted = Some v -> stored = Some v).
Proof.
  destruct wanted as [v|]; simpl.
  - destruct stored as [s|].
    + rewrite Z.eqb_eq. split.
      * intros -> v' E. congruence.
      * intros H. specialize (H v eq_refl). congruence.
    + split; [discriminate|]. intros H. specialize (H v eq_refl). discriminate.
  - split; [discriminate | reflexivity].
Qed.

Lemma eq_field_N (wanted stored : option N) :
  eq_field N.eqb wanted stored = true
  <-> (forall v, wanted = Some v -> stored = Some v).
Proof.
  destruct wanted as [v|]; simpl.
  - destruct stored as [s|].
    + rewrite N.eqb_eq. split.
      * intros -> v' E. congruence.
      * intros H. specialize (H v eq_refl). congruence.
    + split; [discriminate|]. intros H. specialize (H v eq_refl). discriminate.
  - split; [discriminate | reflexivity].
Qed.

Lemma truthy_filter (p : option string) (v : string) :
  (if Js.truthy_str p then p else None) = Some v
  <-> p = Some v /\ v <> EmptyString.
Proof.
  destruct p as [s|]; simpl.
  - destruct (String.eqb_spec s EmptyString) as [->|Hne]; simpl.
    + split; [discriminate|]. intros [E Hne]. congruence.
    + split; [intros E; split; congruence | tauto].
  - split; [discriminate | intros [E _]; discriminate].
Qed.

(** The four equality conditions of the query are the supplied filters. *)
Lemma filters_of_query (q : Params.t) (n : Notice.t) :
  eq_field String.eqb (Filter.category (build_filter q)) (Some (Notice.category n))
  && eq_field String.eqb (Filter.branch (build_filter q)) (Notice.branch n)
  && eq_field Z.eqb (Filter.year (build_filter q)) (Notice.year n)
  && eq_field N.eqb (Filter.teacher (build_filter q)) (Notice.teacher n) = true
  <-> satisfies_filters q n.
Proof.
  unfold satisfies_filters.
  rewrite !andb_true_iff, !eq_field_string, eq_field_Z, eq_field_N. simpl.
  split.
  - intros [[[Hc Hb] Hy] Ht]. repeat split; try assumption.
    + intros c E Hne.
      assert (H : Some (Notice.category n) = Some c)
        by (apply Hc; now apply truthy_filter).
      congruence.
    + intros b E Hne. apply Hb. now apply truthy_filter.
  - intros (Hc & Hb & Hy & Ht). repeat split; try assumption.
    + intros c E. apply truthy_filter in E. destruct E as [E Hne].
      f_equal. now apply Hc.
    + intros b E. apply truthy_filter in E. destruct E as [E Hne].
      now apply Hb.
Qed.

Lemma matching_literal_search (env : Env) (q : Params.t) (ns : list Notice.t)
      (s : string) :
  Params.search q = Some s ->
  s <> EmptyString ->
  Regex.literal s = true ->
  matching env (build_filter q) ns
  = Some (filter
            (matches (build_filter q)
                     (Some [(InTitle, Regex.search (literals s));
                            (InContent, Regex.search (literals s))]))
            ns).
Proof.
  intros Hs Hne Hlit. unfold matching, build_filter. simpl. rewrite Hs. simpl.
  destruct (String.eqb_spec s EmptyString) as [E|_]; [contradiction|]. simpl.
  unfold compile. rewrite (parse_literal s Hlit). reflexivity.
Qed.

(** C8, as stated, fails: the search term is a pattern.  The term "a.c"
    selects a notice whose content is "abc", although "a.c" occurs neither
    in its title nor in its content. *)
Lemma search_term_is_a_pattern :
  matching Sample.calm (build_filter (Sample.search_for "a.c"))
           (notices Sample.school) = Some [Sample.welcome]
  /\ fst (getNotices Sample.calm (Sample.search_for "a.c") Sample.school)
     = respond 200 (Page 1 1 (Some 1) (Some 1)
                         [populate Sample.people Sample.welcome])
  /\ ~ ci_substring "a.c" (Notice.title Sample.welcome)
  /\ ~ ci_substring "a.c" (Notice.content Sample.welcome).
Proof.
  split; [reflexivity|]. split; [reflexivity|].
  split; intros H; apply search_literals in H; vm_compute in H; discriminate.
Qed.

(** C8, amended.  For a list request whose search term is not empty and
    contains no regex metacharacter, a stored notice matches if and only if
    it satisfies every supplied filter among category, branch, year and
    teacher, and the term occurs, letter case ignored, in its title or in
    its content. *)
Theorem plain_search_combines_with_filters
        (env : Env) (q : Params.t) (w : World) (s : string) :
  Params.search q = Some s ->
  s <> EmptyString ->
  Regex.literal s = true ->
  exists found,
    matching env (build_filter q) (notices w) = Some found
    /\ forall n,
        In n found
        <-> In n (notices w)
            /\ satisfies_filters q n
            /\ (ci_substring s (Notice.title n) \/ ci_substring s (Notice.content n)).
Proof.
  intros Hs Hne Hlit.
  eexists.
  split; [apply (matching_literal_search env q (notices w) s); assumption|].
  intros n. rewrite filter_In. unfold matches.
  rewrite andb_true_iff, filters_of_query. simpl.
  rewrite orb_false_r, orb_true_iff, !search_literals.
  tauto.
Qed.

Lemma plain_search_combines_with_filters_witness :
  exists found,
    matching Sample.calm (build_filter (Sample.search_for "EXAM"))
             (notices Sample.school) = Some found
    /\ forall n,
        In n found
        <-> In n (notices Sample.school)
            /\ satisfies_filters (Sample.search_for "EXAM") n
            /\ (ci_substring "EXAM" (Notice.title n)
                \/ ci_substring "EXAM" (Notice.content n)).
Proof.
  apply (plain_search_combines_with_filters
           Sample.calm (Sample.search_for "EXAM") Sample.school "EXAM").
  - reflexivity.
  - discriminate.
  - reflexivity.
Defined.

(** * Further properties of the handlers *)

(** ** What each handler does to the world *)

Lemma accepted_update_dec (env : Env) (b : Body.t) :
  accepted_update env b \/ ~ accepted_update env b.
Proof.
  unfold accepted_update.
  destruct (NoticeSchema.castBoolean (Body.isPublished b));
    [|right; intros [H _]; now apply H].
  destruct (NoticeSchema.validate_update _ _ _);
    [|right; intros (_ & H & _); discriminate].
  destruct (notice_update (faults env));
    [right; intros (_ & _ & H); discriminate|].
  left. split; [discriminate | split; reflexivity].
Qed.

Lemma not_owner_false (n : Notice.t) (user : Actor.t) :
  not_owner n user = false <-> may_mutate user n.
Proof.
  unfold not_owner, may_mutate.
  rewrite andb_false_iff, !negb_false_iff, N.eqb_eq, String.eqb_eq. tauto.
Qed.

Lemma getNotices_reads (env : Env) (q : Params.t) (w : World) :
  snd (getNotices env q w) = w.
Proof.
  unfold getNotices, handler. unfold bind at 1.
  unfold Notice_find, reject_if.
  destruct (notice_find (faults env)); [reflexivity|].
  unfold bind at 1. unfold get_world.
  destruct (matching env (build_filter q) (notices w)) as [found|];
    [|reflexivity].
  destruct (times _ _) as [s|]; [|reflexivity].
  destruct (Js.parseInt_param 10 (Params.limit q)) as [l|]; [|reflexivity].
  destruct (s <? 0); [reflexivity|].
  unfold ret, bind, Notice_countDocuments, reject_if.
  destruct (notice_count (faults env)); [reflexivity|].
  unfold bind, get_world.
  now destruct (matching env (build_filter q) (notices w)).
Qed.

Lemma getNotice_reads (env : Env) (id : ObjectId) (w : World) :
  snd (getNotice env id w) = w.
Proof.
  unfold getNotice, handler, bind, Notice_findById, reject_if.
  destruct (notice_findById (faults env)); [reflexivity|].
  unfold get_world, ret. simpl.
  destruct (find_notice id (notices w)); reflexivity.
Qed.

Lemma getNoticeStats_reads (env : Env) (user : Actor.t) (w : World) :
  snd (getNoticeStats env user w) = w.
Proof.
  unfold getNoticeStats, handler, bind, Notice_aggregate, reject_if,
    get_world, ret, throw.
  destruct (notice_aggregate (faults env) 0); [reflexivity|].
  destruct (notice_aggregate (faults env) 1); [reflexivity|].
  now destruct (notice_aggregate (faults env) 2).
Qed.

(** Creation either leaves the world alone or appends one notice with the
    next identifier. *)
Lemma createNotice_effect (env : Env) (user : Actor.t) (b : Body.t) (w : World) :
  snd (createNotice env user b w) = w
  \/ (valid_creation b /\ notice_create (faults env) = None
      /\ createNotice env user b w
         = (respond 201 (NoticeData (Some (created env user b w))),
            after_create env user b w)).
Proof.
  destruct (audience_guard (Body.targetAudience b)) as [msg|] eqn:Hguard.
  - left. now rewrite (createNotice_guarded env user b w msg Hguard).
  - destruct (NoticeSchema.validate (Body.title b) (Body.content b)
                                    (Body.category b)) as [|e errors] eqn:Hvalid.
    + destruct (notice_create (faults env)) as [msg|] eqn:Hfault.
      * left. unfold createNotice, handler. rewrite Hguard.
        unfold bind at 1. unfold Notice_create. rewrite Hvalid.
        unfold reject_if. now rewrite Hfault.
      * right. split; [now split|]. split; [reflexivity|].
        apply createNotice_valid; [now split | assumption].
    + left.
      destruct (createNotice_invalid env user b w) as [msg ->]; [|reflexivity].
      rewrite Hvalid. discriminate.
Qed.

(** An update either leaves the world alone or replaces the notice it found
    by the updated one. *)
Lemma updateNotice_effect (env : Env) (user : Actor.t) (id : ObjectId)
      (b : Body.t) (w : World) :
  snd (updateNotice env user id b w) = w
  \/ (exists n,
         notice_findById (faults env) = None
         /\ find_notice id (notices w) = Some n
         /\ not_owner n user = false
         /\ accepted_update env b
         /\ updateNotice env user id b w
            = (respond 200 (NoticeData (Some (updated env b n))),
               after_update env b n w)).
Proof.
  destruct (notice_findById (faults env)) as [msg|] eqn:Hlookup.
  - left. now rewrite (updateNotice_lookup_fails env user id b w msg Hlookup).
  - destruct (find_notice id (notices w)) as [n|] eqn:Hfound.
    + destruct (not_owner n user) eqn:Hown.
      * left. rewrite updateNotice_lookup by assumption.
        now rewrite Hfound, Hown.
      * destruct (accepted_update_dec env b) as [Hyes|Hno].
        -- right. exists n.
           do 4 (split; [first [reflexivity | assumption]|]).
           now apply updateNotice_accepted.
        -- left.
           destruct (updateNotice_refused env user id b w n) as [msg ->];
             auto.
    + left. rewrite updateNotice_lookup by assumption. now rewrite Hfound.
Qed.

(** A delete either leaves the world alone or removes the notices of the
    identifier it found. *)
Lemma deleteNotice_effect (env : Env) (user : Actor.t) (id : ObjectId) (w : World) :
  snd (deleteNotice env user id w) = w
  \/ (exists n,
         notice_findById (faults env) = None
         /\ find_notice id (notices w) = Some n
         /\ not_owner n user = false
         /\ notice_remove (faults env) = None
         /\ deleteNotice env user id w
            = (respond 200 Empty, set_notices (without id (notices w)) w)).
Proof.
  destruct (notice_findById (faults env)) as [msg|] eqn:Hlookup.
  - left. now rewrite (deleteNotice_lookup_fails env user id w msg Hlookup).
  - rewrite deleteNotice_lookup by assumption.
    destruct (find_notice id (notices w)) as [n|] eqn:Hfound; [|now left].
    destruct (not_owner n user) eqn:Hown; [now left|].
    unfold handler, bind, Notice_remove, reject_if.
    destruct (notice_remove (faults env)) as [msg|] eqn:Hremove; [now left|].
    right. exists n.
    do 4 (split; [first [reflexivity | assumption]|]).
    apply find_notice_some in Hfound. destruct Hfound as [_ <-].
    reflexivity.
Qed.

(** ** Who is refused *)

(** X1.  An update or a delete is answered 403 exactly when the lookup
    completes, finds a notice, and the actor is neither its author nor an
    admin; the author and every admin are never refused on these grounds. *)
Theorem forbidden_exactly_for_strangers
        (env : Env) (user : Actor.t) (id : ObjectId) (b : Body.t) (w : World) :
  (status (fst (updateNotice env user id b w)) = 403
   <-> notice_findById (faults env) = None
       /\ exists n, find_notice id (notices w) = Some n /\ ~ may_mutate user n)
  /\ (status (fst (deleteNotice env user id w)) = 403
      <-> notice_findById (faults env) = None
          /\ exists n, find_notice id (notices w) = Some n /\ ~ may_mutate user n).
Proof.
  destruct (notice_findById (faults env)) as [msg|] eqn:Hlookup.
  - rewrite (updateNotice_lookup_fails env user id b w msg Hlookup).
    rewrite (deleteNotice_lookup_fails env user id w msg Hlookup).
    simpl. split; (split; [discriminate | intros [? _]; discriminate]).
  - destruct (find_notice id (notices w)) as [n|] eqn:Hfound.
    + destruct (not_owner n user) eqn:Hown.
      * rewrite updateNotice_lookup, deleteNotice_lookup by assumption.
        rewrite Hfound, Hown. simpl.
        assert (Hno : ~ may_mutate user n).
        { intros H. apply not_owner_false in H. congruence. }
        split; (split; [intros _; split; [reflexivity | now exists n]
                       | reflexivity]).
      * assert (Hyes : may_mutate user n) by now apply not_owner_false.
        split.
        -- split.
           ++ destruct (updateNotice_effect env user id b w)
                as [Hsame | (n' & _ & _ & _ & _ & Hrun)].
              ** destruct (accepted_update_dec env b) as [Ha|Hr].
                 --- rewrite (updateNotice_accepted env user id b w n)
                       by assumption. discriminate.
                 --- destruct (updateNotice_refused env user id b w n)
                       as [msg ->]; auto. discriminate.
              ** rewrite Hrun. discriminate.
           ++ intros [_ (n' & E & Hno)]. congruence.
        -- split.
           ++ rewrite deleteNotice_lookup by assumption.
              rewrite Hfound, Hown.
              unfold handler, bind, Notice_remove, reject_if.
              destruct (notice_remove (faults env)); discriminate.
           ++ intros [_ (n' & E & Hno)]. congruence.
    + rewrite updateNotice_lookup, deleteNotice_lookup by assumption.
      rewrite Hfound. simpl.
      split; (split; [discriminate | intros [_ (n & E & _)]; discriminate]).
Qed.

(** ** Round trips *)

Lemma find_notice_without (id : ObjectId) (ns : list Notice.t) :
  find_notice id (without id ns) = None.
Proof.
  apply find_notice_none. intros n Hin.
  apply filter_In in Hin. destruct Hin as [_ H].
  apply negb_true_iff, N.eqb_neq in H. exact H.
Qed.

Lemma In_without (id : ObjectId) (ns : list Notice.t) (m : Notice.t) :
  In m (without id ns) <-> In m ns /\ Notice._id m <> id.
Proof.
  unfold without. rewrite filter_In, negb_true_iff, N.eqb_neq. tauto.
Qed.

Lemma find_notice_replaced (id : ObjectId) (n n' : Notice.t) (ns : list Notice.t) :
  find_notice id ns = Some n ->
  Notice._id n' = id ->
  find_notice id (replace_notice n' ns) = Some n'.
Proof.
  unfold find_notice, replace_notice. intros Hfound Hid. subst id.
  induction ns as [|m ms IH]; simpl in *; [discriminate|].
  destruct (N.eqb_spec (Notice._id m) (Notice._id n')) as [E|E]; simpl.
  - now rewrite N.eqb_refl.
  - destruct (N.eqb_spec (Notice._id m) (Notice._id n')); [contradiction|].
    now apply IH.
Qed.

Lemma find_notice_elsewhere (id : ObjectId) (n' : Notice.t) (ns : list Notice.t) :
  id <> Notice._id n' ->
  find_notice id (replace_notice n' ns) = find_notice id ns.
Proof.
  unfold find_notice, replace_notice. intros Hne.
  induction ns as [|m ms IH]; simpl; [reflexivity|].
  destruct (N.eqb_spec (Notice._id m) (Notice._id n')) as [E|E]; simpl.
  - destruct (N.eqb_spec (Notice._id n') id) as [E'|_]; [congruence|].
    destruct (N.eqb_spec (Notice._id m) id) as [E'|_]; [congruence|].
    exact IH.
  - now rewrite IH.
Qed.

Lemma getNotice_found (env : Env) (id : ObjectId) (w : World) (n : Notice.t) :
  notice_findById (faults env) = None ->
  find_notice id (notices w) = Some n ->
  getNotice env id w = (respond 200 (PopulatedData (populate (users w) n)), w).
Proof.
  intros Hlookup Hfound.
  unfold getNotice, handler, bind, Notice_findById, reject_if.
  rewrite Hlookup. unfold get_world, ret. simpl. now rewrite Hfound.
Qed.

Lemma getNotice_missing (env : Env) (id : ObjectId) (w : World) :
  notice_findById (faults env) = None ->
  find_notice id (notices w) = None ->
  getNotice env id w = (respond 404 (Failure "Notice not found"), w).
Proof.
  intros Hlookup Hfound.
  unfold getNotice, handler, bind, Notice_findById, reject_if.
  rewrite Hlookup. unfold get_world, ret. simpl. now rewrite Hfound.
Qed.

(** X2.  A delete by the author or an admin, with the store working, answers
    200 with an empty payload; the notice is gone (a later lookup of its
    identifier answers 404), every other notice is still there, and the
    notifications that were sent for it are not touched. *)
Theorem delete_removes_the_notice_only
        (env : Env) (user : Actor.t) (id : ObjectId) (w : World) (n : Notice.t) :
  notice_findById (faults env) = None ->
  find_notice id (notices w) = Some n ->
  may_mutate user n ->
  notice_remove (faults env) = None ->
  let w' := snd (deleteNotice env user id w) in
  fst (deleteNotice env user id w) = respond 200 Empty
  /\ find_notice id (notices w') = None
  /\ fst (getNotice env id w') = respond 404 (Failure "Notice not found")
  /\ (forall m, In m (notices w') <-> In m (notices w) /\ Notice._id m <> id)
  /\ notifications w' = notifications w
  /\ users w' = users w.
Proof.
  intros Hlookup Hfound Hmay Hremove.
  apply not_owner_false in Hmay.
  destruct (deleteNotice_effect env user id w)
    as [Hsame | (n' & _ & _ & _ & _ & Hrun)].
  - exfalso. revert Hsame.
    rewrite deleteNotice_lookup by assumption. rewrite Hfound, Hmay.
    unfold handler, bind, Notice_remove, reject_if. rewrite Hremove. simpl.
    intros E. apply (f_equal notices) in E. simpl in E.
    apply find_notice_some in Hfound. destruct Hfound as [Hin Hid].
    assert (H : In n (notices w)) by assumption.
    rewrite <- E in H. apply filter_In in H. destruct H as [_ H].
    now rewrite N.eqb_refl in H.
  - rewrite Hrun. simpl.
    split; [reflexivity|].
    split; [apply find_notice_without|].
    split; [|split; [apply In_without | split; reflexivity]].
    rewrite getNotice_missing; [reflexivity | assumption |].
    apply find_notice_without.
Qed.

Lemma delete_removes_the_notice_only_witness :
  let w' := snd (deleteNotice Sample.calm Sample.dana 10%N Sample.school) in
  fst (deleteNotice Sample.calm Sample.dana 10%N Sample.school) = respond 200 Empty
  /\ find_notice 10%N (notices w') = None
  /\ fst (getNotice Sample.calm 10%N w') = respond 404 (Failure "Notice not found")
  /\ (forall m, In m (notices w')
                <-> In m (notices Sample.school) /\ Notice._id m <> 10%N)
  /\ notifications w' = notifications Sample.school
  /\ users w' = users Sample.school.
Proof.
  apply (delete_removes_the_notice_only Sample.calm Sample.dana 10%N
                                        Sample.school Sample.draft).
  - reflexivity.
  - reflexivity.
  - left. reflexivity.
  - reflexivity.
Defined.

Lemma length_replace_notice (n' : Notice.t) (ns : list Notice.t) :
  List.length (replace_notice n' ns) = List.length ns.
Proof. unfold replace_notice. apply length_map. Qed.

(** X3.  After an accepted update a lookup of the identifier returns the
    updated notice, the very document the update answered with.  The update
    keeps the identifier, the author, the creation time and the view count,
    stamps [updatedAt] with the time of the request, leaves the number of
    notices as it was and does not touch a notice of another identifier. *)
Theorem update_then_get
        (env : Env) (user : Actor.t) (id : ObjectId) (b : Body.t)
        (w : World) (n : Notice.t) :
  notice_findById (faults env) = None ->
  find_notice id (notices w) = Some n ->
  may_mutate user n ->
  accepted_update env b ->
  let n' := updated env b n in
  let w' := snd (updateNotice env user id b w) in
  fst (updateNotice env user id b w) = respond 200 (NoticeData (Some n'))
  /\ find_notice id (notices w') = Some n'
  /\ fst (getNotice env id w') = respond 200 (PopulatedData (populate (users w) n'))
  /\ Notice._id n' = id
  /\ Notice.author n' = Notice.author n
  /\ Notice.createdAt n' = Notice.createdAt n
  /\ Notice.views n' = Notice.views n
  /\ Notice.updatedAt n' = Some (now env)
  /\ List.length (notices w') = List.length (notices w)
  /\ (forall other, other <> id ->
                    find_notice other (notices w') = find_notice other (notices w)).
Proof.
  intros Hlookup Hfound Hmay Haccepted n' w'.
  apply not_owner_false in Hmay.
  assert (Hid : Notice._id n' = id)
    by (apply find_notice_some in Hfound; tauto).
  assert (Hnotices : notices w' = replace_notice n' (notices w)).
  { unfold w'. rewrite (updateNotice_accepted env user id b w n) by assumption.
    apply notices_after_update. }
  assert (Husers : users w' = users w).
  { unfold w'. rewrite (updateNotice_accepted env user id b w n) by assumption.
    simpl. unfold after_update.
    now destruct (Js.truthy (Body.isPublished b) && negb (Notice.published n)). }
  assert (Hthere : find_notice id (notices w') = Some n').
  { rewrite Hnotices. now apply (find_notice_replaced id n). }
  split.
  { now rewrite (updateNotice_accepted env user id b w n) by assumption. }
  split; [exact Hthere|].
  split.
  { rewrite (getNotice_found env id w' n') by assumption. simpl.
    now rewrite Husers. }
  split; [exact Hid|].
  do 4 (split; [reflexivity|]).
  split; [rewrite Hnotices; apply length_replace_notice|].
  intros other Hother. rewrite Hnotices. apply find_notice_elsewhere.
  congruence.
Qed.

Lemma update_then_get_witness :
  let n' := updated Sample.calm Sample.publish Sample.draft in
  let w' := snd (updateNotice Sample.calm Sample.dana 10%N Sample.publish
                              Sample.school) in
  fst (updateNotice Sample.calm Sample.dana 10%N Sample.publish Sample.school)
  = respond 200 (NoticeData (Some n'))
  /\ find_notice 10%N (notices w') = Some n'
  /\ fst (getNotice Sample.calm 10%N w')
     = respond 200 (PopulatedData (populate (users Sample.school) n'))
  /\ Notice._id n' = 10%N
  /\ Notice.author n' = Notice.author Sample.draft
  /\ Notice.createdAt n' = Notice.createdAt Sample.draft
  /\ Notice.views n' = Notice.views Sample.draft
  /\ Notice.updatedAt n' = Some (now Sample.calm)
  /\ List.length (notices w') = List.length (notices Sample.school)
  /\ (forall other, other <> 10%N ->
                    find_notice other (notices w')
                    = find_notice other (notices Sample.school)).
Proof.
  apply (update_then_get Sample.calm Sample.dana 10%N Sample.publish
                         Sample.school Sample.draft).
  - reflexivity.
  - reflexivity.
  - left. reflexivity.
  - split; [discriminate | split; reflexivity].
Defined.

Lemma find_notice_appended (ns : list Notice.t) (n : Notice.t) :
  Forall (fun m => Notice._id m <> Notice._id n) ns ->
  find_notice (Notice._id n) (ns ++ [n]) = Some n.
Proof.
  unfold find_notice. induction ns as [|m ms IH]; simpl; intros Hfresh.
  - now rewrite N.eqb_refl.
  - inversion Hfresh as [|? ? Hm Hms]; subst.
    destruct (N.eqb_spec (Notice._id m) (Notice._id n)); [contradiction|].
    now apply IH.
Qed.

Lemma without_appended (ns : list Notice.t) (n : Notice.t) :
  Forall (fun m => Notice._id m <> Notice._id n) ns ->
  without (Notice._id n) (ns ++ [n]) = ns.
Proof.
  unfold without. induction ns as [|m ms IH]; simpl; intros Hfresh.
  - now rewrite N.eqb_refl.
  - inversion Hfresh as [|? ? Hm Hms]; subst.
    destruct (N.eqb_spec (Notice._id m) (Notice._id n)); [contradiction|].
    simpl. f_equal. now apply IH.
Qed.

Lemma fresh_next_id (w : World) :
  well_formed w ->
  Forall (fun m => Notice._id m <> next_id w) (notices w).
Proof.
  intros [_ Hbelow]. eapply Forall_impl; [|exact Hbelow].
  simpl. intros m Hm. lia.
Qed.

Lemma deleteNotice_done (env : Env) (user : Actor.t) (id : ObjectId)
      (w : World) (n : Notice.t) :
  notice_findById (faults env) = None ->
  find_notice id (notices w) = Some n ->
  may_mutate user n ->
  notice_remove (faults env) = None ->
  deleteNotice env user id w
  = (respond 200 Empty, set_notices (without id (notices w)) w).
Proof.
  intros Hlookup Hfound Hmay Hremove. apply not_owner_false in Hmay.
  rewrite deleteNotice_lookup by assumption. rewrite Hfound, Hmay.
  unfold handler, bind, Notice_remove, reject_if. rewrite Hremove.
  apply find_notice_some in Hfound. destruct Hfound as [_ <-]. reflexivity.
Qed.

(** X4.  In a well-formed store, a valid creation stores the notice under
    the next identifier, with the actor as author and the trimmed title; a
    lookup of that identifier returns it, and a delete by the same actor
    removes it again and leaves the notices as they were before the
    creation. *)
Theorem create_then_get_then_delete
        (env : Env) (user : Actor.t) (b : Body.t) (w : World) :
  well_formed w ->
  valid_creation b ->
  notice_create (faults env) = None ->
  notice_findById (faults env) = None ->
  let n := created env user b w in
  let w' := snd (createNotice env user b w) in
  Notice._id n = next_id w
  /\ Notice.author n = Actor._id user
  /\ Some (Notice.title n) = option_map Js.trim (Body.title b)
  /\ find_notice (next_id w) (notices w') = Some n
  /\ fst (getNotice env (next_id w) w')
     = respond 200 (PopulatedData (Populated.mk n None))
  /\ (notice_remove (faults env) = None ->
      fst (deleteNotice env user (next_id w) w') = respond 200 Empty
      /\ notices (snd (deleteNotice env user (next_id w) w')) = notices w).
Proof.
  intros Hwf Hvalid Hcreate Hlookup n w'.
  pose proof (fresh_next_id w Hwf) as Hfresh.
  assert (Hnotices : notices w' = notices w ++ [n]).
  { unfold w'. rewrite createNotice_valid by assumption.
    apply notices_after_create. }
  assert (Hthere : find_notice (next_id w) (notices w') = Some n).
  { rewrite Hnotices. now apply (find_notice_appended (notices w) n). }
  split; [reflexivity|]. split; [reflexivity|].
  split.
  { destruct Hvalid as [_ Hv]. unfold NoticeSchema.validate in Hv.
    apply app_eq_nil in Hv. destruct Hv as [Ht _].
    unfold n, created, new_notice, NoticeSchema.set_title in *. simpl.
    destruct (Body.title b); [reflexivity | discriminate]. }
  split; [exact Hthere|].
  split.
  { now rewrite (getNotice_found env (next_id w) w' n) by assumption. }
  intros Hremove.
  rewrite (deleteNotice_done env user (next_id w) w' n); try assumption.
  - simpl. split; [reflexivity|].
    rewrite Hnotices. now apply (without_appended (notices w) n).
  - now left.
Qed.

Lemma create_then_get_then_delete_witness :
  let n := created Sample.calm Sample.dana Sample.post Sample.school in
  let w' := snd (createNotice Sample.calm Sample.dana Sample.post Sample.school) in
  Notice._id n = next_id Sample.school
  /\ Notice.author n = Actor._id Sample.dana
  /\ Some (Notice.title n) = option_map Js.trim (Body.title Sample.post)
  /\ find_notice (next_id Sample.school) (notices w') = Some n
  /\ fst (getNotice Sample.calm (next_id Sample.school) w')
     = respond 200 (PopulatedData (Populated.mk n None))
  /\ (notice_remove (faults Sample.calm) = None ->
      fst (deleteNotice Sample.calm Sample.dana (next_id Sample.school) w')
      = respond 200 Empty
      /\ notices (snd (deleteNotice Sample.calm Sample.dana
                                    (next_id Sample.school) w'))
         = notices Sample.school).
Proof.
  apply (create_then_get_then_delete Sample.calm Sample.dana Sample.post
                                     Sample.school).
  - split.
    + simpl. repeat constructor; simpl; intuition discriminate.
    + simpl. repeat constructor.
  - split; reflexivity.
  - reflexivity.
  - reflexivity.
Defined.

(** ** Invariants of the store *)

(** What a request can do to the world: nothing, append the created
    notice, replace a notice by its update, or remove the notices of an
    identifier. *)
Lemma serve_effect (env : Env) (r : Request) (w : World) :
  snd (serve env r w) = w
  \/ (exists user b,
         r = PostNotice user b /\ valid_creation b
         /\ snd (serve env r w) = after_create env user b w)
  \/ (exists user id b n,
         r = PutNotice user id b /\ find_notice id (notices w) = Some n
         /\ accepted_update env b
         /\ snd (serve env r w) = after_update env b n w)
  \/ (exists user id n,
         r = DeleteNotice user id /\ find_notice id (notices w) = Some n
         /\ snd (serve env r w) = set_notices (without id (notices w)) w).
Proof.
  destruct r as [user b | q | id | user id b | user id | user]; simpl.
  - destruct (createNotice_effect env user b w) as [H | (Hv & _ & Hrun)].
    + now left.
    + right; left. exists user, b. rewrite Hrun.
      split; [reflexivity | split; [assumption | reflexivity]].
  - left. apply getNotices_reads.
  - left. apply getNotice_reads.
  - destruct (updateNotice_effect env user id b w)
      as [H | (n & _ & Hfound & _ & Ha & Hrun)].
    + now left.
    + right; right; left. exists user, id, b, n. rewrite Hrun.
      split; [reflexivity|]. split; [assumption|]. now split.
  - destruct (deleteNotice_effect env user id w)
      as [H | (n & _ & Hfound & _ & _ & Hrun)].
    + now left.
    + right; right; right. exists user, id, n. rewrite Hrun.
      split; [reflexivity | split; [assumption | reflexivity]].
  - left. apply getNoticeStats_reads.
Qed.

Lemma ids_after_replace (n' : Notice.t) (ns : list Notice.t) :
  map Notice._id (replace_notice n' ns) = map Notice._id ns.
Proof.
  unfold replace_notice. rewrite map_map. apply map_ext.
  intros m. destruct (N.eqb_spec (Notice._id m) (Notice._id n')); congruence.
Qed.

Lemma notices_after_update_ids (env : Env) (b : Body.t) (n : Notice.t) (w : World) :
  map Notice._id (notices (after_update env b n w)) = map Notice._id (notices w)
  /\ next_id (after_update env b n w) = next_id w.
Proof.
  rewrite notices_after_update, ids_after_replace. split; [reflexivity|].
  unfold after_update.
  now destruct (Js.truthy (Body.isPublished b) && negb (Notice.published n)).
Qed.

Lemma next_id_after_create (env : Env) (user : Actor.t) (b : Body.t) (w : World) :
  next_id (after_create env user b w) = N.succ (next_id w).
Proof.
  unfold after_create. now destruct (Js.truthy (Body.scheduledFor b)).
Qed.

Lemma serve_keeps_users_and_notifications (env : Env) (r : Request) (w : World) :
  users (snd (serve env r w)) = users w
  /\ exists added,
      notifications (snd (serve env r w)) = notifications w ++ added.
Proof.
  destruct (serve_effect env r w)
    as [-> | [(user & b & _ & _ & ->)
             | [(user & id & b & n & _ & _ & _ & ->)
               | (user & id & n & _ & _ & ->)]]].
  - split; [reflexivity|]. exists []. now rewrite app_nil_r.
  - unfold after_create. destruct (Js.truthy (Body.scheduledFor b)); simpl.
    + split; [reflexivity|]. exists []. now rewrite app_nil_r.
    + split; [reflexivity|]. eexists. reflexivity.
  - unfold after_update.
    destruct (Js.truthy (Body.isPublished b) && negb (Notice.published n)); simpl.
    + split; [reflexivity|]. eexists. reflexivity.
    + split; [reflexivity|]. exists []. now rewrite app_nil_r.
  - simpl. split; [reflexivity|]. exists []. now rewrite app_nil_r.
Qed.

(** X6.  No sequence of requests changes the users, and none removes or
    rewrites a notification: the notifications after a history are those
    before it followed by the new ones.  In particular a delete of a notice
    leaves the notifications sent for it in place. *)
Theorem notifications_are_append_only (history : list (Env * Request)) (w : World) :
  users (run history w) = users w
  /\ exists added, notifications (run history w) = notifications w ++ added.
Proof.
  revert w. induction history as [|[env r] rest IH]; simpl; intros w.
  - split; [reflexivity|]. exists []. now rewrite app_nil_r.
  - destruct (serve_keeps_users_and_notifications env r w)
      as [Hu [added1 Hn1]].
    destruct (IH (snd (serve env r w))) as [Hu' [added2 Hn2]].
    split; [congruence|].
    exists (added1 ++ added2). now rewrite Hn2, Hn1, app_assoc.
Qed.

(** X7.  The three reading handlers never change the world, whatever the
    query and whatever the store does: not the notices, not the
    notifications, not the log of fan-outs. *)
Theorem reads_change_nothing
        (env : Env) (q : Params.t) (id : ObjectId) (user : Actor.t) (w : World) :
  snd (getNotices env q w) = w
  /\ snd (getNotice env id w) = w
  /\ snd (getNoticeStats env user w) = w.
Proof.
  split; [apply getNotices_reads|].
  split; [apply getNotice_reads | apply getNoticeStats_reads].
Qed.

(** ** Stored notices satisfy the schema *)

Lemma trim_start_head (s : string) : head_not_space (Js.trim_start s).
Proof.
  induction s as [|c r IH]; simpl; [exact I|].
  destruct (Js.is_space c) eqn:E; [exact IH | exact E].
Qed.

Lemma trim_start_fixed (s : string) :
  head_not_space s -> Js.trim_start s = s.
Proof.
  destruct s as [|c r]; simpl; [reflexivity|]. now intros ->.
Qed.

Lemma trim_end_head (s : string) :
  head_not_space s -> head_not_space (Js.trim_end s).
Proof.
  destruct s as [|c r]; simpl; [trivial|]. intros Hc.
  destruct (Js.trim_end r); [now rewrite Hc | exact Hc].
Qed.

Lemma trim_end_idempotent (s : string) :
  Js.trim_end (Js.trim_end s) = Js.trim_end s.
Proof.
  induction s as [|c r IH]; simpl; [reflexivity|].
  destruct (Js.trim_end r) as [|d r'] eqn:E.
  - destruct (Js.is_space c) eqn:Hc; simpl; [reflexivity | now rewrite Hc].
  - change (Js.trim_end (String c (String d r')) = String c (String d r')).
    simpl. simpl in IH. now rewrite IH.
Qed.

(** [trim] is idempotent: a stored title is in trimmed form. *)
Lemma trim_idempotent (s : string) : Js.trim (Js.trim s) = Js.trim s.
Proof.
  unfold Js.trim.
  rewrite (trim_start_fixed (Js.trim_end (Js.trim_start s))).
  - apply trim_end_idempotent.
  - apply trim_end_head, trim_start_head.
Qed.

Lemma check_title_ok (s : string) :
  NoticeSchema.check_title (Some s) = [] ->
  s <> EmptyString /\ (String.length s <= 100)%nat.
Proof.
  unfold NoticeSchema.check_title.
  destruct (String.eqb_spec s EmptyString); [discriminate|].
  destruct (Z.ltb_spec 100 (Z.of_nat (String.length s))); [discriminate|].
  intros _. split; [assumption | lia].
Qed.

Lemma check_content_ok (s : string) :
  NoticeSchema.check_content (Some s) = [] ->
  s <> EmptyString /\ (String.length s <= 1000)%nat.
Proof.
  unfold NoticeSchema.check_content.
  destruct (String.eqb_spec s EmptyString); [discriminate|].
  destruct (Z.ltb_spec 1000 (Z.of_nat (String.length s))); [discriminate|].
  intros _. split; [assumption | lia].
Qed.

Lemma check_category_ok (s : string) :
  NoticeSchema.check_category (Some s) = [] -> In s NoticeSchema.categories.
Proof.
  unfold NoticeSchema.check_category.
  destruct (String.eqb s EmptyString); [discriminate|].
  destruct (existsb (String.eqb s) NoticeSchema.categories) eqn:E;
    [|discriminate].
  intros _. now apply includes_In.
Qed.

Lemma created_conforms (env : Env) (user : Actor.t) (b : Body.t) (w : World) :
  valid_creation b -> conforms (created env user b w).
Proof.
  intros [_ Hv]. unfold NoticeSchema.validate in Hv.
  apply app_eq_nil in Hv. destruct Hv as [Ht Hv].
  apply app_eq_nil in Hv. destruct Hv as [Hc Hk].
  unfold conforms, created, new_notice, NoticeSchema.set_title in *. simpl.
  destruct (Body.title b) as [t|]; [|discriminate].
  destruct (Body.content b) as [c|]; [|discriminate].
  destruct (Body.category b) as [k|]; [|discriminate].
  simpl in *.
  apply check_title_ok in Ht. apply check_content_ok in Hc.
  apply check_category_ok in Hk.
  repeat split; try tauto. apply trim_idempotent.
Qed.

Lemma updated_conforms (env : Env) (b : Body.t) (n : Notice.t) :
  accepted_update env b -> conforms n -> conforms (updated env b n).
Proof.
  intros (_ & Hv & _) (Ht1 & Ht2 & Ht3 & Hc1 & Hc2 & Hk).
  unfold NoticeSchema.validate_update in Hv.
  apply app_eq_nil in Hv. destruct Hv as [Ht Hv].
  apply app_eq_nil in Hv. destruct Hv as [Hc Hcat].
  unfold conforms, updated, apply_update, NoticeSchema.set_title in *. simpl.
  destruct (Body.title b) as [t|]; destruct (Body.content b) as [c|];
    destruct (Body.category b) as [k|]; simpl in *.
  all: try apply check_title_ok in Ht.
  all: try apply check_content_ok in Hc.
  all: try apply check_category_ok in Hcat.
  all: repeat split; try tauto; try apply trim_idempotent.
Qed.

Lemma serve_conforms (env : Env) (r : Request) (w : World) :
  Forall conforms (notices w) -> Forall conforms (notices (snd (serve env r w))).
Proof.
  intros Hall.
  destruct (serve_effect env r w)
    as [-> | [(user & b & _ & Hv & ->)
             | [(user & id & b & n & _ & Hfound & Ha & ->)
               | (user & id & n & _ & _ & ->)]]].
  - exact Hall.
  - rewrite notices_after_create. apply Forall_app. split; [assumption|].
    constructor; [now apply created_conforms | constructor].
  - rewrite notices_after_update. unfold replace_notice.
    apply Forall_forall. intros m Hm. apply in_map_iff in Hm.
    destruct Hm as (k & <- & Hk).
    destruct (N.eqb (Notice._id k) (Notice._id (updated env b n))).
    + apply updated_conforms; [assumption|].
      apply find_notice_some in Hfound.
      rewrite Forall_forall in Hall. now apply Hall.
    + rewrite Forall_forall in Hall. now apply Hall.
  - simpl. apply Forall_forall. intros m Hm. apply In_without in Hm.
    rewrite Forall_forall in Hall. now apply Hall.
Qed.

(** X8.  Every notice that the handlers store or rewrite satisfies the
    schema: its title is not empty, at most 100 characters long and without
    blanks at either end, its content is not empty and at most 1000
    characters long, and its category is one of the five of the enumeration.
    A collection of such notices stays one under every sequence of requests. *)
Theorem stored_notices_conform (history : list (Env * Request)) (w : World) :
  Forall conforms (notices w) -> Forall conforms (notices (run history w)).
Proof.
  revert w. induction history as [|[env r] rest IH]; simpl; intros w Hall.
  - exact Hall.
  - apply IH. now apply serve_conforms.
Qed.

Lemma stored_notices_conform_witness :
  Forall conforms
         (notices
            (run [(Sample.calm, PostNotice Sample.dana Sample.padded_post);
                  (Sample.calm, PutNotice Sample.dana 0%N Sample.publish);
                  (Sample.calm, PostNotice Sample.eli Sample.long_title_post)]
                 (mkWorld [] Sample.people [] 0%N []))).
Proof.
  apply stored_notices_conform. constructor.
Defined.

(** ** More on the fan-out *)

Lemma length_filter_firstn {A} (p : A -> bool) (k : nat) (xs : list A) :
  (List.length (filter p (firstn k xs)) <= List.length (filter p xs))%nat.
Proof.
  revert k. induction xs as [|x xs IH]; intros [|k]; simpl; try lia.
  specialize (IH k). destruct (p x); simpl; lia.
Qed.

Lemma In_firstn {A} (k : nat) (xs : list A) (x : A) :
  In x (firstn k xs) -> In x xs.
Proof.
  intros H. rewrite <- (firstn_skipn k xs). apply in_or_app. now left.
Qed.

Lemma written_by_fanout_sub (env : Env) (n : Notice.t) (w : World) :
  exists k,
    written_by_fanout env n w
    = firstn k (map (notification_for n)
                    (filter (user_matches (recipient_query n)) (users w))).
Proof.
  unfold written_by_fanout.
  destruct (user_find (faults env)); [now exists 0%nat|].
  destruct (notification_insert (faults env)) as [[k msg]|].
  - now exists k.
  - eexists. symmetry. apply firstn_all.
Qed.

(** X9.  Whatever fails inside the fan-out, what it has written is sound:
    every notification it appended announces the notice to a student whom
    the target audience admits, and no user has received more than one. *)
Theorem fanout_reaches_only_recipients (env : Env) (n : Notice.t) (w : World) :
  NoDup (map User._id (users w)) ->
  exists added,
    notifications (snd (createNotifications env (Some n) w))
    = notifications w ++ added
    /\ (forall m, In m added ->
                  announces n m
                  /\ exists u, In u (users w) /\ recipient_of n u
                               /\ Notification.recipient m = User._id u)
    /\ (forall u, In u (users w) ->
                  (List.length (addressed_to u added) <= 1)%nat).
Proof.
  intros Hnd. exists (written_by_fanout env n w).
  rewrite createNotifications_some. simpl.
  split; [reflexivity|].
  destruct (written_by_fanout_sub env n w) as [k ->].
  split.
  - intros m Hm. apply In_firstn, in_map_iff in Hm.
    destruct Hm as (u & <- & Hu). apply filter_In in Hu.
    destruct Hu as [Hu Hp]. split; [repeat split|].
    exists u. split; [assumption|]. split; [|reflexivity].
    now apply user_matches_recipient.
  - intros u Hu. unfold addressed_to.
    etransitivity; [apply length_filter_firstn|].
    fold (addressed_to u (map (notification_for n)
                              (filter (user_matches (recipient_query n))
                                      (users w)))).
    rewrite addressed_to_selected by assumption.
    destruct (user_matches (recipient_query n) u); simpl; lia.
Qed.

Lemma fanout_reaches_only_recipients_witness :
  let added := [notification_for Sample.draft
                                 (User.mk 1%N "Asha" "student" "CSE" "1")] in
  notifications (snd (createNotifications Sample.insert_breaks
                                          (Some Sample.draft) Sample.school))
  = notifications Sample.school ++ added
  /\ (forall m, In m added ->
                announces Sample.draft m
                /\ exists u, In u (users Sample.school)
                             /\ recipient_of Sample.draft u
                             /\ Notification.recipient m = User._id u)
  /\ (forall u, In u (users Sample.school) ->
                (List.length (addressed_to u added) <= 1)%nat).
Proof.
  destruct (fanout_reaches_only_recipients Sample.insert_breaks Sample.draft
                                           Sample.school)
    as (added & Hwritten & Hsound & Honce).
  - simpl. repeat constructor; simpl; intuition discriminate.
  - assert (E : added = [notification_for Sample.draft
                           (User.mk 1%N "Asha" "student" "CSE" "1")]).
    { vm_compute in Hwritten. symmetry. exact Hwritten. }
    rewrite E in Hsound, Honce.
    split; [reflexivity|]. split; assumption.
Defined.

Lemma filter_nothing {A} (p : A -> bool) (xs : list A) :
  (forall x, In x xs -> p x = false) -> filter p xs = [].
Proof.
  induction xs as [|x xs IH]; simpl; intros H; [reflexivity|].
  rewrite (H x) by now left. apply IH. intros y Hy. apply H. now right.
Qed.

(** X10.  Two edges of the target audience.  A target set that is an empty
    array admits nobody: the fan-out of such a notice writes no notification
    at all.  A notice without target audience, or whose target sets are
    absent or contain "All", reaches every student, whatever the student's
    branch and year. *)
Theorem audience_edges (env : Env) (n : Notice.t) (w : World) :
  (target_branches n = Some [] \/ target_years n = Some [] ->
   notifications (snd (createNotifications env (Some n) w)) = notifications w)
  /\ ((target_branches n = None
       \/ exists bs, target_branches n = Some bs /\ In "All"%string bs) ->
      (target_years n = None
       \/ exists ys, target_years n = Some ys /\ In "All"%string ys) ->
      user_find (faults env) = None ->
      notification_insert (faults env) = None ->
      notifications (snd (createNotifications env (Some n) w))
      = notifications w
        ++ map (notification_for n)
               (filter (fun u => String.eqb (User.role u) "student") (users w))).
Proof.
  rewrite createNotifications_some. simpl. split.
  - intros Hempty.
    destruct (written_by_fanout_sub env n w) as [k ->].
    rewrite filter_nothing; [destruct k; simpl; apply app_nil_r|].
    intros u _.
    destruct (user_matches (recipient_query n) u) eqn:E; [|reflexivity].
    apply user_matches_recipient in E. destruct E as (_ & Hb & Hy).
    destruct Hempty as [H | H]; [rewrite H in Hb | rewrite H in Hy];
      simpl in *; tauto.
  - intros Hb Hy Hfind Hins. unfold written_by_fanout.
    rewrite Hfind, Hins. do 2 f_equal.
    apply filter_ext. intros u.
    apply eq_true_iff_eq. rewrite user_matches_recipient, String.eqb_eq.
    unfold recipient_of, admits.
    destruct Hb as [-> | (bs & -> & Hbs)]; destruct Hy as [-> | (ys & -> & Hys)];
      tauto.
Qed.

Lemma audience_edges_witness :
  notifications (snd (createNotifications Sample.calm (Some Sample.for_nobody)
                                          Sample.school))
  = notifications Sample.school
  /\ notifications (snd (createNotifications Sample.calm (Some Sample.welcome)
                                             Sample.school))
     = notifications Sample.school
       ++ map (notification_for Sample.welcome)
              (filter (fun u => String.eqb (User.role u) "student")
                      (users Sample.school)).
Proof.
  split.
  - apply (proj1 (audience_edges Sample.calm Sample.for_nobody Sample.school)).
    left. reflexivity.
  - apply (proj2 (audience_edges Sample.calm Sample.welcome Sample.school));
      [left | left | | ]; reflexivity.
Defined.

(** ** Operations in sequence *)

(** X11.  A valid creation without [scheduledFor], with the store working
    and users of distinct identities, leaves exactly one new notification
    for each student admitted by the target audience of the created notice
    and none for anybody else. *)
Theorem immediate_creation_notifies_each_recipient_once
        (env : Env) (user : Actor.t) (b : Body.t) (w : World) :
  valid_creation b ->
  Js.truthy (Body.scheduledFor b) = false ->
  notice_create (faults env) = None ->
  user_find (faults env) = None ->
  notification_insert (faults env) = None ->
  NoDup (map User._id (users w)) ->
  let n := created env user b w in
  exists added,
    notifications (snd (createNotice env user b w)) = notifications w ++ added
    /\ (forall u, In u (users w) -> recipient_of n u ->
                  addressed_to u added = [notification_for n u])
    /\ (forall u, In u (users w) -> ~ recipient_of n u ->
                  addressed_to u added = []).
Proof.
  intros Hvalid Hnow Hcreate Hfind Hins Hnd n.
  exists (map (notification_for n)
              (filter (user_matches (recipient_query n)) (users w))).
  rewrite createNotice_valid by assumption. simpl.
  unfold after_create. rewrite Hnow. simpl.
  unfold written_by_fanout. rewrite Hfind, Hins. fold n.
  split; [reflexivity|]. split.
  - intros u Hu Hr. rewrite addressed_to_selected by assumption.
    apply user_matches_recipient in Hr. now rewrite Hr.
  - intros u Hu Hr. rewrite addressed_to_selected by assumption.
    destruct (user_matches (recipient_query n) u) eqn:E; [|reflexivity].
    apply user_matches_recipient in E. contradiction.
Qed.

Lemma immediate_creation_notifies_each_recipient_once_witness :
  let n := created Sample.calm Sample.dana Sample.post Sample.school in
  exists added,
    notifications (snd (createNotice Sample.calm Sample.dana Sample.post
                                     Sample.school))
    = notifications Sample.school ++ added
    /\ (forall u, In u (users Sample.school) -> recipient_of n u ->
                  addressed_to u added = [notification_for n u])
    /\ (forall u, In u (users Sample.school) -> ~ recipient_of n u ->
                  addressed_to u added = []).
Proof.
  apply (immediate_creation_notifies_each_recipient_once
           Sample.calm Sample.dana Sample.post Sample.school).
  - split; reflexivity.
  - reflexivity.
  - reflexivity.
  - reflexivity.
  - reflexivity.
  - simpl. repeat constructor; simpl; intuition discriminate.
Defined.

(** X12.  Publishing twice notifies once.  When an accepted update with
    [isPublished: true] is followed by a second accepted update of the same
    notice, whatever its payload, the second calls no fan-out; over the two
    updates the fan-out is called once if the notice was unpublished at the
    start and not at all if it was already published. *)
Theorem republishing_does_not_notify_again
        (env1 env2 : Env) (user1 user2 : Actor.t) (id : ObjectId)
        (b1 b2 : Body.t) (w : World) (n : Notice.t) :
  notice_findById (faults env1) = None ->
  notice_findById (faults env2) = None ->
  find_notice id (notices w) = Some n ->
  may_mutate user1 n ->
  may_mutate user2 n ->
  Body.isPublished b1 = Js.Bool true ->
  accepted_update env1 b1 ->
  accepted_update env2 b2 ->
  let w1 := snd (updateNotice env1 user1 id b1 w) in
  let w2 := snd (updateNotice env2 user2 id b2 w1) in
  fanout_calls w1 w2 = 0
  /\ fanout_calls w w2 = (if Notice.published n then 0 else 1).
Proof.
  intros Hl1 Hl2 Hfound Hm1 Hm2 Hpub Ha1 Ha2 w1 w2.
  assert (Hw1 : w1 = after_update env1 b1 n w).
  { unfold w1. rewrite (updateNotice_accepted env1 user1 id b1 w n); auto.
    now apply not_owner_false. }
  assert (Hid : Notice._id (updated env1 b1 n) = id)
    by (apply find_notice_some in Hfound; tauto).
  assert (Hfound1 : find_notice id (notices w1) = Some (updated env1 b1 n)).
  { rewrite Hw1, notices_after_update. now apply (find_notice_replaced id n). }
  assert (Hlive : Notice.published (updated env1 b1 n) = true).
  { unfold updated, apply_update, cast_flag, Notice.published. simpl.
    now rewrite Hpub. }
  assert (Hw2 : fanouts w2 = fanouts w1).
  { unfold w2.
    rewrite (updateNotice_accepted env2 user2 id b2 w1 (updated env1 b1 n));
      auto; [|apply not_owner_false; exact Hm2].
    simpl. unfold after_update. rewrite Hlive.
    now rewrite andb_false_r. }
  split; [now apply fanout_calls_none|].
  unfold fanout_calls. rewrite Hw2, Hw1. unfold after_update.
  rewrite Hpub. simpl.
  destruct (Notice.published n); simpl; [lia|].
  rewrite length_app. simpl. lia.
Qed.

Lemma republishing_does_not_notify_again_witness :
  let w1 := snd (updateNotice Sample.calm Sample.dana 10%N Sample.publish
                              Sample.school) in
  let w2 := snd (updateNotice Sample.lookup_down Sample.dana 10%N Sample.publish
                              w1) in
  fanout_calls w1 w2 = 0
  /\ fanout_calls Sample.school w2
     = (if Notice.published Sample.draft then 0 else 1).
Proof.
  apply (republishing_does_not_notify_again
           Sample.calm Sample.lookup_down Sample.dana Sample.dana 10%N
           Sample.publish Sample.publish Sample.school Sample.draft).
  - reflexivity.
  - reflexivity.
  - reflexivity.
  - left. reflexivity.
  - left. reflexivity.
  - reflexivity.
  - split; [discriminate | split; reflexivity].
  - split; [discriminate | split; reflexivity].
Defined.

(** ** Paging through a listing *)

Lemma getNotices_listed (env : Env) (q : Params.t) (w : World)
      (found : list Notice.t) (p l : Z) :
  notice_find (faults env) = None ->
  notice_count (faults env) = None ->
  matching env (build_filter q) (notices w) = Some found ->
  Js.parseInt_param 1 (Params.page q) = Some p ->
  Js.parseInt_param 10 (Params.limit q) = Some l ->
  1 <= p -> 1 <= l ->
  listed (fst (getNotices env q w))
  = map (populate (users w)) (page_slice p l (sort_desc found)).
Proof.
  intros. rewrite (getNotices_page env q w found p l) by assumption.
  reflexivity.
Qed.

Lemma firstn_plus {A} (a b : nat) (xs : list A) :
  firstn (a + b) xs = firstn a xs ++ firstn b (skipn a xs).
Proof.
  revert xs. induction a as [|a IH]; intros xs; simpl; [reflexivity|].
  destruct xs as [|x xs]; simpl.
  - now rewrite firstn_nil.
  - now rewrite IH.
Qed.

(** The first [k] pages, one after the other, are the first [k * l]
    records. *)
Lemma pages_concat {A} (l : Z) (k : nat) (xs : list A) :
  1 <= l ->
  flat_map (fun i => page_slice (Z.of_nat i) l xs) (seq 1 k)
  = firstn (k * Z.to_nat l) xs.
Proof.
  intros Hl. induction k as [|k IH]; [reflexivity|].
  rewrite seq_S, flat_map_app, IH. cbn [flat_map].
  rewrite app_nil_r. unfold page_slice.
  replace (Z.to_nat ((Z.of_nat (1 + k) - 1) * l)) with (k * Z.to_nat l)%nat
    by nia.
  replace (S k * Z.to_nat l)%nat with (k * Z.to_nat l + Z.to_nat l)%nat by lia.
  now rewrite firstn_plus.
Qed.

Lemma flat_map_agree {A B} (f g : A -> list B) (xs : list A) :
  (forall x, In x xs -> f x = g x) -> flat_map f xs = flat_map g xs.
Proof.
  induction xs as [|x xs IH]; simpl; intros H; [reflexivity|].
  rewrite (H x) by now left. f_equal. apply IH.
  intros y Hy. apply H. now right.
Qed.

(** X14.  A page never holds more records than the page size, and a page
    that starts at or after the end of the listing is answered with status
    200, count 0 and no record, the total being reported all the same. *)
Theorem page_is_bounded_and_may_be_empty
        (env : Env) (q : Params.t) (w : World) (found : list Notice.t) (p l : Z) :
  notice_find (faults env) = None ->
  notice_count (faults env) = None ->
  matching env (build_filter q) (notices w) = Some found ->
  Js.parseInt_param 1 (Params.page q) = Some p ->
  Js.parseInt_param 10 (Params.limit q) = Some l ->
  1 <= p -> 1 <= l ->
  Z.of_nat (List.length (listed (fst (getNotices env q w)))) <= l
  /\ (Z.of_nat (List.length found) <= (p - 1) * l ->
      fst (getNotices env q w)
      = respond 200
          (Page 0 (Z.of_nat (List.length found))
                (total_pages (Z.of_nat (List.length found)) (Some l))
                (Some p) [])).
Proof.
  intros Hfind Hcount Hfound Hp Hl Hp1 Hl1.
  assert (Hlen : List.length (page_slice p l (sort_desc found))
                 = Nat.min (Z.to_nat l)
                           (List.length found - Z.to_nat ((p - 1) * l))).
  { unfold page_slice, sort_desc. rewrite length_page.
    now rewrite (Permutation_length (sort_by_perm newer_first found)). }
  split.
  - rewrite (getNotices_listed env q w found p l) by assumption.
    rewrite length_map, Hlen. lia.
  - intros Hover.
    rewrite (getNotices_page env q w found p l) by assumption.
    assert (Hnil : page_slice p l (sort_desc found) = []).
    { apply length_zero_iff_nil. rewrite Hlen.
      assert (0 <= (p - 1) * l) by nia. lia. }
    cbv zeta. rewrite Hnil. reflexivity.
Qed.

Lemma page_is_bounded_and_may_be_empty_witness :
  Z.of_nat (List.length (listed (fst (getNotices Sample.calm Sample.third_page
                                                 Sample.school)))) <= 10
  /\ (Z.of_nat (List.length (notices Sample.school)) <= (3 - 1) * 10 ->
      fst (getNotices Sample.calm Sample.third_page Sample.school)
      = respond 200
          (Page 0 (Z.of_nat (List.length (notices Sample.school)))
                (total_pages (Z.of_nat (List.length (notices Sample.school)))
                             (Some 10))
                (Some 3) [])).
Proof.
  apply (page_is_bounded_and_may_be_empty
           Sample.calm Sample.third_page Sample.school (notices Sample.school)
           3 10); try reflexivity; lia.
Defined.

(** ** Filters *)

Lemma drop_empty_idempotent (p : option string) :
  (if Js.truthy_str (drop_empty p) then drop_empty p else None) = drop_empty p.
Proof.
  unfold drop_empty. destruct (Js.truthy_str p) eqn:E; [now rewrite E|].
  reflexivity.
Qed.

Lemma build_filter_normalised (q : Params.t) :
  build_filter (normalised q) = build_filter q.
Proof.
  unfold build_filter, normalised. simpl.
  rewrite !drop_empty_idempotent. unfold drop_empty.
  destruct (Params.search q) as [s|]; simpl; [|reflexivity].
  destruct (String.eqb s EmptyString) eqn:E; simpl; [reflexivity|].
  now rewrite E.
Qed.

(** X15.  A filter given with an empty value counts as not given: a list
    request with an empty category, branch or search value is answered
    exactly as the request without them. *)
Theorem empty_filters_are_ignored (env : Env) (q : Params.t) (w : World) :
  getNotices env (normalised q) w = getNotices env q w.
Proof.
  unfold getNotices. now rewrite build_filter_normalised.
Qed.

(** A list response depends on the query only through its page, its page
    size and the set of matching notices. *)
Lemma getNotices_same_matching (env : Env) (q1 q2 : Params.t) (w : World) :
  Params.page q1 = Params.page q2 ->
  Params.limit q1 = Params.limit q2 ->
  matching env (build_filter q1) (notices w)
  = matching env (build_filter q2) (notices w) ->
  getNotices env q1 w = getNotices env q2 w.
Proof.
  intros Hp Hl Hm.
  unfold getNotices, handler, Notice_find, Notice_countDocuments, reject_if.
  rewrite Hp, Hl.
  destruct (notice_find (faults env)); [reflexivity|].
  unfold bind, get_world. rewrite Hm.
  destruct (matching env (build_filter q2) (notices w)) as [found|] eqn:E;
    [|reflexivity].
  destruct (times _ _) as [s|]; [|reflexivity].
  destruct (Js.parseInt_param 10 (Params.limit q2)) as [l|]; [|reflexivity].
  destruct (s <? 0); [reflexivity|].
  unfold ret.
  destruct (notice_count (faults env)); [reflexivity|].
  cbv beta iota. rewrite Hm, E. reflexivity.
Qed.

Lemma lower_str_empty (s : string) :
  Regex.lower_str s = EmptyString -> s = EmptyString.
Proof. destruct s; [reflexivity | discriminate]. Qed.

Lemma search_literals_same_case (s1 s2 t : string) :
  Regex.lower_str s1 = Regex.lower_str s2 ->
  Regex.search (literals s1) t = Regex.search (literals s2) t.
Proof.
  intros E. apply eq_true_iff_eq. rewrite !search_literals.
  unfold ci_substring. now rewrite E.
Qed.

(** X16.  The search ignores letter case in the term as well as in the
    text: two terms without metacharacters that differ only in the case of
    their letters get the same answer to the same list request. *)
Theorem search_ignores_case_of_term
        (env : Env) (q : Params.t) (w : World) (s1 s2 : string) :
  Regex.literal s1 = true ->
  Regex.literal s2 = true ->
  Regex.lower_str s1 = Regex.lower_str s2 ->
  getNotices env (with_search q s1) w = getNotices env (with_search q s2) w.
Proof.
  intros Hl1 Hl2 Hsame.
  apply getNotices_same_matching; [reflexivity | reflexivity |].
  destruct (String.eqb_spec s1 EmptyString) as [E1|N1].
  - subst s1. symmetry in Hsame. apply lower_str_empty in Hsame. now subst s2.
  - assert (N2 : s2 <> EmptyString).
    { intros E2. subst s2. apply lower_str_empty in Hsame. contradiction. }
    rewrite (matching_literal_search env (with_search q s1) (notices w) s1);
      [|reflexivity | assumption | assumption].
    rewrite (matching_literal_search env (with_search q s2) (notices w) s2);
      [|reflexivity | assumption | assumption].
    f_equal. apply filter_ext. intros n.
    unfold matches. simpl.
    now rewrite !(search_literals_same_case s1 s2).
Qed.

Lemma search_ignores_case_of_term_witness :
  getNotices Sample.calm (with_search (Sample.search_for "x") "EXAM") Sample.school
  = getNotices Sample.calm (with_search (Sample.search_for "x") "exam") Sample.school.
Proof.
  apply (search_ignores_case_of_term Sample.calm (Sample.search_for "x")
                                     Sample.school "EXAM" "exam");
    reflexivity.
Defined.

(** ** Statistics *)

Section Grouping.

Context {K : Type}.
Variable eqb : K -> K -> bool.
Hypothesis eqb_eq : forall a b, eqb a b = true <-> a = b.
Variable key : Notice.t -> K.
Variable field : Notice.t -> Z.

Lemma eqb_same (a : K) : eqb a a = true.
Proof. now apply eqb_eq. Qed.

Lemma row_of_bump (k k' : K) (v : Z) (rows : list (K * Z * Z)) :
  row_of eqb k' (bump eqb k v rows)
  = if eqb k k'
    then Some (match row_of eqb k rows with
               | Some (c, s) => (c + 1, s + v)
               | None => (1, v)
               end)
    else row_of eqb k' rows.
Proof.
  induction rows as [|[[k0 c] s] rest IH]; simpl.
  - reflexivity.
  - destruct (eqb k0 k) eqn:E0; simpl.
    + apply eqb_eq in E0. subst k0.
      destruct (eqb k k'); reflexivity.
    + destruct (eqb k0 k') eqn:E1.
      * apply eqb_eq in E1. subst k0.
        destruct (eqb k k') eqn:E2; [|reflexivity].
        apply eqb_eq in E2. subst k'. rewrite eqb_same in E0. discriminate.
      * exact IH.
Qed.

Lemma keys_of_bump (k : K) (v : Z) (rows : list (K * Z * Z)) :
  NoDup (map key_of rows) -> NoDup (map key_of (bump eqb k v rows))
  /\ forall k', In k' (map key_of (bump eqb k v rows))
                <-> k' = k \/ In k' (map key_of rows).
Proof.
  induction rows as [|[[k0 c] s] rest IH]; simpl; intros Hnd.
  - split; [repeat constructor; intros [] | intros k'; intuition].
  - inversion Hnd as [|? ? Hnotin Hnd']; subst.
    destruct (eqb k0 k) eqn:E0; simpl.
    + apply eqb_eq in E0. subst k0. split; [assumption|].
      intros k'. unfold key_of at 1. simpl. intuition.
    + destruct (IH Hnd') as [IHnd IHin]. split.
      * constructor; [|assumption]. rewrite IHin.
        intros [E | Hin]; [|contradiction].
        unfold key_of in E. simpl in E. subst k0.
        rewrite eqb_same in E0. discriminate.
      * intros k'. rewrite IHin. unfold key_of at 1 3. simpl. intuition.
Qed.

Lemma row_of_fold (k : K) (ns : list Notice.t) (rows : list (K * Z * Z)) :
  row_of eqb k (fold_left (fun g n => bump eqb (key n) (field n) g) ns rows)
  = match row_of eqb k rows, keyed eqb key k ns with
    | None, [] => None
    | None, hits => Some (Z.of_nat (List.length hits), total_of field hits)
    | Some (c, s), hits =>
        Some (c + Z.of_nat (List.length hits), s + total_of field hits)
    end.
Proof.
  revert rows. induction ns as [|n ns IH]; intros rows.
  - cbn [fold_left keyed filter List.length]. unfold total_of.
    cbn [map fold_right].
    destruct (row_of eqb k rows) as [[c s]|]; [|reflexivity].
    apply f_equal, pair_equal_spec. split; lia.
  - cbn [fold_left]. rewrite IH, row_of_bump. unfold keyed. cbn [filter].
    destruct (eqb (key n) k) eqn:E; [|reflexivity].
    apply eqb_eq in E. subst k.
    destruct (row_of eqb (key n) rows) as [[c s]|];
      destruct (filter _ ns) as [|h hits];
      unfold total_of; cbn [map fold_right List.length];
      rewrite ?Nat2Z.inj_succ;
      apply f_equal, pair_equal_spec; split; lia.
Qed.

Lemma keys_of_fold (ns : list Notice.t) (rows : list (K * Z * Z)) :
  NoDup (map key_of rows) ->
  NoDup (map key_of
             (fold_left (fun g n => bump eqb (key n) (field n) g) ns rows)).
Proof.
  revert rows. induction ns as [|n ns IH]; intros rows Hnd; simpl.
  - exact Hnd.
  - apply IH. now apply keys_of_bump.
Qed.

Lemma row_of_In (k : K) (c s : Z) (rows : list (K * Z * Z)) :
  NoDup (map key_of rows) ->
  (In (k, c, s) rows <-> row_of eqb k rows = Some (c, s)).
Proof.
  induction rows as [|[[k0 c0] s0] rest IH]; simpl; intros Hnd.
  - split; [contradiction | discriminate].
  - inversion Hnd as [|? ? Hnotin Hnd']; subst.
    destruct (eqb k0 k) eqn:E.
    + apply eqb_eq in E. subst k0. split.
      * intros [H | H]; [congruence|].
        exfalso. apply Hnotin. apply in_map_iff. now exists (k, c, s).
      * intros H. left. congruence.
    + rewrite <- (IH Hnd'). split; [|tauto].
      intros [H | H]; [|assumption].
      injection H as -> _ _. rewrite eqb_same in E. discriminate.
Qed.

(** The rows of a [$group] stage: one row for each key that occurs, with
    the number of documents of that key and the sum of the field over
    them. *)
Lemma group_by_rows (ns : list Notice.t) :
  NoDup (map key_of (group_by eqb key field ns))
  /\ forall k c s,
      In (k, c, s) (group_by eqb key field ns)
      <-> keyed eqb key k ns <> []
          /\ c = Z.of_nat (List.length (keyed eqb key k ns))
          /\ s = total_of field (keyed eqb key k ns).
Proof.
  assert (Hnd : NoDup (map key_of (group_by eqb key field ns)))
    by (apply keys_of_fold; constructor).
  split; [exact Hnd|].
  intros k c s. rewrite (row_of_In k c s _ Hnd).
  unfold group_by. rewrite row_of_fold. simpl.
  destruct (keyed eqb key k ns) as [|h hits]; simpl.
  - split; [discriminate | tauto].
  - split.
    + intros H. injection H as <- <-. repeat split. discriminate.
    + intros (_ & -> & ->). reflexivity.
Qed.

End Grouping.

Lemma insert_by_sorted {A} (le : A -> A -> bool) (x : A) (xs : list A) :
  (forall a b, le a b = true \/ le b a = true) ->
  (forall a b c, le a b = true -> le b c = true -> le a c = true) ->
  StronglySorted (fun a b => le a b = true) xs ->
  StronglySorted (fun a b => le a b = true) (insert_by le x xs).
Proof.
  intros Htotal Htrans. induction xs as [|y ys IH]; simpl; intros Hs.
  - repeat constructor.
  - inversion Hs as [|? ? Hys Hall]; subst.
    destruct (le x y) eqn:E.
    + constructor; [assumption|]. constructor; [exact E|].
      eapply Forall_impl; [|exact Hall]. intros z Hz. now apply (Htrans x y z).
    + constructor; [now apply IH|].
      eapply Permutation_Forall; [symmetry; apply insert_by_perm|].
      constructor; [|assumption].
      destruct (Htotal x y) as [H | H]; [congruence | exact H].
Qed.

Lemma sort_by_sorted {A} (le : A -> A -> bool) (xs : list A) :
  (forall a b, le a b = true \/ le b a = true) ->
  (forall a b c, le a b = true -> le b c = true -> le a c = true) ->
  StronglySorted (fun a b => le a b = true) (sort_by le xs).
Proof.
  intros Htotal Htrans. induction xs as [|x xs IH]; simpl; [constructor|].
  now apply insert_by_sorted.
Qed.

Lemma StronglySorted_weaken {A} (R R' : A -> A -> Prop) (xs : list A) :
  (forall a b, In a xs -> In b xs -> R a b -> R' a b) ->
  StronglySorted R xs -> StronglySorted R' xs.
Proof.
  induction xs as [|x xs IH]; intros Himp Hs; [constructor|].
  inversion Hs as [|? ? Hxs Hall]; subst. constructor.
  - apply IH; [|assumption]. intros a b Ha Hb. apply Himp; now right.
  - rewrite Forall_forall in *. intros y Hy.
    apply Himp; [now left | now right | now apply Hall].
Qed.



Lemma getNoticeStats_calm (env : Env) (user : Actor.t) (w : World) :
  (forall k, notice_aggregate (faults env) k = None) ->
  getNoticeStats env user w
  = (respond 200 (Stats (category_pipeline user (notices w))
                        (priority_pipeline user (notices w))
                        (monthly_pipeline user (notices w))),
     w).
Proof.
  intros Hcalm.
  unfold getNoticeStats, handler, bind, Notice_aggregate, reject_if.
  now rewrite !Hcalm.
Qed.

(** X17.  The category statistics of a user have one row for each category
    in which the user has written a notice, and no other row; the row gives
    the number of those notices and the sum of their views; the rows come
    in the order of decreasing counts. *)
Theorem category_stats_count_own_notices (env : Env) (user : Actor.t) (w : World) :
  (forall k, notice_aggregate (faults env) k = None) ->
  exists cs ps ms,
    getNoticeStats env user w = (respond 200 (Stats cs ps ms), w)
    /\ (forall c count views,
           In (c, count, views) cs
           <-> in_category user c (notices w) <> []
               /\ count = Z.of_nat (List.length (in_category user c (notices w)))
               /\ views = total_of Notice.views (in_category user c (notices w)))
    /\ NoDup (map (fun row => fst (fst row)) cs)
    /\ StronglySorted (fun a b => snd (fst b) <= snd (fst a)) cs.
Proof.
  intros Hcalm. do 3 eexists.
  split; [now apply getNoticeStats_calm|].
  destruct (group_by_rows String.eqb String.eqb_eq Notice.category Notice.views
                          (authored_by user (notices w))) as [Hnd Hrows].
  pose proof (sort_by_perm (fun a b : string * Z * Z => snd (fst b) <=? snd (fst a))
                           (group_by String.eqb Notice.category Notice.views
                                     (authored_by user (notices w)))) as Hperm.
  split; [|split].
  - intros c count views. unfold in_category. rewrite <- Hrows.
    unfold category_pipeline. split; apply Permutation_in;
      [exact Hperm | symmetry; exact Hperm].
  - eapply Permutation_NoDup; [|exact Hnd].
    apply Permutation_map. symmetry. exact Hperm.
  - eapply StronglySorted_weaken;
      [|apply (sort_by_sorted
                 (fun a b : string * Z * Z => snd (fst b) <=? snd (fst a)))].
    + intros a b _ _ H. now apply Z.leb_le.
    + intros a b. rewrite !Z.leb_le. lia.
    + intros a b c. rewrite !Z.leb_le. lia.
Qed.

Lemma category_stats_count_own_notices_witness :
  exists cs ps ms,
    getNoticeStats Sample.calm Sample.dana Sample.school
    = (respond 200 (Stats cs ps ms), Sample.school)
    /\ (forall c count views,
           In (c, count, views) cs
           <-> in_category Sample.dana c (notices Sample.school) <> []
               /\ count = Z.of_nat (List.length
                                      (in_category Sample.dana c
                                                   (notices Sample.school)))
               /\ views = total_of Notice.views
                                   (in_category Sample.dana c
                                                (notices Sample.school)))
    /\ NoDup (map (fun row => fst (fst row)) cs)
    /\ StronglySorted (fun a b => snd (fst b) <= snd (fst a)) cs.
Proof.
  apply (category_stats_count_own_notices Sample.calm Sample.dana Sample.school).
  reflexivity.
Defined.

Lemma sorted_strictly {A B} (f : A -> B) (R R' : A -> A -> Prop) (xs : list A) :
  (forall a b, R a b -> f a <> f b -> R' a b) ->
  NoDup (map f xs) ->
  StronglySorted R xs -> StronglySorted R' xs.
Proof.
  intros Himp. induction xs as [|x xs IH]; simpl; intros Hnd Hs; [constructor|].
  inversion Hnd as [|? ? Hnotin Hnd']; subst.
  inversion Hs as [|? ? Hxs Hall]; subst.
  constructor; [now apply IH|].
  rewrite Forall_forall in *. intros y Hy.
  apply Himp; [now apply Hall|].
  intros E. apply Hnotin. rewrite E. now apply in_map.
Qed.


(** X13.  Paging loses and repeats nothing.  When the matching notices
    have pairwise distinct creation times (so that newest first is one
    order and no other), requests for the pages 1, 2, ..., k of one query
    with one page size, k pages being enough for all matching notices,
    return, one after the other, every matching notice exactly once, each
    strictly newer than all that follow it. *)
Theorem pages_cover_the_listing
        (env : Env) (w : World) (found : list Notice.t) (l : Z) (k : nat)
        (request : nat -> Params.t) :
  notice_find (faults env) = None ->
  notice_count (faults env) = None ->
  NoDup (map Notice.createdAt found) ->
  1 <= l ->
  Z.of_nat (List.length found) <= Z.of_nat k * l ->
  (forall i, (1 <= i <= k)%nat ->
             matching env (build_filter (request i)) (notices w) = Some found
             /\ Js.parseInt_param 1 (Params.page (request i)) = Some (Z.of_nat i)
             /\ Js.parseInt_param 10 (Params.limit (request i)) = Some l) ->
  exists listing,
    Permutation listing found
    /\ StronglySorted (fun a b => Notice.createdAt b < Notice.createdAt a) listing
    /\ flat_map (fun i => listed (fst (getNotices env (request i) w))) (seq 1 k)
       = map (populate (users w)) listing.
Proof.
  intros Hfind Hcount Hdistinct Hl Henough Hreq.
  exists (sort_desc found).
  assert (Hperm : Permutation (sort_desc found) found)
    by apply sort_by_perm.
  split; [exact Hperm|]. split.
  - apply (sorted_strictly Notice.createdAt
                           (fun a b => newer_first a b = true)).
    + unfold newer_first. intros a b Hle Hne. apply Z.leb_le in Hle. lia.
    + eapply Permutation_NoDup; [|exact Hdistinct].
      symmetry. now apply Permutation_map.
    + apply sort_by_sorted; unfold newer_first; intros; rewrite ?Z.leb_le in *; lia.
  - transitivity
      (flat_map (fun i => map (populate (users w))
                              (page_slice (Z.of_nat i) l (sort_desc found)))
                (seq 1 k)).
    + apply flat_map_agree. intros i Hi. apply in_seq in Hi.
      destruct (Hreq i) as (Hm & Hp & Hlim); [lia|].
      apply (getNotices_listed env (request i) w found (Z.of_nat i) l);
        try assumption. lia.
    + transitivity
        (map (populate (users w))
             (flat_map (fun i => page_slice (Z.of_nat i) l (sort_desc found))
                       (seq 1 k))).
      * generalize (seq 1 k). intros pages.
        induction pages as [|i pages IH]; simpl; [reflexivity|].
        now rewrite map_app, IH.
      * rewrite (pages_concat l k (sort_desc found) Hl).
        rewrite firstn_all2; [reflexivity|].
        rewrite (Permutation_length Hperm). nia.
Qed.

Lemma pages_cover_the_listing_witness :
  exists listing,
    Permutation listing (notices Sample.archive)
    /\ StronglySorted (fun a b => Notice.createdAt b < Notice.createdAt a) listing
    /\ flat_map (fun i => listed (fst (getNotices Sample.calm (Sample.page_request i)
                                                  Sample.archive)))
                (seq 1 3)
       = map (populate (users Sample.archive)) listing.
Proof.
  apply (pages_cover_the_listing Sample.calm Sample.archive
                                 (notices Sample.archive) 10 3
                                 Sample.page_request).
  - reflexivity.
  - reflexivity.
  - simpl. repeat constructor; simpl; intuition discriminate.
  - lia.
  - simpl. lia.
  - intros i Hi.
    destruct i as [|[|[|[|i]]]]; [lia | | | | lia]; repeat split.
Defined.



(** ** More on validation *)

Lemma check_content_long (s : string) :
  (1000 < String.length s)%nat -> NoticeSchema.check_content (Some s) <> [].
Proof.
  intros Hlong. unfold NoticeSchema.check_content.
  destruct (String.eqb s EmptyString); [discriminate|].
  destruct (Z.ltb_spec 1000 (Z.of_nat (String.length s))); [discriminate | lia].
Qed.

Lemma validate_update_violation (b : Body.t) :
  update_violates b ->
  NoticeSchema.validate_update (Body.title b) (Body.content b) (Body.category b)
  <> [].
Proof.
  intros Hv. unfold NoticeSchema.validate_update. apply app_not_nil.
  destruct Hv as [(t & -> & Ht) | [(c & -> & Hc) | (k & -> & Hk)]].
  - left. simpl. destruct Ht as [-> | Ht]; [discriminate|].
    now apply check_title_long.
  - right; left. simpl. destruct Hc as [-> | Hc]; [discriminate|].
    now apply check_content_long.
  - right; right. simpl. now apply check_category_unlisted.
Qed.

(** X19.  An update by the author or an admin whose payload supplies a
    title that is empty or longer than 100 characters once trimmed, a
    content that is empty or longer than 1000 characters, or a category
    outside the enumeration, is answered with status 400 and changes
    nothing.  The required fields are required only if supplied: an update
    that supplies none of the three passes the validators. *)
Theorem update_validates_supplied_fields
        (env : Env) (user : Actor.t) (id : ObjectId) (b : Body.t)
        (w : World) (n : Notice.t) :
  notice_findById (faults env) = None ->
  find_notice id (notices w) = Some n ->
  may_mutate user n ->
  (update_violates b ->
   exists msg, updateNotice env user id b w = (respond 400 (Failure msg), w))
  /\ (Body.title b = None -> Body.content b = None -> Body.category b = None ->
      NoticeSchema.castBoolean (Body.isPublished b) <> None ->
      notice_update (faults env) = None ->
      fst (updateNotice env user id b w)
      = respond 200 (NoticeData (Some (updated env b n)))).
Proof.
  intros Hlookup Hfound Hmay. apply not_owner_false in Hmay. split.
  - intros Hv. apply (updateNotice_refused env user id b w n); try assumption.
    intros (_ & Hvalid & _). now apply (validate_update_violation b).
  - intros Ht Hc Hk Hcast Hwrite.
    rewrite (updateNotice_accepted env user id b w n); try assumption;
      [reflexivity|].
    split; [assumption|]. split; [|assumption].
    now rewrite Ht, Hc, Hk.
Qed.

Lemma update_validates_supplied_fields_witness :
  (exists msg,
      updateNotice Sample.calm Sample.dana 10%N Sample.recategorise Sample.school
      = (respond 400 (Failure msg), Sample.school))
  /\ fst (updateNotice Sample.calm Sample.dana 10%N Sample.publish Sample.school)
     = respond 200 (NoticeData (Some (updated Sample.calm Sample.publish
                                              Sample.draft))).
Proof.
  split.
  - apply (proj1 (update_validates_supplied_fields
                    Sample.calm Sample.dana 10%N Sample.recategorise
                    Sample.school Sample.draft eq_refl eq_refl
                    (or_introl eq_refl))).
    right; right. exists "Sports"%string. split; [reflexivity|].
    simpl. intuition discriminate.
  - apply (proj2 (update_validates_supplied_fields
                    Sample.calm Sample.dana 10%N Sample.publish
                    Sample.school Sample.draft eq_refl eq_refl
                    (or_introl eq_refl)));
      try reflexivity. discriminate.
Defined.

(** X20.  A creation payload whose content is longer than 1000 characters
    is answered with status 400, and nothing is stored. *)
Theorem create_refuses_long_content
        (env : Env) (user : Actor.t) (b : Body.t) (w : World) (c : string) :
  Body.content b = Some c ->
  (1000 < String.length c)%nat ->
  exists msg, createNotice env user b w = (respond 400 (Failure msg), w).
Proof.
  intros Hc Hlong. apply createNotice_invalid.
  unfold NoticeSchema.validate. apply app_not_nil.
  right; left. rewrite Hc. now apply check_content_long.
Qed.

Lemma create_refuses_long_content_witness :
  exists msg,
    createNotice Sample.calm Sample.dana Sample.long_content_post Sample.school
    = (respond 400 (Failure msg), Sample.school).
Proof.
  apply (create_refuses_long_content Sample.calm Sample.dana
                                     Sample.long_content_post Sample.school
                                     (Sample.replicate 1001 "x")).
  - reflexivity.
  - vm_compute. repeat constructor.
Defined.

(** X21.  The guard on the target audience speaks first.  A creation
    payload whose branch selector is truthy and not an array is answered
    400 "Branches must be an array", and one whose branch selector passes
    but whose year selector is truthy and not an array 400 "Years must be
    an array", whatever the rest of the payload and whatever the state of
    the store; nothing is validated, stored or notified. *)
Theorem selector_guard_answers_first
        (env : Env) (user : Actor.t) (b : Body.t) (w : World) (ta : AudienceIn.t) :
  Body.targetAudience b = Some ta ->
  (refused_selector (AudienceIn.branches ta) ->
   createNotice env user b w
   = (respond 400 (Failure "Branches must be an array"), w))
  /\ (~ refused_selector (AudienceIn.branches ta) ->
      refused_selector (AudienceIn.years ta) ->
      createNotice env user b w
      = (respond 400 (Failure "Years must be an array"), w)).
Proof.
  intros Hta. unfold refused_selector. split.
  - intros [Ht Ha]. apply createNotice_guarded. rewrite Hta.
    unfold audience_guard, bad_selector. now rewrite Ht, Ha.
  - intros Hb [Ht Ha]. apply createNotice_guarded. rewrite Hta.
    unfold audience_guard, bad_selector. rewrite Ht, Ha. simpl.
    destruct (Js.truthy (AudienceIn.branches ta)) eqn:Et;
      destruct (Js.isArray (AudienceIn.branches ta)) eqn:Ea; simpl;
      try reflexivity.
    exfalso. apply Hb. now split.
Qed.

Lemma selector_guard_answers_first_witness :
  createNotice Sample.notices_down Sample.dana Sample.bad_selectors_post
               Sample.school
  = (respond 400 (Failure "Branches must be an array"), Sample.school)
  /\ createNotice Sample.notices_down Sample.dana Sample.bad_years_post
                  Sample.school
     = (respond 400 (Failure "Years must be an array"), Sample.school).
Proof.
  split.
  - apply (proj1 (selector_guard_answers_first
                    Sample.notices_down Sample.dana Sample.bad_selectors_post
                    Sample.school (AudienceIn.mk (Js.Str "CSE") (Js.Num 2))
                    eq_refl)).
    split; reflexivity.
  - apply (proj2 (selector_guard_answers_first
                    Sample.notices_down Sample.dana Sample.bad_years_post
                    Sample.school (AudienceIn.mk (Js.Arr ["CSE"%string])
                                                 (Js.Str "1"))
                    eq_refl)).
    + intros [_ H]. discriminate.
    + split; reflexivity.
Defined.

(** X22.  A lookup of one notice answers 200 exactly when the store answers
    and holds a notice of the identifier, 404 exactly when the store answers
    and holds none, and 500 exactly when the store rejects the lookup; with
    200 comes the notice, its teacher replaced by the teacher's name. *)
Theorem get_answers (env : Env) (id : ObjectId) (w : World) :
  (status (fst (getNotice env id w)) = 200
   <-> notice_findById (faults env) = None
       /\ find_notice id (notices w) <> None)
  /\ (status (fst (getNotice env id w)) = 404
      <-> notice_findById (faults env) = None
          /\ find_notice id (notices w) = None)
  /\ (status (fst (getNotice env id w)) = 500
      <-> notice_findById (faults env) <> None)
  /\ (forall n,
         notice_findById (faults env) = None ->
         find_notice id (notices w) = Some n ->
         payload (fst (getNotice env id w))
         = PopulatedData (populate (users w) n)).
Proof.
  destruct (notice_findById (faults env)) as [msg|] eqn:Hlookup.
  - assert (Hrun : getNotice env id w = (respond 500 (Failure msg), w)).
    { unfold getNotice, handler, bind, Notice_findById, reject_if.
      now rewrite Hlookup. }
    rewrite Hrun. simpl.
    repeat split; try discriminate; try (intros [? _]; discriminate).
  - destruct (find_notice id (notices w)) as [n|] eqn:Hfound.
    + rewrite (getNotice_found env id w n Hlookup Hfound). simpl.
      repeat split; try discriminate; try congruence;
        try (intros [_ ?]; discriminate); try tauto.
    + rewrite (getNotice_missing env id w Hlookup Hfound). simpl.
      repeat split; try discriminate; try congruence;
        try (intros [_ ?]; congruence); try tauto.
Qed.

Lemma get_answers_witness :
  payload (fst (getNotice Sample.calm 11%N Sample.school))
  = PopulatedData (populate (users Sample.school) Sample.welcome)
  /\ Populated.teacher_name (populate (users Sample.school) Sample.welcome)
     = Some "Eli"%string.
Proof.
  split; [|reflexivity].
  apply (proj2 (proj2 (proj2 (get_answers Sample.calm 11%N Sample.school))));
    reflexivity.
Defined.

(** ** What no request can change *)

Lemma find_notice_app (id : ObjectId) (xs ys : list Notice.t) :
  find_notice id (xs ++ ys)
  = match find_notice id xs with
    | Some n => Some n
    | None => find_notice id ys
    end.
Proof.
  unfold find_notice. induction xs as [|x xs IH]; simpl; [reflexivity|].
  now destruct (N.eqb (Notice._id x) id).
Qed.

Lemma find_notice_without_other (id other : ObjectId) (ns : list Notice.t) :
  id <> other ->
  find_notice id (without other ns) = find_notice id ns.
Proof.
  unfold find_notice, without. intros Hne.
  induction ns as [|m ms IH]; simpl; [reflexivity|].
  destruct (N.eqb_spec (Notice._id m) other) as [E|E]; simpl.
  - destruct (N.eqb_spec (Notice._id m) id); [congruence | exact IH].
  - now rewrite IH.
Qed.

Lemma serve_next_id (env : Env) (r : Request) (w : World) :
  (next_id w <= next_id (snd (serve env r w)))%N.
Proof.
  destruct (serve_effect env r w)
    as [-> | [(user & b & _ & _ & ->)
             | [(user & id & b & n & _ & _ & _ & ->)
               | (user & id & n & _ & _ & ->)]]].
  - lia.
  - rewrite next_id_after_create. lia.
  - destruct (notices_after_update_ids env b n w) as [_ ->]. lia.
  - simpl. lia.
Qed.

(** One request neither brings back a notice under an identifier already
    handed out, nor changes the author or the creation time of one. *)
Lemma serve_keeps_origin (env : Env) (r : Request) (w : World)
      (id : ObjectId) (n' : Notice.t) :
  (id < next_id w)%N ->
  find_notice id (notices (snd (serve env r w))) = Some n' ->
  exists n,
    find_notice id (notices w) = Some n
    /\ Notice.author n' = Notice.author n
    /\ Notice.createdAt n' = Notice.createdAt n.
Proof.
  intros Hold.
  destruct (serve_effect env r w)
    as [-> | [(user & b & _ & _ & ->)
             | [(user & id0 & b & n0 & _ & Hfound & _ & ->)
               | (user & id0 & n0 & _ & _ & ->)]]].
  - intros H. now exists n'.
  - rewrite notices_after_create, find_notice_app.
    destruct (find_notice id (notices w)) as [n|] eqn:E.
    + intros H. injection H as <-. now exists n.
    + unfold find_notice. simpl.
      destruct (N.eqb_spec (next_id w) id); [lia | discriminate].
  - rewrite notices_after_update.
    assert (Hid0 : Notice._id (updated env b n0) = id0)
      by (apply find_notice_some in Hfound; tauto).
    destruct (N.eq_dec id id0) as [-> | Hne].
    + rewrite (find_notice_replaced id0 n0) by assumption.
      intros H. injection H as <-. now exists n0.
    + rewrite find_notice_elsewhere by congruence.
      intros H. now exists n'.
  - simpl. destruct (N.eq_dec id id0) as [-> | Hne].
    + now rewrite find_notice_without.
    + rewrite find_notice_without_other by assumption.
      intros H. now exists n'.
Qed.

(** X23.  Ownership is permanent.  After any sequence of requests, a notice
    found under an identifier that had already been handed out at the start
    was there at the start, with the same author and the same creation
    time: no request transfers a notice to another author, and an
    identifier that has been deleted is never given to another notice. *)
Theorem authorship_is_permanent
        (history : list (Env * Request)) (w : World)
        (id : ObjectId) (n' : Notice.t) :
  (id < next_id w)%N ->
  find_notice id (notices (run history w)) = Some n' ->
  exists n,
    find_notice id (notices w) = Some n
    /\ Notice.author n' = Notice.author n
    /\ Notice.createdAt n' = Notice.createdAt n.
Proof.
  revert w. induction history as [|[env r] rest IH]; simpl; intros w Hold Hend.
  - now exists n'.
  - destruct (IH (snd (serve env r w))) as (n1 & Hmid & Ha1 & Hc1);
      [pose proof (serve_next_id env r w); lia | assumption |].
    destruct (serve_keeps_origin env r w id n1 Hold Hmid) as (n & Hstart & Ha & Hc).
    exists n. split; [assumption|]. split; congruence.
Qed.

Lemma authorship_is_permanent_witness :
  exists n,
    find_notice 10%N (notices Sample.school) = Some n
    /\ Notice.author
         (updated Sample.calm Sample.publish
                  (updated Sample.calm Sample.publish Sample.draft))
       = Notice.author n
    /\ Notice.createdAt
         (updated Sample.calm Sample.publish
                  (updated Sample.calm Sample.publish Sample.draft))
       = Notice.createdAt n.
Proof.
  apply (authorship_is_permanent
           [(Sample.calm, PutNotice Sample.dana 10%N Sample.publish);
            (Sample.calm, PostNotice Sample.eli Sample.post);
            (Sample.calm, PutNotice Sample.dana 10%N Sample.publish);
            (Sample.calm, DeleteNotice Sample.dana 11%N)]
           Sample.school 10%N).
  - reflexivity.
  - reflexivity.
Defined.

(** ** What the answers say *)

Lemma createNotice_outcome (env : Env) (user : Actor.t) (b : Body.t) (w : World) :
  (exists msg, createNotice env user b w = (respond 400 (Failure msg), w))
  \/ (success (fst (createNotice env user b w)) = true
      /\ status (fst (createNotice env user b w)) = 201).
Proof.
  destruct (audience_guard (Body.targetAudience b)) as [msg|] eqn:Hguard.
  - left. exists msg. now apply createNotice_guarded.
  - destruct (NoticeSchema.validate (Body.title b) (Body.content b)
                                    (Body.category b)) as [|e errors] eqn:Hv.
    + destruct (notice_create (faults env)) as [msg|] eqn:Hfault.
      * left. exists msg.
        unfold createNotice, handler. rewrite Hguard.
        unfold bind at 1. unfold Notice_create. rewrite Hv.
        unfold reject_if. now rewrite Hfault.
      * right. rewrite createNotice_valid; [split; reflexivity | | assumption].
        now split.
    + left. apply createNotice_invalid. rewrite Hv. discriminate.
Qed.

Lemma getNotices_outcome (env : Env) (q : Params.t) (w : World) :
  (exists msg, getNotices env q w = (respond 500 (Failure msg), w))
  \/ (success (fst (getNotices env q w)) = true
      /\ status (fst (getNotices env q w)) = 200).
Proof.
  unfold getNotices, handler, Notice_find, Notice_countDocuments, reject_if.
  destruct (notice_find (faults env)); [left; eexists; reflexivity|].
  unfold bind, get_world, ret, throw.
  destruct (matching env (build_filter q) (notices w)) as [found|] eqn:E;
    [|left; eexists; reflexivity].
  destruct (times _ _) as [s|]; [|left; eexists; reflexivity].
  destruct (Js.parseInt_param 10 (Params.limit q)) as [l|];
    [|left; eexists; reflexivity].
  destruct (s <? 0); [left; eexists; reflexivity|].
  destruct (notice_count (faults env)); [left; eexists; reflexivity|].
  rewrite E. right. split; reflexivity.
Qed.

Lemma getNotice_outcome (env : Env) (id : ObjectId) (w : World) :
  (exists st msg,
      getNotice env id w = (respond st (Failure msg), w)
      /\ (st = 404 \/ st = 500))
  \/ (success (fst (getNotice env id w)) = true
      /\ status (fst (getNotice env id w)) = 200).
Proof.
  destruct (notice_findById (faults env)) as [msg|] eqn:Hlookup.
  - left. exists 500, msg. split; [|now right].
    unfold getNotice, handler, bind, Notice_findById, reject_if.
    now rewrite Hlookup.
  - destruct (find_notice id (notices w)) as [n|] eqn:Hfound.
    + right. rewrite (getNotice_found env id w n) by assumption.
      split; reflexivity.
    + left. exists 404. eexists. split; [|now left].
      now apply getNotice_missing.
Qed.

Lemma updateNotice_outcome (env : Env) (user : Actor.t) (id : ObjectId)
      (b : Body.t) (w : World) :
  (exists st msg,
      updateNotice env user id b w = (respond st (Failure msg), w)
      /\ (st = 404 \/ st = 403 \/ st = 400))
  \/ (success (fst (updateNotice env user id b w)) = true
      /\ status (fst (updateNotice env user id b w)) = 200).
Proof.
  destruct (notice_findById (faults env)) as [msg|] eqn:Hlookup.
  - left. exists 400, msg. split; [|tauto].
    now apply updateNotice_lookup_fails.
  - destruct (find_notice id (notices w)) as [n|] eqn:Hfound.
    + destruct (not_owner n user) eqn:Hown.
      * left. exists 403. eexists. split; [|tauto].
        rewrite updateNotice_lookup by assumption.
        rewrite Hfound, Hown. reflexivity.
      * destruct (accepted_update_dec env b) as [Hyes | Hno].
        -- right. rewrite (updateNotice_accepted env user id b w n)
             by assumption.
           split; reflexivity.
        -- left. exists 400.
           destruct (updateNotice_refused env user id b w n) as [msg Hrun];
             try assumption.
           exists msg. split; [assumption | tauto].
    + left. exists 404. eexists. split; [|tauto].
      rewrite updateNotice_lookup by assumption. rewrite Hfound. reflexivity.
Qed.

Lemma deleteNotice_outcome (env : Env) (user : Actor.t) (id : ObjectId) (w : World) :
  (exists st msg,
      deleteNotice env user id w = (respond st (Failure msg), w)
      /\ (st = 404 \/ st = 403 \/ st = 500))
  \/ (success (fst (deleteNotice env user id w)) = true
      /\ status (fst (deleteNotice env user id w)) = 200).
Proof.
  destruct (notice_findById (faults env)) as [msg|] eqn:Hlookup.
  - left. exists 500, msg. split; [|tauto].
    now apply deleteNotice_lookup_fails.
  - rewrite deleteNotice_lookup by assumption.
    destruct (find_notice id (notices w)) as [n|] eqn:Hfound.
    + destruct (not_owner n user) eqn:Hown.
      * left. exists 403. eexists. split; [reflexivity | tauto].
      * unfold handler, bind, Notice_remove, reject_if.
        destruct (notice_remove (faults env)) as [msg|].
        -- left. exists 500, msg. split; [reflexivity | tauto].
        -- right. split; reflexivity.
    + left. exists 404. eexists. split; [reflexivity | tauto].
Qed.

Lemma getNoticeStats_outcome (env : Env) (user : Actor.t) (w : World) :
  (exists msg, getNoticeStats env user w = (respond 500 (Failure msg), w))
  \/ (success (fst (getNoticeStats env user w)) = true
      /\ status (fst (getNoticeStats env user w)) = 200).
Proof.
  unfold getNoticeStats, handler, bind, Notice_aggregate, reject_if,
    get_world, ret, throw.
  destruct (notice_aggregate (faults env) 0); [left; eexists; reflexivity|].
  destruct (notice_aggregate (faults env) 1); [left; eexists; reflexivity|].
  destruct (notice_aggregate (faults env) 2); [left; eexists; reflexivity|].
  right. split; reflexivity.
Qed.

(** A request either fails, with one of the statuses of its handler, and
    leaves the world as it was, or succeeds with the handler's success
    status. *)
Lemma serve_outcome (env : Env) (r : Request) (w : World) :
  (exists st msg,
      serve env r w = (respond st (Failure msg), w)
      /\ In st (failure_statuses r))
  \/ (success (fst (serve env r w)) = true
      /\ status (fst (serve env r w)) = ok_status r).
Proof.
  destruct r as [user b | q | id | user id b | user id | user]; simpl.
  - destruct (createNotice_outcome env user b w) as [[msg H] | H];
      [left; exists 400, msg; split; [assumption | now left] | now right].
  - destruct (getNotices_outcome env q w) as [[msg H] | H];
      [left; exists 500, msg; split; [assumption | now left] | now right].
  - destruct (getNotice_outcome env id w) as [(st & msg & H & Hst) | H];
      [left; exists st, msg; split; [assumption | simpl; intuition] | now right].
  - destruct (updateNotice_outcome env user id b w)
      as [(st & msg & H & Hst) | H];
      [left; exists st, msg; split; [assumption | simpl; intuition] | now right].
  - destruct (deleteNotice_outcome env user id w)
      as [(st & msg & H & Hst) | H];
      [left; exists st, msg; split; [assumption | simpl; intuition] | now right].
  - destruct (getNoticeStats_outcome env user w) as [[msg H] | H];
      [left; exists 500, msg; split; [assumption | now left] | now right].
Qed.

(** X24.  A failure changes nothing.  Whenever a handler answers with
    [success: false], whatever the reason, the world is exactly as it was
    before the request: no notice was stored, changed or removed, no
    notification written, no fan-out called. *)
Theorem failures_change_nothing (env : Env) (r : Request) (w : World) :
  success (fst (serve env r w)) = false ->
  snd (serve env r w) = w.
Proof.
  intros Hfail.
  destruct (serve_outcome env r w) as [(st & msg & -> & _) | [Hok _]].
  - reflexivity.
  - congruence.
Qed.

Lemma failures_change_nothing_witness :
  snd (serve Sample.notices_down (PutNotice Sample.dana 10%N Sample.publish)
             Sample.school)
  = Sample.school.
Proof.
  apply (failures_change_nothing Sample.notices_down
                                 (PutNotice Sample.dana 10%N Sample.publish)
                                 Sample.school).
  reflexivity.
Defined.

(** X25.  The statuses of the handlers.  A response is a success exactly
    when its status is 201, for a creation, or 200, for any other request;
    a failure of Create is always 400, of List and Stats always 500, of Get
    404 or 500, of Update 404, 403 or 400, of Delete 404, 403 or 500. *)
Theorem status_codes (env : Env) (r : Request) (w : World) :
  (success (fst (serve env r w)) = true
   <-> status (fst (serve env r w)) = ok_status r)
  /\ (success (fst (serve env r w)) = false
      <-> In (status (fst (serve env r w))) (failure_statuses r)).
Proof.
  destruct (serve_outcome env r w) as [(st & msg & -> & Hst) | [Hok Hstatus]].
  - simpl. split.
    + split; [discriminate|]. intros ->.
      destruct r; simpl in Hst; intuition discriminate.
    + tauto.
  - rewrite Hok, Hstatus. split; [tauto|].
    split; [discriminate|].
    destruct r; simpl; intuition discriminate.
Qed.

(** ** What a listing contains *)

Lemma getNotices_ok (env : Env) (q : Params.t) (w : World) :
  success (fst (getNotices env q w)) = true ->
  exists found s l,
    matching env (build_filter q) (notices w) = Some found
    /\ fst (getNotices env q w)
       = (let data := map (populate (users w)) (window s l (sort_desc found)) in
          respond 200
            (Page (Z.of_nat (List.length data)) (Z.of_nat (List.length found))
                  (total_pages (Z.of_nat (List.length found)) (Some l))
                  (Js.parseInt_param 1 (Params.page q)) data)).
Proof.
  unfold getNotices, handler, Notice_find, Notice_countDocuments, reject_if.
  destruct (notice_find (faults env)); [discriminate|].
  unfold bind, get_world, ret, throw.
  destruct (matching env (build_filter q) (notices w)) as [found|] eqn:E;
    [|discriminate].
  destruct (times _ _) as [s|]; [|discriminate].
  destruct (Js.parseInt_param 10 (Params.limit q)) as [l|]; [|discriminate].
  destruct (s <? 0); [discriminate|].
  destruct (notice_count (faults env)); [discriminate|].
  rewrite E. intros _. exists found, s, l. split; reflexivity.
Qed.

Lemma matching_sound (env : Env) (q : Params.t) (ns found : list Notice.t) :
  matching env (build_filter q) ns = Some found ->
  (List.length found <= List.length ns)%nat
  /\ forall n, In n found -> In n ns /\ satisfies_filters q n.
Proof.
  unfold matching. intros H.
  assert (Hsub : exists cs, found = filter (matches (build_filter q) cs) ns).
  { destruct (Filter.or_regex (build_filter q)) as [conds|].
    - destruct (compile_all env conds) as [cs|]; [|discriminate].
      injection H as <-. now exists (Some cs).
    - injection H as <-. now exists None. }
  destruct Hsub as [cs ->]. split; [apply filter_length_le|].
  intros n Hn. apply filter_In in Hn. destruct Hn as [Hin Hm].
  split; [assumption|]. apply filters_of_query.
  unfold matches in Hm. now apply andb_true_iff in Hm.
Qed.

Lemma In_window {A} (s l : Z) (xs : list A) (x : A) :
  In x (window s l xs) -> In x xs.
Proof.
  unfold window. intros H.
  assert (Hskip : In x (skipn (Z.to_nat s) xs)).
  { destruct (l =? 0); [assumption | now apply In_firstn in H]. }
  rewrite <- (firstn_skipn (Z.to_nat s) xs). apply in_or_app. now right.
Qed.

Lemma StronglySorted_skipn {A} (R : A -> A -> Prop) (k : nat) (xs : list A) :
  StronglySorted R xs -> StronglySorted R (skipn k xs).
Proof.
  revert xs. induction k as [|k IH]; intros xs Hs; [assumption|].
  destruct xs as [|x xs]; [constructor|].
  inversion Hs; subst. simpl. now apply IH.
Qed.

Lemma StronglySorted_firstn {A} (R : A -> A -> Prop) (k : nat) (xs : list A) :
  StronglySorted R xs -> StronglySorted R (firstn k xs).
Proof.
  revert xs. induction k as [|k IH]; intros xs Hs; [constructor|].
  destruct xs as [|x xs]; [constructor|].
  inversion Hs as [|? ? Hxs Hall]; subst. simpl.
  constructor; [now apply IH|].
  rewrite Forall_forall in *. intros y Hy. apply Hall. now apply In_firstn in Hy.
Qed.

Lemma window_sorted {A} (R : A -> A -> Prop) (s l : Z) (xs : list A) :
  StronglySorted R xs -> StronglySorted R (window s l xs).
Proof.
  intros Hs. unfold window.
  destruct (l =? 0); [|apply StronglySorted_firstn];
    now apply StronglySorted_skipn.
Qed.

Lemma docs_of_populated (us : list User.t) (ns : list Notice.t) :
  map Populated.doc (map (populate us) ns) = ns.
Proof.
  rewrite map_map. simpl. apply map_id.
Qed.

(** X26.  A list response invents nothing.  Whenever the listing succeeds,
    whatever the search pattern, every record it returns is a stored notice
    that satisfies all supplied filters among category, branch, year and
    teacher; the records are in order, newest first; [count] is their
    number, and it is at most [total], which is at most the number of
    stored notices. *)
Theorem listing_is_sound (env : Env) (q : Params.t) (w : World) :
  success (fst (getNotices env q w)) = true ->
  exists count total pages page data,
    payload (fst (getNotices env q w)) = Page count total pages page data
    /\ count = Z.of_nat (List.length data)
    /\ count <= total <= Z.of_nat (List.length (notices w))
    /\ (forall r, In r data ->
                  In (Populated.doc r) (notices w)
                  /\ satisfies_filters q (Populated.doc r))
    /\ StronglySorted not_older (map Populated.doc data).
Proof.
  intros Hok.
  destruct (getNotices_ok env q w Hok) as (found & s & l & Hfound & ->).
  destruct (matching_sound env q (notices w) found Hfound) as [Hlen Hsound].
  cbv zeta. simpl payload. do 5 eexists.
  split; [reflexivity|]. split; [reflexivity|].
  assert (Hwin : (List.length (window s l (sort_desc found))
                  <= List.length found)%nat).
  { rewrite <- (Permutation_length (sort_by_perm newer_first found)).
    fold (sort_desc found). unfold window.
    destruct (l =? 0); rewrite ?length_firstn, length_skipn; lia. }
  split; [rewrite length_map; lia|].
  split.
  - intros r Hr. apply in_map_iff in Hr. destruct Hr as (n & <- & Hn).
    simpl. apply Hsound. apply In_window in Hn.
    eapply Permutation_in; [apply sort_by_perm | exact Hn].
  - rewrite docs_of_populated. apply window_sorted, sort_desc_sorted.
Qed.

Lemma listing_is_sound_witness :
  exists count total pages page data,
    payload (fst (getNotices Sample.calm (Sample.search_for "a.c") Sample.school))
    = Page count total pages page data
    /\ count = Z.of_nat (List.length data)
    /\ count <= total <= Z.of_nat (List.length (notices Sample.school))
    /\ (forall r, In r data ->
                  In (Populated.doc r) (notices Sample.school)
                  /\ satisfies_filters (Sample.search_for "a.c") (Populated.doc r))
    /\ StronglySorted not_older (map Populated.doc data).
Proof.
  apply (listing_is_sound Sample.calm (Sample.search_for "a.c") Sample.school).
  reflexivity.
Defined.
